(** * Price validation: key parsing, inconsistency detection and repair

    A shallow embedding of [main.py] and [modified_version.py].  The two
    files share the rank tables, [PriceElement], [parse_price_key],
    [build_price_items] and [detect_inconsistencies]; they differ in
    [fix_products_inplace], which is embedded once per file, in the
    modules [Modified] and [Main].

    Conventions of the embedding:
    - a Python [str] is a [string], read as a sequence of code points
      below 256; a Python [int] is a [Z]; a Python [float] is an IEEE 754
      binary64 value, a [spec_float] with precision 53 and [emax] 1024;
    - [int] of a string, and [str], [repr] and an f-string of an int,
      raise [ValueError] above the interpreter's default of 4300 decimal
      digits ([int_max_str_digits]);
    - a [dict] is an association list in insertion order;
    - the price table and the list of elements live in a [store] that the
      operations thread; an exception leaves the store as it was when the
      exception was raised. *)

From Stdlib Require Import ZArith List String Ascii Bool Lia Permutation.
From Stdlib Require Import SpecFloat DecimalString.
From Stdlib Require DecimalPos.
From Stdlib Require Import QArith Qpower Lqa.
Import ListNotations.

Local Open Scope string_scope.
Local Open Scope Z_scope.

(** ** Exceptions and results *)

Inductive exn : Type :=
| KeyError_product (product : string)
| KeyError_variant (variant : option string)
| KeyError_deductible (deductible : option Z)
| KeyError_price (key : string)
| ValueError
| TypeError
| ZeroDivisionError
| OverflowError
| UnboundLocalError.

Inductive result (A : Type) : Type :=
| Ok (a : A)
| Raise (e : exn).

Arguments Ok {A} a.
Arguments Raise {A} e.

Definition rbind {A B : Type} (r : result A) (k : A -> result B) : result B :=
  match r with
  | Ok a => k a
  | Raise e => Raise e
  end.

Definition is_ok {A : Type} (r : result A) : bool :=
  match r with
  | Ok _ => true
  | Raise _ => false
  end.

(** ** Floats and the arithmetic the repair uses *)

Module Float.

Definition prec : Z := 53.
Definition emax : Z := 1024.

Definition float : Type := spec_float.

Definition mul : float -> float -> float := SFmul prec emax.
Definition div : float -> float -> float := SFdiv prec emax.

Definition one : float := S754_finite false 4503599627370496 (-52).

(** [x == 0] on a float: true on both zeros, false on NaN. *)
Definition is_zero (x : float) : bool :=
  match x with
  | S754_zero _ => true
  | _ => false
  end.

(** [float(n)]: the nearest binary64, ties to even; [OverflowError]
    when that is out of range. *)
Definition of_int (n : Z) : result float :=
  match binary_normalize prec emax n 0 false with
  | S754_infinity _ => Raise OverflowError
  | x => Ok x
  end.

(** [n * x] for an int [n] and a float [x]. *)
Definition int_mul (n : Z) (x : float) : result float :=
  rbind (of_int n) (fun f => Ok (mul f x)).

(** [x / y] on floats: only a zero divisor raises. *)
Definition truediv (x y : float) : result float :=
  if is_zero y then Raise ZeroDivisionError else Ok (div x y).

(** [n / d] on ints: the correctly rounded quotient. *)
Definition int_truediv (n d : Z) : result float :=
  match d, n with
  | Z0, _ => Raise ZeroDivisionError
  | Zpos _, Z0 => Ok (S754_zero false)
  | Zneg _, Z0 => Ok (S754_zero true)
  | _, _ =>
      match div (S754_finite (n <? 0) (Z.to_pos (Z.abs n)) 0)
                (S754_finite (d <? 0) (Z.to_pos (Z.abs d)) 0) with
      | S754_infinity _ => Raise OverflowError
      | x => Ok x
      end
  end.

(** Nearest integer to [m * 2^e], ties to even. *)
Definition round_half_even (m : positive) (e : Z) : Z :=
  match e with
  | Zneg p =>
      let d := Z.pow_pos 2 p in
      let q := Z.div (Zpos m) d in
      let r := Z.modulo (Zpos m) d in
      match Z.compare (2 * r) d with
      | Lt => q
      | Gt => q + 1
      | Eq => if Z.even q then q else q + 1
      end
  | _ => Zpos m * 2 ^ e
  end.

(** [round(x)], which is also [int(round(x))]. *)
Definition round (x : float) : result Z :=
  match x with
  | S754_zero _ => Ok 0
  | S754_finite s m e =>
      Ok (if s then - round_half_even m e else round_half_even m e)
  | S754_infinity _ => Raise OverflowError
  | S754_nan => Raise ValueError
  end.

(** [x ** n] for the exponents that occur, [0], [1] and [2] (a rank
    minus one): [1.0], [x] and the correctly rounded square. *)
Fixpoint pow_nat (x : float) (n : nat) : float :=
  match n with
  | O => one
  | S k => mul x (pow_nat x k)
  end.

Definition pow (x : float) (n : Z) : float := pow_nat x (Z.to_nat n).

(** The literals [0.9] and [1.07]. *)
Definition lit_0_9 : float := S754_finite false 8106479329266893 (-53).
Definition lit_1_07 : float := S754_finite false 4818851601286431 (-52).

End Float.

(** ** Strings: [split], [join], [int] and [str] *)

Definition underscore : ascii := "_"%char.

(** [s.split(sep)] for a one-character separator. *)
Fixpoint split (sep : ascii) (s : string) : list string :=
  match s with
  | EmptyString => [EmptyString]
  | String c rest =>
      if Ascii.eqb c sep then EmptyString :: split sep rest
      else match split sep rest with
           | tok :: toks => String c tok :: toks
           | [] => [String c EmptyString]
           end
  end.

(** [sep.join(parts)]. *)
Fixpoint join (sep : string) (parts : list string) : string :=
  match parts with
  | [] => EmptyString
  | [p] => p
  | p :: ps => p ++ sep ++ join sep ps
  end.

(** Code points that [int] strips on both sides. *)
Definition is_space (c : ascii) : bool :=
  let n := nat_of_ascii c in
  (Nat.leb 9 n && Nat.leb n 13) || Nat.eqb n 32 || Nat.eqb n 133 || Nat.eqb n 160.

Definition digit_value (c : ascii) : option Z :=
  let n := nat_of_ascii c in
  if Nat.leb 48 n && Nat.leb n 57 then Some (Z.of_nat (n - 48)) else None.

Fixpoint lstrip (s : string) : string :=
  match s with
  | String c rest => if is_space c then lstrip rest else s
  | EmptyString => EmptyString
  end.

(** Drops trailing spaces: the result is empty when only spaces follow. *)
Fixpoint rstrip (s : string) : string :=
  match s with
  | EmptyString => EmptyString
  | String c rest =>
      match rstrip rest with
      | EmptyString => if is_space c then EmptyString else String c EmptyString
      | r => String c r
      end
  end.

Fixpoint digits_value (acc : Z) (s : string) : option Z :=
  match s with
  | EmptyString => Some acc
  | String c rest =>
      match digit_value c with
      | Some d => digits_value (10 * acc + d) rest
      | None => None
      end
  end.

(** The default of [sys.get_int_max_str_digits()]: [int] of a string and
    [str] of an int raise [ValueError] when more decimal digits than this
    are involved.  Leading zeros count, the sign and the stripped spaces
    do not. *)
Definition int_max_str_digits : Z := 4300.

Definition unsigned_value (s : string) : option Z :=
  match s with
  | EmptyString => None
  | _ =>
      if int_max_str_digits <? Z.of_nat (String.length s) then None
      else digits_value 0 s
  end.

(** [int(s)] on a token that holds no underscore: spaces stripped, an
    optional sign, then one or more decimal digits, at most
    [int_max_str_digits] of them.  Every failure is a [ValueError]. *)
Definition py_int (s : string) : result Z :=
  let body := rstrip (lstrip s) in
  let signed :=
    match body with
    | String "-" rest => option_map Z.opp (unsigned_value rest)
    | String "+" rest => unsigned_value rest
    | _ => unsigned_value body
    end in
  match signed with
  | Some n => Ok n
  | None => Raise ValueError
  end.

(** The decimal rendering of an int: a minus sign when it is negative,
    then its digits without leading zeros.  It is what [str(n)] returns
    when it returns. *)
Definition py_str (n : Z) : string := NilZero.string_of_int (Z.to_int n).

(** [str(n)], [repr(n)] and [f"{n}"] on an int: the decimal rendering, or
    [ValueError] when it has more than [int_max_str_digits] digits. *)
Definition py_format (n : Z) : result string :=
  if int_max_str_digits <? Z.of_nat (String.length (py_str (Z.abs n)))
  then Raise ValueError
  else Ok (py_str n).

(** Strings made of decimal digits only, as [str] renders a natural
    number: none of their characters is a space or a sign. *)
Fixpoint only_digits (s : string) : bool :=
  match s with
  | EmptyString => true
  | String c rest =>
      match digit_value c with
      | Some _ => only_digits rest
      | None => false
      end
  end.

(** ** Rank tables *)

Definition product_rank : list (string * Z) :=
  [("mtpl", 1); ("limited_casco", 2); ("casco", 3)].

Definition variants_rank : list (string * Z) :=
  [("compact", 1); ("basic", 1); ("comfort", 2); ("premium", 3)].

Definition deductables_rank : list (Z * Z) :=
  [(100, 1); (200, 2); (500, 3)].

Definition core_product : list string := ["mtpl"].

(** [d.get(k)] on an association list. *)
Fixpoint dict_get {V : Type} (d : list (string * V)) (k : string) : option V :=
  match d with
  | [] => None
  | (k', v) :: rest => if String.eqb k' k then Some v else dict_get rest k
  end.

Fixpoint zdict_get {V : Type} (d : list (Z * V)) (k : Z) : option V :=
  match d with
  | [] => None
  | (k', v) :: rest => if Z.eqb k' k then Some v else zdict_get rest k
  end.

Definition get_product_rank (product : string) : result Z :=
  match dict_get product_rank product with
  | Some r => Ok r
  | None => Raise (KeyError_product product)
  end.

Definition get_variant_rank (variant : option string) : result Z :=
  match variant with
  | Some v =>
      match dict_get variants_rank v with
      | Some r => Ok r
      | None => Raise (KeyError_variant variant)
      end
  | None => Raise (KeyError_variant None)
  end.

(** The handler builds the message of its [KeyError] from
    [repr(deductible)], which fails on an int of too many digits. *)
Definition get_deductible_rank (deductible : option Z) : result Z :=
  match deductible with
  | Some d =>
      match zdict_get deductables_rank d with
      | Some r => Ok r
      | None =>
          rbind (py_format d) (fun _ => Raise (KeyError_deductible deductible))
      end
  | None => Raise (KeyError_deductible None)
  end.

Definition is_core_product (product : string) : bool :=
  existsb (String.eqb product) core_product.

(** ** Price elements and the key parser *)

Record PriceElement : Type := mkPriceElement {
  key : string;
  product : string;
  variant : option string;
  deductible : option Z
}.

Definition parse_price_key (input_key : string) : result PriceElement :=
  match split underscore input_key with
  | [p0; p1; p2; p3] =>
      if String.eqb p0 "limited" && String.eqb p1 "casco" then
        rbind (py_int p3) (fun d =>
          Ok (mkPriceElement input_key "limited_casco" (Some p2) (Some d)))
      else Raise ValueError
  | [p0; p1; p2] =>
      rbind (py_int p2) (fun d =>
        Ok (mkPriceElement input_key p0 (Some p1) (Some d)))
  | _ => Raise ValueError
  end.

(** The body of the loop of [build_price_items]: the element of one key. *)
Definition build_item (input_key : string) : result PriceElement :=
  if is_core_product input_key
  then Ok (mkPriceElement input_key input_key None None)
  else parse_price_key input_key.

Fixpoint build_price_items (prices : list (string * Z)) : result (list PriceElement) :=
  match prices with
  | [] => Ok []
  | (input_key, _) :: rest =>
      rbind (build_item input_key) (fun it =>
      rbind (build_price_items rest) (fun items => Ok (it :: items)))
  end.

(** The parts of an element put back together, as the round-trip property
    words it: product, variant and the decimal rendering of the deductible
    joined by the delimiter, or the product alone for a core element. *)
Definition rejoin_parts (e : PriceElement) : string :=
  match variant e, deductible e with
  | Some v, Some d => join "_" [product e; v; py_str d]
  | _, _ => product e
  end.

(** ** The store and the monad of operations on it *)

Record store : Type := mkStore {
  st_items : list PriceElement;
  st_prices : list (string * Z)
}.

Definition M (A : Type) : Type := store -> store * result A.

Definition ret {A : Type} (a : A) : M A := fun s => (s, Ok a).

Definition bind {A B : Type} (m : M A) (k : A -> M B) : M B :=
  fun s =>
    match m s with
    | (s', Ok a) => k a s'
    | (s', Raise e) => (s', Raise e)
    end.

Definition lift {A : Type} (r : result A) : M A := fun s => (s, r).

Definition raise {A : Type} (e : exn) : M A := lift (Raise e).

Declare Scope py_scope.
Delimit Scope py_scope with py.
Notation "x <- m ;; k" := (bind m (fun x => k))
  (at level 61, m at next level, right associativity) : py_scope.
Notation "m ;;; k" := (bind m (fun _ => k))
  (at level 61, right associativity) : py_scope.
Local Open Scope py_scope.

Definition get_items : M (list PriceElement) := fun s => (s, Ok (st_items s)).

(** [prices[k]], read. *)
Definition price_of (k : string) : M Z :=
  fun s =>
    (s, match dict_get (st_prices s) k with
        | Some v => Ok v
        | None => Raise (KeyError_price k)
        end).

(** [d[k] = v]: an existing entry keeps its place, a new one goes last. *)
Fixpoint dict_set {V : Type} (d : list (string * V)) (k : string) (v : V) : list (string * V) :=
  match d with
  | [] => [(k, v)]
  | (k', v') :: rest =>
      if String.eqb k' k then (k', v) :: rest else (k', v') :: dict_set rest k v
  end.

(** [prices[k] = v], written. *)
Definition set_price (k : string) (v : Z) : M unit :=
  fun s => (mkStore (st_items s) (dict_set (st_prices s) k v), Ok tt).

(** [for x in l: acc = f(x, acc)]. *)
Fixpoint foreach {A B : Type} (l : list A) (f : A -> B -> M B) (acc : B) : M B :=
  match l with
  | [] => ret acc
  | x :: rest => acc' <- f x acc ;; foreach rest f acc'
  end.

(** [for i in range(n): for j in range(i + 1, n): acc = f(l[i], l[j], acc)]. *)
Fixpoint for_pairs {A B : Type} (l : list A) (f : A -> A -> B -> M B) (acc : B) : M B :=
  match l with
  | [] => ret acc
  | a :: rest => acc' <- foreach rest (f a) acc ;; for_pairs rest f acc'
  end.

Definition option_eqb {A : Type} (eqb : A -> A -> bool) (x y : option A) : bool :=
  match x, y with
  | Some a, Some b => eqb a b
  | None, None => true
  | _, _ => false
  end.

Definition variant_eqb : option string -> option string -> bool := option_eqb String.eqb.
Definition deductible_eqb : option Z -> option Z -> bool := option_eqb Z.eqb.

(** ** The detector *)

Definition newline : string := String (ascii_of_nat 10) EmptyString.

(** One line of the report: ["<rule>: '<k1>' (<p1>) should be cheaper than
    '<k2>' (<p2>)."].  The f-string formats the two prices from left to
    right, and fails when one of them has too many digits. *)
Definition order_line (rule : string) (cheap : PriceElement) (cheap_price : Z)
    (dear : PriceElement) (dear_price : Z) : result string :=
  rbind (py_format cheap_price) (fun p1 =>
  rbind (py_format dear_price) (fun p2 =>
    Ok (rule ++ ": '" ++ key cheap ++ "' (" ++ p1
             ++ ") should be cheaper than '" ++ key dear ++ "' (" ++ p2 ++ ")."))).

(** [report.append(line)]. *)
Definition append_line (report : list string) (line : string) : list string :=
  (report ++ [line])%list.

(** [report.append(f"...")]: the line is built first. *)
Definition report_line (report : list string) (line : result string)
  : result (list string) :=
  rbind line (fun l => Ok (append_line report l)).

(** The body of the pair loop is four [if] blocks in a row, one per rule;
    each is given here as the report it leaves, or the [ValueError] of
    the line it could not format.  [lower is a] holds
    exactly when the pair was not swapped, so the prices follow the same
    test as the elements. *)

(** [if pa != pb: ...], the order of the core product. *)
Definition check_product_order (a b : PriceElement) (price_a price_b pa pb : Z)
    (report : list string) : result (list string) :=
  if negb (pa =? pb) then
    let lower := if pa <? pb then a else b in
    let higher := if pa <? pb then b else a in
    let lower_price := if pa <? pb then price_a else price_b in
    let higher_price := if pa <? pb then price_b else price_a in
    if is_core_product (product lower) && (lower_price >=? higher_price)
    then report_line report
           (order_line "PRODUCT ORDER" lower lower_price higher higher_price)
    else Ok report
  else Ok report.

(** The order of two non-core products at the same variant and
    deductible; the ranks it looks up again are [pa] and [pb]. *)
Definition check_cross_product_order (a b : PriceElement) (price_a price_b pa pb : Z)
    (report : list string) : result (list string) :=
  if negb (String.eqb (product a) (product b))
     && negb (is_core_product (product a)) && negb (is_core_product (product b))
     && variant_eqb (variant a) (variant b)
     && deductible_eqb (deductible a) (deductible b)
  then
    let lower_p := if pa <? pb then a else b in
    let higher_p := if pa <? pb then b else a in
    let lower_price := if pa <? pb then price_a else price_b in
    let higher_price := if pa <? pb then price_b else price_a in
    if lower_price >=? higher_price
    then report_line report
           (order_line "PRODUCT ORDER (same variant+deductible)"
                       lower_p lower_price higher_p higher_price)
    else Ok report
  else Ok report.

(** The order of the variants of one product at one deductible. *)
Definition check_variant_order (a b : PriceElement) (price_a price_b : Z)
    (report : list string) : M (list string) :=
  if String.eqb (product a) (product b)
     && negb (is_core_product (product a)) && negb (is_core_product (product b))
     && deductible_eqb (deductible a) (deductible b)
  then
    va <- lift (get_variant_rank (variant a)) ;;
    vb <- lift (get_variant_rank (variant b)) ;;
    if negb (va =? vb) then
      let lower_v := if va <? vb then a else b in
      let higher_v := if va <? vb then b else a in
      let lower_price := if va <? vb then price_a else price_b in
      let higher_price := if va <? vb then price_b else price_a in
      if lower_price >=? higher_price
      then lift (report_line report
                   (order_line "VARIANT ORDER" lower_v lower_price higher_v higher_price))
      else ret report
    else ret report
  else ret report.

(** The order of the deductibles of one product at one variant. *)
Definition check_deductible_order (a b : PriceElement) (price_a price_b : Z)
    (report : list string) : M (list string) :=
  if String.eqb (product a) (product b)
     && negb (is_core_product (product a)) && negb (is_core_product (product b))
     && variant_eqb (variant a) (variant b)
  then
    da <- lift (get_deductible_rank (deductible a)) ;;
    db <- lift (get_deductible_rank (deductible b)) ;;
    if negb (da =? db) then
      let lower_d := if da <? db then a else b in
      let higher_d := if da <? db then b else a in
      let lower_price := if da <? db then price_a else price_b in
      let higher_price := if da <? db then price_b else price_a in
      if higher_price >=? lower_price
      then lift (report_line report
                   (order_line "DEDUCTIBLE ORDER" higher_d higher_price lower_d lower_price))
      else ret report
    else ret report
  else ret report.

Definition detect_pair (a b : PriceElement) (report : list string) : M (list string) :=
  price_a <- price_of (key a) ;;
  price_b <- price_of (key b) ;;
  pa <- lift (get_product_rank (product a)) ;;
  pb <- lift (get_product_rank (product b)) ;;
  report <- lift (check_product_order a b price_a price_b pa pb report) ;;
  report <- lift (check_cross_product_order a b price_a price_b pa pb report) ;;
  report <- check_variant_order a b price_a price_b report ;;
  check_deductible_order a b price_a price_b report.

(** The lines of the report, in the order of the pair scan. *)
Definition detect_lines : M (list string) :=
  items <- get_items ;;
  for_pairs items detect_pair [].

Definition detect_inconsistencies : M string :=
  report <- detect_lines ;;
  ret (join newline report).

(** ** The repair of [modified_version.py] *)

Module Modified.

Definition group_items (items : list PriceElement) (predicate : PriceElement -> bool)
  : list PriceElement :=
  filter predicate items.

Definition max_price_in_group (items : list PriceElement)
    (predicate : PriceElement -> result bool) : M (option Z) :=
  foreach items (fun it mx =>
    sel <- lift (predicate it) ;;
    if sel : bool then
      p <- price_of (key it) ;;
      ret (Some (match mx with None => p | Some m => Z.max m p end))
    else ret mx) None.

Definition min_price_in_group (items : list PriceElement)
    (predicate : PriceElement -> result bool) : M (option Z) :=
  foreach items (fun it mn =>
    sel <- lift (predicate it) ;;
    if sel : bool then
      p <- price_of (key it) ;;
      ret (Some (match mn with None => p | Some m => Z.min m p end))
    else ret mn) None.

(** One step of a loop that rewrites a price: the write and the flag
    happen only when the new price differs from the stored one. *)
Definition write_if_new (it : PriceElement) (new_val : Z) (changed : bool) : M bool :=
  p <- price_of (key it) ;;
  if negb (new_val =? p) then set_price (key it) new_val ;;; ret true
  else ret changed.

Definition scale_product (items : list PriceElement) (product' : string)
    (factor : Float.float) : M bool :=
  foreach items (fun it changed =>
    if String.eqb (product it) product' then
      p <- price_of (key it) ;;
      x <- lift (Float.int_mul p factor) ;;
      new_val <- lift (Float.round x) ;;
      write_if_new it new_val changed
    else ret changed) false.

Definition apply_deductible_schedule (group : list PriceElement) (base : Z) : M bool :=
  foreach group (fun it changed =>
    r <- lift (get_deductible_rank (deductible it)) ;;
    x <- lift (Float.int_mul base (Float.pow Float.lit_0_9 (r - 1))) ;;
    new_price <- lift (Float.round x) ;;
    write_if_new it new_price changed) false.

Definition apply_variant_schedule (group : list PriceElement) (base : Z) : M bool :=
  foreach group (fun it changed =>
    r <- lift (get_variant_rank (variant it)) ;;
    x <- lift (Float.int_mul base (Float.pow Float.lit_1_07 (r - 1))) ;;
    new_price <- lift (Float.round x) ;;
    write_if_new it new_price changed) false.

(** [None if core else rank]. *)
Definition rank_unless_core (core : bool) (r : result Z) : M (option Z) :=
  if core then ret None else v <- lift r ;; ret (Some v).

(** [x < y] on two ranks that may be [None]. *)
Definition rank_lt (x y : option Z) : M bool :=
  match x, y with
  | Some u, Some v => ret (u <? v)
  | _, _ => raise TypeError
  end.

(** The branch of a pair of different product ranks. *)
Definition fix_product_order (items : list PriceElement)
    (avg_prices : list (string * Float.float))
    (lower higher : PriceElement) (changed : bool) : M bool :=
  lower_price <- price_of (key lower) ;;
  higher_price <- price_of (key higher) ;;
  let lower_is_core := is_core_product (product lower) in
  let higher_is_core := is_core_product (product higher) in
  match dict_get avg_prices (product lower), dict_get avg_prices (product higher) with
  | Some avg_low, Some avg_high =>
      if Float.is_zero avg_low then ret changed
      else
        ratio <- lift (Float.truediv avg_high avg_low) ;;
        if lower_price >=? higher_price then
          changed <-
            (if negb lower_is_core && negb higher_is_core
                && variant_eqb (variant lower) (variant higher)
                && deductible_eqb (deductible lower) (deductible higher)
             then
               old_h <- price_of (key higher) ;;
               x <- lift (Float.int_mul lower_price ratio) ;;
               new_h <- lift (Float.round x) ;;
               if negb (old_h =? 0) then
                 factor <- lift (Float.int_truediv new_h old_h) ;;
                 set_price (key higher) new_h ;;;
                 c <- scale_product items (product higher) factor ;;
                 ret (changed || c)
               else ret changed
             else ret changed) ;;
          if lower_is_core && negb higher_is_core then
            old_min <- min_price_in_group items
                         (fun it => Ok (String.eqb (product it) (product higher))) ;;
            match old_min with
            | Some old_min' =>
                if negb (old_min' =? 0) then
                  x <- lift (Float.int_mul lower_price ratio) ;;
                  new_min <- lift (Float.round x) ;;
                  factor <- lift (Float.int_truediv new_min old_min') ;;
                  c <- scale_product items (product higher) factor ;;
                  ret (changed || c)
                else ret changed
            | None => ret changed
            end
          else ret changed
        else ret changed
  | _, _ => ret changed
  end.

(** The deductible branch of a pair of equal product rank. *)
Definition fix_deductible_order (items : list PriceElement) (a b : PriceElement)
    (da db : option Z) (changed : bool) : M bool :=
  lt <- rank_lt da db ;;
  let lower_d := if lt : bool then a else b in
  let higher_d := if lt : bool then b else a in
  lower_price <- price_of (key lower_d) ;;
  higher_price <- price_of (key higher_d) ;;
  if lower_price <=? higher_price then
    let group := group_items items (fun it =>
      String.eqb (product it) (product a)
      && negb (is_core_product (product it))
      && variant_eqb (variant it) (variant a)) in
    base <- max_price_in_group group (fun it =>
      rbind (get_deductible_rank (deductible it)) (fun r => Ok (r =? 1))) ;;
    match base with
    | Some base' => c <- apply_deductible_schedule group base' ;; ret (changed || c)
    | None => ret changed
    end
  else ret changed.

(** The variant branch of a pair of equal product rank. *)
Definition fix_variant_order (items : list PriceElement) (a b : PriceElement)
    (va vb : option Z) (changed : bool) : M bool :=
  lt <- rank_lt va vb ;;
  let lower_v := if lt : bool then a else b in
  let higher_v := if lt : bool then b else a in
  lower_price <- price_of (key lower_v) ;;
  higher_price <- price_of (key higher_v) ;;
  if lower_price >=? higher_price then
    let group := group_items items (fun it =>
      String.eqb (product it) (product a)
      && negb (is_core_product (product it))
      && deductible_eqb (deductible it) (deductible a)) in
    base <- max_price_in_group group (fun it =>
      rbind (get_variant_rank (variant it)) (fun r => Ok (r =? 1))) ;;
    match base with
    | Some base' => c <- apply_variant_schedule group base' ;; ret (changed || c)
    | None => ret changed
    end
  else ret changed.

(** The body of the pair loop. *)
Definition fix_pair (items : list PriceElement)
    (avg_prices : list (string * Float.float))
    (a b : PriceElement) (changed : bool) : M bool :=
  pa <- lift (get_product_rank (product a)) ;;
  pb <- lift (get_product_rank (product b)) ;;
  let a_is_core := is_core_product (product a) in
  let b_is_core := is_core_product (product b) in
  va <- rank_unless_core a_is_core (get_variant_rank (variant a)) ;;
  vb <- rank_unless_core b_is_core (get_variant_rank (variant b)) ;;
  da <- rank_unless_core a_is_core (get_deductible_rank (deductible a)) ;;
  db <- rank_unless_core b_is_core (get_deductible_rank (deductible b)) ;;
  price_a <- price_of (key a) ;;
  price_b <- price_of (key b) ;;
  if negb (pa =? pb) then
    let lower := if pa <? pb then a else b in
    let higher := if pa <? pb then b else a in
    fix_product_order items avg_prices lower higher changed
  else
    changed <-
      (if negb a_is_core && negb b_is_core
          && option_eqb Z.eqb va vb && negb (option_eqb Z.eqb da db)
       then fix_deductible_order items a b da db changed
       else ret changed) ;;
    if negb a_is_core && negb b_is_core
       && option_eqb Z.eqb da db && negb (option_eqb Z.eqb va vb)
    then fix_variant_order items a b va vb changed
    else ret changed.

(** One iteration of the outer loop: a full pair scan, which returns its
    [changed] flag. *)
Definition fix_pass (avg_prices : list (string * Float.float)) : M bool :=
  items <- get_items ;;
  for_pairs items (fix_pair items avg_prices) false.

(** The outer loop over a budget of iterations; it returns how many
    iterations it ran. *)
Fixpoint fix_loop (avg_prices : list (string * Float.float)) (budget : nat) : M nat :=
  match budget with
  | O => ret O
  | S budget' =>
      changed <- fix_pass avg_prices ;;
      if changed : bool then
        n <- fix_loop avg_prices budget' ;; ret (S n)
      else ret 1%nat
  end.

Definition fix_products_inplace (avg_prices : list (string * Float.float))
    (max_iters : Z) : M unit :=
  fix_loop avg_prices (Z.to_nat max_iters) ;;; ret tt.

End Modified.

(** ** The repair of [main.py] *)

Module Main.

(** The locals of [fix_products_inplace] that outlive one pair:
    [lower_is_core] and [higher_is_core] are assigned only in the branch
    of different product ranks and read in the other one, so they are
    unbound until the first such pair and stale afterwards. *)
Record locals : Type := mkLocals {
  lower_is_core : option bool;
  higher_is_core : option bool;
  changed : bool
}.

Definition set_changed (l : locals) : locals :=
  mkLocals (lower_is_core l) (higher_is_core l) true.

Definition read_local (v : option bool) : M bool :=
  match v with
  | Some b => ret b
  | None => raise UnboundLocalError
  end.

(** [not lower_is_core and not higher_is_core], left to right. *)
Definition neither_is_core (l : locals) : M bool :=
  lic <- read_local (lower_is_core l) ;;
  if lic : bool then ret false
  else hic <- read_local (higher_is_core l) ;; ret (negb hic).

Definition rank_unless_core (core : bool) (r : result Z) : M (option Z) :=
  if core then ret None else v <- lift r ;; ret (Some v).

Definition rank_lt (x y : option Z) : M bool :=
  match x, y with
  | Some u, Some v => ret (u <? v)
  | _, _ => raise TypeError
  end.

(** [avg_high / avg_low] on the results of two [get]s. *)
Definition avg_ratio (avg_high avg_low : option Float.float) : result Float.float :=
  match avg_high, avg_low with
  | Some h, Some l => Float.truediv h l
  | _, _ => Raise TypeError
  end.

(** [new_min / old_min] when [old_min] may still be [None]. *)
Definition int_truediv_opt (n : Z) (d : option Z) : result Float.float :=
  match d with
  | Some d' => Float.int_truediv n d'
  | None => Raise TypeError
  end.

(** [base * x] when [base] may still be [None]. *)
Definition int_mul_opt (base : option Z) (x : Float.float) : result Float.float :=
  match base with
  | Some b => Float.int_mul b x
  | None => Raise TypeError
  end.

(** The branch of a pair of different product ranks. *)
Definition fix_product_order (items : list PriceElement)
    (avg_prices : list (string * Float.float))
    (lower higher : PriceElement) (l : locals) : M locals :=
  let l := mkLocals (Some (is_core_product (product lower)))
                    (Some (is_core_product (product higher))) (changed l) in
  lower_price <- price_of (key lower) ;;
  higher_price <- price_of (key higher) ;;
  let avg_low := dict_get avg_prices (product lower) in
  let avg_high := dict_get avg_prices (product higher) in
  ratio <- lift (avg_ratio avg_high avg_low) ;;
  if lower_price >=? higher_price then
    (if negb (is_core_product (product lower)) && negb (is_core_product (product higher))
        && variant_eqb (variant lower) (variant higher)
        && deductible_eqb (deductible lower) (deductible higher)
     then
       old_h <- price_of (key higher) ;;
       x <- lift (Float.int_mul lower_price ratio) ;;
       new_h <- lift (Float.round x) ;;
       factor <- lift (Float.int_truediv new_h old_h) ;;
       set_price (key higher) new_h
     else ret tt) ;;;
    (if is_core_product (product lower) && negb (is_core_product (product higher))
     then
       old_min <- foreach items (fun it old_min =>
         if String.eqb (product it) (product higher) then
           p <- price_of (key it) ;;
           ret (Some (match old_min with None => p | Some m => Z.min m p end))
         else ret old_min) None ;;
       x <- lift (Float.int_mul lower_price ratio) ;;
       new_min <- lift (Float.round x) ;;
       factor <- lift (int_truediv_opt new_min old_min) ;;
       foreach items (fun it (_ : unit) =>
         if String.eqb (product it) (product higher) then
           p <- price_of (key it) ;;
           y <- lift (Float.int_mul p factor) ;;
           new_val <- lift (Float.round y) ;;
           set_price (key it) new_val
         else ret tt) tt
     else ret tt) ;;;
    ret l
  else ret l.

(** The deductible branch of a pair of equal product rank. *)
Definition fix_deductible_order (items : list PriceElement) (a b : PriceElement)
    (da db : option Z) (l : locals) : M locals :=
  lt <- rank_lt da db ;;
  let lower_d := if lt : bool then a else b in
  let higher_d := if lt : bool then b else a in
  lower_price <- price_of (key lower_d) ;;
  higher_price <- price_of (key higher_d) ;;
  if lower_price <=? higher_price then
    let group := filter (fun it =>
      String.eqb (product it) (product a)
      && negb (is_core_product (product it))
      && variant_eqb (variant it) (variant a)) items in
    base <- foreach group (fun it base =>
      r <- lift (get_deductible_rank (deductible it)) ;;
      if r =? 1 then
        p <- price_of (key it) ;;
        ret (Some (match base with None => p | Some m => Z.max m p end))
      else ret base) None ;;
    foreach group (fun it l =>
      r <- lift (get_deductible_rank (deductible it)) ;;
      x <- lift (int_mul_opt base (Float.pow Float.lit_0_9 (r - 1))) ;;
      new_price <- lift (Float.round x) ;;
      p <- price_of (key it) ;;
      if negb (new_price =? p) then set_price (key it) new_price ;;; ret (set_changed l)
      else ret l) l
  else ret l.

(** The variant branch of a pair of equal product rank. *)
Definition fix_variant_order (items : list PriceElement) (a b : PriceElement)
    (va vb : option Z) (l : locals) : M locals :=
  lt <- rank_lt va vb ;;
  let lower_v := if lt : bool then a else b in
  let higher_v := if lt : bool then b else a in
  lower_price <- price_of (key lower_v) ;;
  higher_price <- price_of (key higher_v) ;;
  if lower_price >=? higher_price then
    let group := filter (fun it =>
      String.eqb (product it) (product a)
      && negb (is_core_product (product it))
      && deductible_eqb (deductible it) (deductible a)) items in
    base <- foreach group (fun it base =>
      r <- lift (get_variant_rank (variant it)) ;;
      if r =? 1 then
        p <- price_of (key it) ;;
        ret (Some (match base with None => p | Some m => Z.max m p end))
      else ret base) None ;;
    match base with
    | Some base' =>
        foreach group (fun it l =>
          r <- lift (get_variant_rank (variant it)) ;;
          x <- lift (Float.int_mul base' (Float.pow Float.lit_1_07 (r - 1))) ;;
          new_price <- lift (Float.round x) ;;
          p <- price_of (key it) ;;
          if negb (new_price =? p) then set_price (key it) new_price ;;; ret (set_changed l)
          else ret l) l
    | None => ret l
    end
  else ret l.

(** The body of the pair loop. *)
Definition fix_pair (items : list PriceElement)
    (avg_prices : list (string * Float.float))
    (a b : PriceElement) (l : locals) : M locals :=
  pa <- lift (get_product_rank (product a)) ;;
  pb <- lift (get_product_rank (product b)) ;;
  va <- rank_unless_core (is_core_product (product a)) (get_variant_rank (variant a)) ;;
  vb <- rank_unless_core (is_core_product (product b)) (get_variant_rank (variant b)) ;;
  da <- rank_unless_core (is_core_product (product a)) (get_deductible_rank (deductible a)) ;;
  db <- rank_unless_core (is_core_product (product b)) (get_deductible_rank (deductible b)) ;;
  if negb (pa =? pb) then
    let lower := if pa <? pb then a else b in
    let higher := if pa <? pb then b else a in
    fix_product_order items avg_prices lower higher l
  else
    nc <- neither_is_core l ;;
    if (nc : bool) && option_eqb Z.eqb va vb && negb (option_eqb Z.eqb da db)
    then fix_deductible_order items a b da db l
    else
      nc <- neither_is_core l ;;
      if (nc : bool) && option_eqb Z.eqb da db && negb (option_eqb Z.eqb va vb)
      then fix_variant_order items a b va vb l
      else ret l.

(** One iteration of the outer loop: [changed] starts false, the two
    other locals keep what the previous iteration left. *)
Definition fix_pass (avg_prices : list (string * Float.float)) (l : locals) : M locals :=
  items <- get_items ;;
  for_pairs items (fix_pair items avg_prices)
            (mkLocals (lower_is_core l) (higher_is_core l) false).

Fixpoint fix_loop (avg_prices : list (string * Float.float)) (budget : nat)
    (l : locals) : M nat :=
  match budget with
  | O => ret O
  | S budget' =>
      l' <- fix_pass avg_prices l ;;
      if changed l' then
        n <- fix_loop avg_prices budget' l' ;; ret (S n)
      else ret 1%nat
  end.

Definition fix_products_inplace (avg_prices : list (string * Float.float))
    (max_iters : Z) : M unit :=
  fix_loop avg_prices (Z.to_nat max_iters) (mkLocals None None false) ;;; ret tt.

End Main.

(** ** Example tables *)

Module Examples.

Definition f400 : Float.float := S754_finite false 7036874417766400 (-44).
Definition f800 : Float.float := S754_finite false 7036874417766400 (-43).
Definition f900 : Float.float := S754_finite false 7916483719987200 (-43).
Definition f3 : Float.float := S754_finite false 6755399441055744 (-51).
Definition f10 : Float.float := S754_finite false 5629499534213120 (-49).

(** The average prices of [run_example]: 400.0, 800.0 and 900.0. *)
Definition avg_prices : list (string * Float.float) :=
  [("mtpl", f400); ("limited_casco", f800); ("casco", f900)].

(** The store of a price table whose keys all parse. *)
Definition store_of (prices : list (string * Z)) : store :=
  match build_price_items prices with
  | Ok items => mkStore items prices
  | Raise _ => mkStore [] prices
  end.

Definition initial_locals : Main.locals := Main.mkLocals None None false.

End Examples.

(** ** Vocabulary of the properties *)

(** [triple P m Q E]: from a store in [P], [m] ends in a store in [Q a]
    when it returns [a] and in a store in [E] when it raises. *)
Definition triple {A : Type} (P : store -> Prop) (m : M A) (Q : A -> store -> Prop)
    (E : store -> Prop) : Prop :=
  forall s, P s ->
    match m s with
    | (s', Ok a) => Q a s'
    | (s', Raise _) => E s'
    end.

(** [keeps I m]: [m] maintains [I], whether it returns or raises. *)
Definition keeps {A : Type} (I : store -> Prop) (m : M A) : Prop :=
  triple I m (fun _ => I) I.

(** The keys of the price table, in insertion order. *)
Definition keys (s : store) : list string := map fst (st_prices s).

(** The invariant of a repair run: the elements and the key list of the
    table are those of the start. *)
Definition same_shape (s0 s : store) : Prop :=
  st_items s = st_items s0 /\ keys s = keys s0.

(** An element whose rank lookups and price lookup all return. *)
Definition resolves (s : store) (it : PriceElement) : bool :=
  is_ok (get_product_rank (product it))
  && (is_core_product (product it)
      || (is_ok (get_variant_rank (variant it))
          && is_ok (get_deductible_rank (deductible it))))
  && match dict_get (st_prices s) (key it) with
     | Some _ => true
     | None => false
     end.

(** The scaling ratio [avg_prices[higher] / avg_prices[lower]] cannot be
    computed: an average is missing, or the denominator is zero. *)
Definition uncomputable_ratio (avg_prices : list (string * Float.float))
    (lower higher : PriceElement) : Prop :=
  dict_get avg_prices (product lower) = None
  \/ dict_get avg_prices (product higher) = None
  \/ exists z, dict_get avg_prices (product lower) = Some z /\ Float.is_zero z = true.

(** The pairs [(items[i], items[j])], [i < j], in the order of the scan. *)
Fixpoint scanned_pairs (l : list PriceElement) : list (PriceElement * PriceElement) :=
  match l with
  | [] => []
  | a :: rest => (map (pair a) rest ++ scanned_pairs rest)%list
  end.

(** The price a schedule gives the rank [rank] from the base [base]:
    [int(round(base * factor ** (rank - 1)))]. *)
Definition schedule_price (factor : Float.float) (base rank : Z) : result Z :=
  rbind (Float.int_mul base (Float.pow factor (rank - 1))) Float.round.

Definition decay_price : Z -> Z -> result Z := schedule_price Float.lit_0_9.
Definition markup_price : Z -> Z -> result Z := schedule_price Float.lit_1_07.

(** A table at rest: the body of the pair loop of [modified_version.py],
    run on any scanned pair, returns with the table as it was and the
    flag down. *)
Definition idle_pair (avg_prices : list (string * Float.float)) (s : store)
    (a b : PriceElement) : Prop :=
  Modified.fix_pair (st_items s) avg_prices a b false s = (s, Ok false).

Definition at_rest (avg_prices : list (string * Float.float)) (s : store) : Prop :=
  forall a b, In (a, b) (scanned_pairs (st_items s)) -> idle_pair avg_prices s a b.

(** The two monotonicity properties of the table of a store, as the
    repair is meant to establish them. *)
Definition deductible_axis_monotone (s : store) : Prop :=
  forall x y dx dy px py,
    In x (st_items s) -> In y (st_items s) ->
    product x = product y -> variant x = variant y ->
    get_deductible_rank (deductible x) = Ok dx ->
    get_deductible_rank (deductible y) = Ok dy ->
    dict_get (st_prices s) (key x) = Some px ->
    dict_get (st_prices s) (key y) = Some py ->
    dx <= dy -> py <= px.


(** No two elements of one product carry different variants of the same
    rank (as [compact] and [basic] are). *)
Definition no_rank_ties (items : list PriceElement) : Prop :=
  forall x y r,
    In x items -> In y items -> product x = product y ->
    get_variant_rank (variant x) = Ok r ->
    get_variant_rank (variant y) = Ok r ->
    variant x = variant y.

(** The rational value [m * 2^e] of a mantissa and an exponent, and the
    relative error [2^-52] that bounds one rounding. *)
Definition Qval (m e : Z) : Q := (inject_Z m * 2 ^ e)%Q.

Definition eps : Q := (1 # 4503599627370496)%Q.

(** No price of the table is negative. *)
Definition prices_nonneg (s : store) : Prop :=
  forall k v, dict_get (st_prices s) k = Some v -> 0 <= v.

(** [raises_only I allowed m]: from a store in [I], [m] returns in a store
    in [I], or it raises an exception in [allowed]. *)
Definition raises_only {A : Type} (I : store -> Prop) (allowed : exn -> Prop)
    (m : M A) : Prop :=
  forall s, I s ->
    match m s with
    | (s', Ok _) => I s'
    | (_, Raise e) => allowed e
    end.

(** [read_price I it p]: in some store of [I] the price of [it] is [p]. *)
Definition read_price (I : store -> Prop) (it : PriceElement) (p : Z) : Prop :=
  exists s, I s /\ dict_get (st_prices s) (key it) = Some p.

(** Every element of the list has an entry in the table. *)
Definition covered (s : store) : Prop :=
  forall it, In it (st_items s) -> In (key it) (keys s).

(** The exception of a rank lookup that failed on an element of the
    list: the product of the element is unknown, or the element is not
    core and its variant or its deductible is unknown. *)
Definition rank_error_of (items : list PriceElement) (e : exn) : Prop :=
  exists it,
    In it items
    /\ (get_product_rank (product it) = Raise e
        \/ (is_core_product (product it) = false
            /\ (get_variant_rank (variant it) = Raise e
                \/ get_deductible_rank (deductible it) = Raise e))).

(** The [ValueError] of a report line that could not be formatted: the
    price of an element of the list has too many digits. *)
Definition format_error_of (s : store) (e : exn) : Prop :=
  e = ValueError
  /\ exists it price,
       In it (st_items s)
       /\ dict_get (st_prices s) (key it) = Some price
       /\ py_format price = Raise ValueError.

(** Every price of an element of the list can be formatted. *)
Definition prices_format (s : store) : Prop :=
  forall it price,
    In it (st_items s) -> dict_get (st_prices s) (key it) = Some price ->
    is_ok (py_format price) = true.


(** * Properties *)

(** ** Reasoning about operations on the store *)

Section Keeps.

Variable I : store -> Prop.

Lemma keeps_ret {A : Type} (a : A) : keeps I (ret a).
Proof. intros s H. exact H. Qed.

Lemma keeps_lift {A : Type} (r : result A) : keeps I (lift r).
Proof. intros s H. unfold lift. destruct r; exact H. Qed.

Lemma keeps_raise {A : Type} (e : exn) : keeps I (@raise A e).
Proof. apply keeps_lift. Qed.

Lemma keeps_bind {A B : Type} (m : M A) (k : A -> M B) :
  keeps I m -> (forall a, keeps I (k a)) -> keeps I (bind m k).
Proof.
  intros Hm Hk s Hs. unfold bind.
  specialize (Hm s Hs). destruct (m s) as [s' [a | e]].
  - exact (Hk a s' Hm).
  - exact Hm.
Qed.

Lemma keeps_foreach {A B : Type} (l : list A) (f : A -> B -> M B) :
  (forall x acc, In x l -> keeps I (f x acc)) -> forall acc, keeps I (foreach l f acc).
Proof.
  induction l as [| x rest IH]; intros Hf acc; simpl.
  - apply keeps_ret.
  - apply keeps_bind.
    + apply Hf. now left.
    + intros acc'. apply IH. intros y acc'' Hy. apply Hf. now right.
Qed.

Lemma keeps_for_pairs {A B : Type} (l : list A) (f : A -> A -> B -> M B) :
  (forall x y acc, In x l -> In y l -> keeps I (f x y acc)) ->
  forall acc, keeps I (for_pairs l f acc).
Proof.
  induction l as [| x rest IH]; intros Hf acc; simpl.
  - apply keeps_ret.
  - apply keeps_bind.
    + apply keeps_foreach. intros y acc' Hy. apply Hf; [now left | now right].
    + intros acc'. apply IH. intros y z acc'' Hy Hz. apply Hf; now right.
Qed.

Lemma keeps_get_items : keeps I get_items.
Proof. intros s H. exact H. Qed.

Lemma keeps_price_of (k : string) : keeps I (price_of k).
Proof. intros s H. unfold price_of. destruct (dict_get (st_prices s) k); exact H. Qed.

End Keeps.

(** A computation that maintains every invariant leaves the store as it
    found it. *)
Lemma keeps_eq_unchanged {A : Type} (m : M A) :
  (forall s0, keeps (eq s0) m) -> forall s, fst (m s) = s.
Proof.
  intros H s. specialize (H s s eq_refl).
  destruct (m s) as [s' [a | e]]; simpl; now symmetry.
Qed.

Create HintDb keeps_db.
#[local] Hint Resolve keeps_get_items keeps_price_of keeps_ret keeps_lift keeps_raise
  : keeps_db.

(** Steps through a computation made of reads, pure steps, branches and
    loops. *)
Ltac keeps_step :=
  match goal with
  | |- keeps _ (bind _ _) => apply keeps_bind; [| intros ]
  | |- keeps _ (foreach _ _ _) => apply keeps_foreach; intros
  | |- keeps _ (for_pairs _ _ _) => apply keeps_for_pairs; intros
  | |- keeps _ (if ?c then _ else _) => destruct c
  | |- keeps _ (match ?x with _ => _ end) => destruct x
  | |- keeps _ _ => solve [auto with keeps_db]
  end.

(** ** The key set of the price table *)

Lemma dict_get_in_keys {V : Type} (d : list (string * V)) (k : string) (v : V) :
  dict_get d k = Some v -> In k (map fst d).
Proof.
  induction d as [| [k' v'] rest IH]; simpl; [discriminate |].
  destruct (String.eqb k' k) eqn:E.
  - intros _. left. now apply String.eqb_eq.
  - intros H. right. now apply IH.
Qed.

Lemma dict_set_keys {V : Type} (d : list (string * V)) (k : string) (v : V) :
  In k (map fst d) -> map fst (dict_set d k v) = map fst d.
Proof.
  induction d as [| [k' v'] rest IH]; simpl; [contradiction |].
  destruct (String.eqb k' k) eqn:E; simpl; [reflexivity |].
  intros [H | H].
  - subst. rewrite String.eqb_refl in E. discriminate.
  - now rewrite IH.
Qed.

(** After a read of [prices[k]] that returned, [k] is a key. *)
Lemma keeps_shape_read {B : Type} (s0 : store) (k : string) (body : Z -> M B) :
  (In k (keys s0) -> forall p, keeps (same_shape s0) (body p)) ->
  keeps (same_shape s0) (bind (price_of k) body).
Proof.
  intros Hbody s Hs. unfold bind, price_of.
  destruct (dict_get (st_prices s) k) as [p |] eqn:E; [| exact Hs].
  apply Hbody; [| exact Hs].
  destruct Hs as [_ Hk]. rewrite <- Hk. eapply dict_get_in_keys; eassumption.
Qed.

Lemma keeps_shape_write (s0 : store) (k : string) (v : Z) :
  In k (keys s0) -> keeps (same_shape s0) (set_price k v).
Proof.
  intros Hin s [Hi Hk]. unfold set_price, same_shape, keys in *. simpl. split; [exact Hi |].
  rewrite dict_set_keys; [exact Hk |]. now rewrite Hk.
Qed.

Ltac shape_step :=
  match goal with
  | |- keeps _ (bind (price_of _) _) => apply keeps_shape_read; intros
  | |- keeps _ (set_price _ _) => apply keeps_shape_write; assumption
  | _ => keeps_step
  end.

(** ** The detector reads only *)

Lemma keeps_detect_pair (I : store -> Prop) (a b : PriceElement) (report : list string) :
  keeps I (detect_pair a b report).
Proof.
  unfold detect_pair, check_variant_order, check_deductible_order. repeat keeps_step.
Qed.

Lemma keeps_detect_inconsistencies (I : store -> Prop) : keeps I detect_inconsistencies.
Proof.
  unfold detect_inconsistencies, detect_lines.
  repeat keeps_step. apply keeps_detect_pair.
Qed.

(** C8. [detect_inconsistencies] is read-only: whether it returns a report
    or raises, the store (every entry of the price table, in order, and
    every element of the list) is the one it was called on. *)
Theorem detect_inconsistencies_read_only (s : store) :
  fst (detect_inconsistencies s) = s.
Proof.
  apply keeps_eq_unchanged. intros s0. apply keeps_detect_inconsistencies.
Qed.

(** ** The repair keeps the key set *)

Module ModifiedShape.
Import Modified.

Section Shape.
Variable s0 : store.
Let I := same_shape s0.

Lemma modified_keeps_write_if_new it new_val changed :
  In (key it) (keys s0) -> keeps I (write_if_new it new_val changed).
Proof. intros Hin. unfold write_if_new. repeat shape_step. Qed.

Lemma modified_keeps_max_price_in_group items predicate :
  keeps I (max_price_in_group items predicate).
Proof. unfold max_price_in_group. repeat keeps_step. Qed.

Lemma modified_keeps_min_price_in_group items predicate :
  keeps I (min_price_in_group items predicate).
Proof. unfold min_price_in_group. repeat keeps_step. Qed.

Lemma modified_keeps_scale_product items product' factor :
  keeps I (scale_product items product' factor).
Proof.
  unfold scale_product. repeat shape_step. now apply modified_keeps_write_if_new.
Qed.

Lemma modified_keeps_apply_deductible_schedule group base :
  keeps I (apply_deductible_schedule group base).
Proof.
  unfold apply_deductible_schedule, write_if_new. repeat shape_step.
Qed.

Lemma modified_keeps_apply_variant_schedule group base :
  keeps I (apply_variant_schedule group base).
Proof.
  unfold apply_variant_schedule, write_if_new. repeat shape_step.
Qed.

Lemma modified_keeps_fix_product_order items avg_prices lower higher changed :
  keeps I (fix_product_order items avg_prices lower higher changed).
Proof.
  unfold fix_product_order.
  repeat first [ apply modified_keeps_scale_product | apply modified_keeps_min_price_in_group | shape_step ].
Qed.

Lemma modified_keeps_fix_deductible_order items a b da db changed :
  keeps I (fix_deductible_order items a b da db changed).
Proof.
  unfold fix_deductible_order, rank_lt.
  repeat first [ apply modified_keeps_apply_deductible_schedule
               | apply modified_keeps_max_price_in_group | shape_step ].
Qed.

Lemma modified_keeps_fix_variant_order items a b va vb changed :
  keeps I (fix_variant_order items a b va vb changed).
Proof.
  unfold fix_variant_order, rank_lt.
  repeat first [ apply modified_keeps_apply_variant_schedule
               | apply modified_keeps_max_price_in_group | shape_step ].
Qed.

Lemma modified_keeps_fix_pair items avg_prices a b changed :
  keeps I (fix_pair items avg_prices a b changed).
Proof.
  unfold fix_pair, rank_unless_core.
  repeat first [ apply modified_keeps_fix_product_order | apply modified_keeps_fix_deductible_order
               | apply modified_keeps_fix_variant_order | shape_step ].
Qed.

Lemma modified_keeps_fix_pass avg_prices : keeps I (fix_pass avg_prices).
Proof. unfold fix_pass. repeat keeps_step. apply modified_keeps_fix_pair. Qed.

Lemma modified_keeps_fix_loop avg_prices budget : keeps I (fix_loop avg_prices budget).
Proof.
  induction budget as [| budget' IH]; simpl.
  - apply keeps_ret.
  - repeat first [ apply modified_keeps_fix_pass | apply IH | keeps_step ].
Qed.

Lemma modified_keeps_fix_products_inplace avg_prices max_iters :
  keeps I (fix_products_inplace avg_prices max_iters).
Proof.
  unfold fix_products_inplace. repeat first [ apply modified_keeps_fix_loop | keeps_step ].
Qed.

End Shape.

End ModifiedShape.

Module MainShape.
Import Main.

Section Shape.
Variable s0 : store.
Let I := same_shape s0.

Lemma main_keeps_neither_is_core l : keeps I (neither_is_core l).
Proof. unfold neither_is_core, read_local. repeat keeps_step. Qed.

Lemma main_keeps_fix_product_order items avg_prices lower higher l :
  keeps I (fix_product_order items avg_prices lower higher l).
Proof. unfold fix_product_order. repeat shape_step. Qed.

Lemma main_keeps_fix_deductible_order items a b da db l :
  keeps I (fix_deductible_order items a b da db l).
Proof. unfold fix_deductible_order, rank_lt. repeat shape_step. Qed.

Lemma main_keeps_fix_variant_order items a b va vb l :
  keeps I (fix_variant_order items a b va vb l).
Proof. unfold fix_variant_order, rank_lt. repeat shape_step. Qed.

Lemma main_keeps_fix_pair items avg_prices a b l :
  keeps I (fix_pair items avg_prices a b l).
Proof.
  unfold fix_pair, rank_unless_core.
  repeat first [ apply main_keeps_fix_product_order | apply main_keeps_fix_deductible_order
               | apply main_keeps_fix_variant_order | apply main_keeps_neither_is_core
               | shape_step ].
Qed.

Lemma main_keeps_fix_pass avg_prices l : keeps I (fix_pass avg_prices l).
Proof. unfold fix_pass. repeat keeps_step. apply main_keeps_fix_pair. Qed.

Lemma main_keeps_fix_loop avg_prices budget : forall l, keeps I (fix_loop avg_prices budget l).
Proof.
  induction budget as [| budget' IH]; intros l; simpl.
  - apply keeps_ret.
  - repeat first [ apply main_keeps_fix_pass | apply IH | keeps_step ].
Qed.

Lemma main_keeps_fix_products_inplace avg_prices max_iters :
  keeps I (fix_products_inplace avg_prices max_iters).
Proof.
  unfold fix_products_inplace. repeat first [ apply main_keeps_fix_loop | keeps_step ].
Qed.

End Shape.

End MainShape.

Lemma keeps_same_shape {A : Type} (m : M A) :
  (forall s0, keeps (same_shape s0) m) ->
  forall s, keys (fst (m s)) = keys s /\ st_items (fst (m s)) = st_items s.
Proof.
  intros H s. specialize (H s s (conj eq_refl eq_refl)).
  destruct (m s) as [s' [a | e]]; simpl; destruct H as [Hi Hk]; now split.
Qed.

(** C9. A call to [fix_products_inplace], in either file, adds and removes
    no entry of the price table: whether it returns or raises, the keys of
    the table afterwards are the keys before, in the same order, and the
    list of elements is untouched; only the values may differ. *)
Theorem fix_products_inplace_keeps_keys
    (avg_prices : list (string * Float.float)) (max_iters : Z) (s : store) :
  let after_modified := fst (Modified.fix_products_inplace avg_prices max_iters s) in
  let after_main := fst (Main.fix_products_inplace avg_prices max_iters s) in
  (keys after_modified = keys s /\ st_items after_modified = st_items s)
  /\ (keys after_main = keys s /\ st_items after_main = st_items s).
Proof.
  split.
  - apply keeps_same_shape. intros s0. apply ModifiedShape.modified_keeps_fix_products_inplace.
  - apply keeps_same_shape. intros s0. apply MainShape.main_keeps_fix_products_inplace.
Qed.

(** ** The key parser *)

Lemma split_not_nil (sep : ascii) (s : string) : split sep s <> [].
Proof.
  destruct s as [| c rest]; simpl; [discriminate |].
  destruct (Ascii.eqb c sep); [discriminate |].
  destruct (split sep rest); discriminate.
Qed.

Lemma join_cons (sep p : string) (ps : list string) :
  ps <> [] -> join sep (p :: ps) = p ++ sep ++ join sep ps.
Proof. destruct ps; [congruence | reflexivity]. Qed.

(** Joining the tokens of a split with the separator gives the string
    back. *)
Lemma join_split (s : string) : join "_" (split underscore s) = s.
Proof.
  induction s as [| c rest IH]; simpl; [reflexivity |].
  destruct (Ascii.eqb c underscore) eqn:E.
  - apply Ascii.eqb_eq in E. subst c.
    rewrite join_cons by apply split_not_nil. simpl. now rewrite IH.
  - pose proof (split_not_nil underscore rest) as Hne.
    destruct (split underscore rest) as [| tok toks]; [congruence |].
    destruct toks as [| tok' toks'].
    + simpl in *. now rewrite IH.
    + change (join "_" (String c tok :: tok' :: toks'))
        with (String c (join "_" (tok :: tok' :: toks'))).
      now rewrite IH.
Qed.

(** A token of a split holds no separator. *)
Lemma split_token (sep : ascii) (s tok : string) :
  In tok (split sep s) -> split sep tok = [tok].
Proof.
  revert tok. induction s as [| c rest IH]; simpl; intros tok H.
  - destruct H as [<- | []]. reflexivity.
  - destruct (Ascii.eqb c sep) eqn:E.
    + destruct H as [<- | H]; [reflexivity | now apply IH].
    + destruct (split sep rest) as [| t ts] eqn:Hs.
      * destruct H as [<- | []]. simpl. now rewrite E.
      * destruct H as [<- | H].
        -- simpl. rewrite E. rewrite (IH t) by now left. reflexivity.
        -- apply IH. now right.
Qed.

Lemma append_inj_r (p a b : string) : p ++ a = p ++ b -> a = b.
Proof.
  induction p as [| c p IH]; simpl; intros H; [exact H |].
  injection H as H. now apply IH.
Qed.

(** What an accepted key looks like: three tokens, or the four tokens of a
    [limited_casco] key; the deductible is [int] of the last token. *)
Lemma parse_price_key_ok (input_key : string) (e : PriceElement) :
  parse_price_key input_key = Ok e ->
  exists v tok d,
    e = mkPriceElement input_key (product e) (Some v) (Some d)
    /\ split underscore input_key = (split underscore (product e) ++ [v; tok])%list
    /\ py_int tok = Ok d
    /\ input_key = join "_" [product e; v; tok].
Proof.
  unfold parse_price_key. intros H.
  pose proof (join_split input_key) as J.
  destruct (split underscore input_key) as [| p0 [| p1 [| p2 [| p3 [| p4 rest]]]]] eqn:Hsplit;
    try discriminate.
  - destruct (py_int p2) as [d |] eqn:Hd; [| discriminate].
    simpl in H. injection H as <-. simpl.
    exists p1, p2, d. repeat split; try assumption.
    + rewrite (split_token underscore input_key p0); [reflexivity |].
      rewrite Hsplit. now left.
    + now symmetry.
  - destruct (String.eqb p0 "limited" && String.eqb p1 "casco") eqn:Hp; [| discriminate].
    apply andb_prop in Hp. destruct Hp as [H0 H1].
    apply String.eqb_eq in H0, H1. subst p0 p1.
    destruct (py_int p3) as [d |] eqn:Hd; [| discriminate].
    simpl in H. injection H as <-. simpl.
    exists p2, p3, d. repeat split; try assumption.
    now symmetry.
Qed.

(** ** Rendering an int and reading it back *)

Lemma digits_value_of_uint_acc (d : Decimal.uint) (acc : positive) :
  digits_value (Zpos acc) (NilEmpty.string_of_uint d)
  = Some (Zpos (Pos.of_uint_acc d acc)).
Proof.
  revert acc.
  induction d as [|d IH|d IH|d IH|d IH|d IH|d IH|d IH|d IH|d IH|d IH];
    intro acc; cbn [NilEmpty.string_of_uint digits_value Pos.of_uint_acc];
    [reflexivity | ..];
    match goal with
    | |- context [digit_value ?c] =>
        let v := eval vm_compute in (digit_value c) in
        change (digit_value c) with v; cbv iota
    end;
    rewrite <- IH; f_equal; lia.
Qed.

Lemma digits_value_of_uint (d : Decimal.uint) :
  digits_value 0 (NilEmpty.string_of_uint d) = Some (Z.of_N (Pos.of_uint d)).
Proof.
  induction d as [|d IH|d IH|d IH|d IH|d IH|d IH|d IH|d IH|d IH|d IH];
    cbn [NilEmpty.string_of_uint digits_value Pos.of_uint];
    [reflexivity | ..];
    match goal with
    | |- context [digit_value ?c] =>
        let v := eval vm_compute in (digit_value c) in
        change (digit_value c) with v; cbv iota
    end;
    [exact IH | ..];
    cbn [Z.mul Z.add Z.of_N]; apply digits_value_of_uint_acc.
Qed.

Lemma only_digits_of_uint (d : Decimal.uint) :
  only_digits (NilEmpty.string_of_uint d) = true.
Proof.
  induction d; cbn [NilEmpty.string_of_uint only_digits];
    [reflexivity | ..];
    match goal with
    | |- context [digit_value ?c] =>
        let v := eval vm_compute in (digit_value c) in
        change (digit_value c) with v; cbv iota
    end; assumption.
Qed.

Lemma digit_not_space (c : ascii) (d : Z) :
  digit_value c = Some d -> is_space c = false.
Proof.
  unfold digit_value, is_space. cbv zeta.
  destruct (Nat.leb 48 (nat_of_ascii c) && Nat.leb (nat_of_ascii c) 57) eqn:E;
    [|discriminate].
  intros _. apply andb_true_iff in E. destruct E as [E1 E2].
  apply Nat.leb_le in E1. apply Nat.leb_le in E2.
  repeat (apply orb_false_iff; split).
  - apply andb_false_iff. right. apply Nat.leb_gt. lia.
  - apply Nat.eqb_neq. lia.
  - apply Nat.eqb_neq. lia.
  - apply Nat.eqb_neq. lia.
Qed.

Lemma rstrip_cons (c : ascii) (s : string) :
  is_space c = false -> rstrip (String c s) = String c (rstrip s).
Proof.
  intros H. cbn [rstrip]. rewrite H. destruct (rstrip s); reflexivity.
Qed.

Lemma rstrip_only_digits (s : string) : only_digits s = true -> rstrip s = s.
Proof.
  induction s as [|c s IH]; [reflexivity|].
  cbn [only_digits]. destruct (digit_value c) eqn:E; [|discriminate].
  intros H. rewrite (rstrip_cons c s (digit_not_space c _ E)), (IH H).
  reflexivity.
Qed.

Lemma lstrip_only_digits (s : string) : only_digits s = true -> lstrip s = s.
Proof.
  destruct s as [|c s]; [reflexivity|].
  cbn [only_digits lstrip]. destruct (digit_value c) eqn:E; [|discriminate].
  intros _. rewrite (digit_not_space c _ E). reflexivity.
Qed.

(** On a string of digits that is not empty, [int] reads the digits,
    when they are not too many. *)
Lemma py_int_only_digits (s : string) :
  only_digits s = true -> s <> EmptyString ->
  py_int s = match unsigned_value s with Some n => Ok n | None => Raise ValueError end.
Proof.
  intros H Hne. unfold py_int. cbv zeta.
  rewrite (lstrip_only_digits s H), (rstrip_only_digits s H).
  destruct s as [|c s]; [congruence|].
  cbn [only_digits] in H. destruct (digit_value c) as [d|] eqn:E; [|discriminate].
  assert (Hm : c <> "-"%char) by (intros ->; discriminate E).
  assert (Hp : c <> "+"%char) by (intros ->; discriminate E).
  destruct c as [[] [] [] [] [] [] [] []]; try reflexivity; congruence.
Qed.

Lemma string_of_uint_nonempty (d : Decimal.uint) :
  d <> Decimal.Nil -> NilEmpty.string_of_uint d <> EmptyString.
Proof. destruct d; intros H; [congruence | discriminate ..]. Qed.

Lemma nilzero_string_of_uint (d : Decimal.uint) :
  d <> Decimal.Nil -> NilZero.string_of_uint d = NilEmpty.string_of_uint d.
Proof. destruct d; intros H; [congruence | reflexivity ..]. Qed.

(** The rendering of a positive int: its digits. *)
Lemma py_str_pos (p : positive) :
  py_str (Zpos p) = NilEmpty.string_of_uint (Pos.to_uint p)
  /\ py_str (Zneg p) = String "-" (NilEmpty.string_of_uint (Pos.to_uint p)).
Proof.
  unfold py_str. cbn [Z.to_int NilZero.string_of_int].
  now rewrite (nilzero_string_of_uint _ (DecimalPos.Unsigned.to_uint_nonnil p)).
Qed.

Lemma unsigned_value_of_uint (p : positive) :
  (int_max_str_digits <? Z.of_nat (String.length (NilEmpty.string_of_uint (Pos.to_uint p))))
  = false ->
  unsigned_value (NilEmpty.string_of_uint (Pos.to_uint p)) = Some (Zpos p).
Proof.
  intros Hcap. unfold unsigned_value. rewrite Hcap.
  pose proof (string_of_uint_nonempty _ (DecimalPos.Unsigned.to_uint_nonnil p)) as Hne.
  destruct (NilEmpty.string_of_uint (Pos.to_uint p)) eqn:Es; [congruence |].
  rewrite <- Es, digits_value_of_uint, DecimalPos.Unsigned.of_to. reflexivity.
Qed.

(** [int(str(n)) == n] for every int [n] that [str] renders: the digits
    that [str] accepts to write, [int] accepts to read. *)
Lemma py_int_py_str (n : Z) (t : string) : py_format n = Ok t -> py_int t = Ok n.
Proof.
  unfold py_format.
  destruct (int_max_str_digits <? Z.of_nat (String.length (py_str (Z.abs n)))) eqn:Hcap;
    [discriminate |].
  intros H. injection H as <-.
  destruct n as [| p | p]; [reflexivity | |]; cbn [Z.abs] in Hcap;
    destruct (py_str_pos p) as [Epos Eneg]; rewrite Epos in Hcap.
  - rewrite Epos, py_int_only_digits.
    + now rewrite unsigned_value_of_uint.
    + apply only_digits_of_uint.
    + apply string_of_uint_nonempty, DecimalPos.Unsigned.to_uint_nonnil.
  - rewrite Eneg.
    pose proof (only_digits_of_uint (Pos.to_uint p)) as Hd.
    unfold py_int. cbv zeta.
    assert (Hl : lstrip (String "-" (NilEmpty.string_of_uint (Pos.to_uint p)))
                 = String "-" (NilEmpty.string_of_uint (Pos.to_uint p))) by reflexivity.
    rewrite Hl, rstrip_cons by reflexivity.
    rewrite (rstrip_only_digits _ Hd).
    cbv iota beta.
    now rewrite unsigned_value_of_uint.
Qed.

(** ** What [int] reads, [str] can write *)

Lemma string_length_of_uint (u : Decimal.uint) :
  String.length (NilEmpty.string_of_uint u) = Decimal.nb_digits u.
Proof. induction u; simpl; congruence. Qed.

Lemma digit_value_char (c : ascii) (d : Z) :
  digit_value c = Some d ->
  exists f : Decimal.uint -> Decimal.uint,
    (forall u, NilEmpty.string_of_uint (f u) = String c (NilEmpty.string_of_uint u))
    /\ forall u, f u <> Decimal.Nil.
Proof.
  destruct c as [[] [] [] [] [] [] [] []]; intros H; try discriminate H;
    first [ exists Decimal.D0; split; [reflexivity | discriminate]
          | exists Decimal.D1; split; [reflexivity | discriminate]
          | exists Decimal.D2; split; [reflexivity | discriminate]
          | exists Decimal.D3; split; [reflexivity | discriminate]
          | exists Decimal.D4; split; [reflexivity | discriminate]
          | exists Decimal.D5; split; [reflexivity | discriminate]
          | exists Decimal.D6; split; [reflexivity | discriminate]
          | exists Decimal.D7; split; [reflexivity | discriminate]
          | exists Decimal.D8; split; [reflexivity | discriminate]
          | exists Decimal.D9; split; [reflexivity | discriminate] ].
Qed.

(** A string that [digits_value] reads is the rendering of a decimal
    number. *)
Lemma digits_value_uint (s : string) :
  forall acc n, digits_value acc s = Some n ->
    exists u, NilEmpty.string_of_uint u = s /\ (s <> EmptyString -> u <> Decimal.Nil).
Proof.
  induction s as [| c rest IH]; intros acc n H.
  - exists Decimal.Nil. split; [reflexivity | congruence].
  - simpl in H. destruct (digit_value c) as [d |] eqn:Hc; [| discriminate].
    destruct (IH _ _ H) as (u & Hu & _).
    destruct (digit_value_char c d Hc) as (f & Hf & Hnil).
    exists (f u). split; [now rewrite Hf, Hu | intros _; apply Hnil].
Qed.

(** The rendering of the value of a digit string is no longer than the
    string. *)
Lemma py_str_length_le (s : string) (n : Z) :
  s <> EmptyString -> digits_value 0 s = Some n ->
  0 <= n /\ (String.length (py_str n) <= String.length s)%nat.
Proof.
  intros Hne H.
  destruct (digits_value_uint s 0 n H) as (u & Hu & Hnil). specialize (Hnil Hne).
  subst s. rewrite digits_value_of_uint in H. injection H as <-.
  split; [lia |].
  rewrite string_length_of_uint.
  destruct (Pos.of_uint u) as [| p] eqn:E.
  - simpl. destruct u; [congruence | simpl; lia ..].
  - cbn [Z.of_N]. destruct (py_str_pos p) as [-> _].
    rewrite string_length_of_uint.
    change (Pos.to_uint p) with (N.to_uint (Npos p)).
    rewrite <- E, DecimalPos.Unsigned.to_of.
    now apply DecimalFacts.nb_digits_unorm.
Qed.

Lemma unsigned_value_ok (s : string) (n : Z) :
  unsigned_value s = Some n ->
  0 <= n /\ (int_max_str_digits <? Z.of_nat (String.length (py_str n))) = false.
Proof.
  unfold unsigned_value. destruct s as [| c rest]; [discriminate |].
  destruct (int_max_str_digits <? Z.of_nat (String.length (String c rest))) eqn:Hcap;
    [discriminate |].
  intros H. apply py_str_length_le in H; [| discriminate].
  destruct H as [Hn Hlen]. split; [exact Hn |].
  apply Z.ltb_ge. apply Z.ltb_ge in Hcap. lia.
Qed.

(** Every int that [int] reads from a string, [str] can write: it has at
    most [int_max_str_digits] digits. *)
Lemma py_int_formats (tok : string) (d : Z) :
  py_int tok = Ok d -> py_format d = Ok (py_str d).
Proof.
  unfold py_int. cbv zeta.
  assert (G : forall n, 0 <= n ->
            (int_max_str_digits <? Z.of_nat (String.length (py_str n))) = false ->
            py_format n = Ok (py_str n) /\ py_format (- n) = Ok (py_str (- n))).
  { intros n Hn Hcap. unfold py_format.
    rewrite Z.abs_opp, (Z.abs_eq n Hn), Hcap. now split. }
  set (body := rstrip (lstrip tok)).
  assert (U : forall s n, unsigned_value s = Some n ->
            py_format n = Ok (py_str n) /\ py_format (- n) = Ok (py_str (- n))).
  { intros s n H. apply unsigned_value_ok in H. destruct H. now apply G. }
  destruct body as [| c rest].
  - simpl. discriminate.
  - destruct (Ascii.eqb c "-") eqn:Em; [apply Ascii.eqb_eq in Em; subst c |].
    + destruct (unsigned_value rest) as [n |] eqn:E; simpl; [| discriminate].
      intros H. injection H as <-. now apply (U rest).
    + destruct (Ascii.eqb c "+") eqn:Ep; [apply Ascii.eqb_eq in Ep; subst c |].
      * destruct (unsigned_value rest) as [n |] eqn:E; [| discriminate].
        intros H. injection H as <-. now apply (U rest).
      * assert (Hbody : match String c rest with
                        | String "-" r => option_map Z.opp (unsigned_value r)
                        | String "+" r => unsigned_value r
                        | _ => unsigned_value (String c rest)
                        end = unsigned_value (String c rest)).
        { destruct c as [[] [] [] [] [] [] [] []]; try reflexivity; discriminate. }
        rewrite Hbody.
        destruct (unsigned_value (String c rest)) as [n |] eqn:E; [| discriminate].
        intros H. injection H as <-. now apply (U (String c rest)).
Qed.

(** *** The digit cap in numbers *)

Lemma digit_value_range (c : ascii) (d : Z) : digit_value c = Some d -> 0 <= d <= 9.
Proof.
  unfold digit_value.
  destruct (Nat.leb 48 (nat_of_ascii c) && Nat.leb (nat_of_ascii c) 57) eqn:E;
    [| discriminate].
  apply andb_prop in E. destruct E as [E1 E2].
  apply Nat.leb_le in E1, E2. intros H. injection H as <-. lia.
Qed.

(** The value of a digit string that follows the digits of [acc]. *)
Lemma digits_value_bounds (s : string) :
  forall acc n, 0 <= acc -> digits_value acc s = Some n ->
    acc * 10 ^ Z.of_nat (String.length s) <= n
    < (acc + 1) * 10 ^ Z.of_nat (String.length s).
Proof.
  induction s as [| c rest IH]; intros acc n Hacc H.
  - simpl in H. injection H as <-. cbn [String.length Z.of_nat]. rewrite Z.pow_0_r. lia.
  - simpl in H. destruct (digit_value c) as [d |] eqn:Hc; [| discriminate].
    apply digit_value_range in Hc.
    assert (Hacc' : 0 <= 10 * acc + d) by lia.
    specialize (IH _ _ Hacc' H). clear H.
    cbn [String.length]. rewrite Nat2Z.inj_succ, Z.pow_succ_r by lia.
    pose proof (Z.pow_pos_nonneg 10 (Z.of_nat (String.length rest))
                  ltac:(lia) ltac:(lia)) as Hpos.
    nia.
Qed.

Lemma nzhead_no_leading_zero (u : Decimal.uint) :
  match Decimal.nzhead u with
  | Decimal.D0 _ => False
  | _ => True
  end.
Proof. induction u; simpl; auto. Qed.

(** The rendering of a positive int starts with a digit that is not
    zero. *)
Lemma to_uint_leading_digit (p : positive) :
  match Pos.to_uint p with
  | Decimal.Nil | Decimal.D0 _ => False
  | _ => True
  end.
Proof.
  assert (E : Decimal.unorm (Pos.to_uint p) = Pos.to_uint p).
  { rewrite <- DecimalPos.Unsigned.to_of, DecimalPos.Unsigned.of_to. reflexivity. }
  pose proof (nzhead_no_leading_zero (Pos.to_uint p)) as H.
  pose proof (DecimalPos.Unsigned.to_uint_nonzero p) as Hz.
  unfold Decimal.unorm in E.
  destruct (Decimal.nzhead (Pos.to_uint p)) eqn:En; rewrite <- E; try exact I.
  - now apply Hz.
  - destruct H.
Qed.

(** The number of digits of a positive int [n] is the [k] with
    [10^(k-1) <= n < 10^k]. *)
Lemma py_str_digits (p : positive) :
  let k := Z.of_nat (String.length (py_str (Zpos p))) in
  10 ^ (k - 1) <= Zpos p < 10 ^ k.
Proof.
  cbv zeta. destruct (py_str_pos p) as [-> _].
  pose proof (digits_value_of_uint (Pos.to_uint p)) as H.
  rewrite DecimalPos.Unsigned.of_to in H. cbn [Z.of_N] in H.
  pose proof (to_uint_leading_digit p) as Hd.
  split.
  - destruct (Pos.to_uint p) as [|u|u|u|u|u|u|u|u|u|u]; try destruct Hd;
      cbn [NilEmpty.string_of_uint digits_value String.length] in H |- *;
      match type of H with
      | context [digit_value ?c] =>
          let v := eval vm_compute in (digit_value c) in
          change (digit_value c) with v in H; cbv iota in H
      end;
      apply digits_value_bounds in H; try lia;
      rewrite Nat2Z.inj_succ;
      replace (Z.succ (Z.of_nat (String.length (NilEmpty.string_of_uint u))) - 1)
        with (Z.of_nat (String.length (NilEmpty.string_of_uint u))) by lia;
      pose proof (Z.pow_pos_nonneg 10
                    (Z.of_nat (String.length (NilEmpty.string_of_uint u)))
                    ltac:(lia) ltac:(lia)); nia.
  - apply digits_value_bounds in H; lia.
Qed.

(** [str(n)] raises exactly on the ints of absolute value [10^4300] and
    more. *)
Lemma py_format_cap (n : Z) :
  py_format n = (if 10 ^ int_max_str_digits <=? Z.abs n then Raise ValueError
                 else Ok (py_str n)).
Proof.
  assert (Hcap : int_max_str_digits = 4300) by reflexivity.
  unfold py_format.
  destruct n as [| p | p]; cbn [Z.abs].
  - reflexivity.
  - pose proof (py_str_digits p) as H. cbv zeta in H.
    set (k := Z.of_nat (String.length (py_str (Z.pos p)))) in *.
    destruct (Z.ltb_spec int_max_str_digits k) as [Hk | Hk];
      destruct (Z.leb_spec (10 ^ int_max_str_digits) (Z.pos p)) as [Hn | Hn];
      try reflexivity; exfalso.
    + assert (10 ^ int_max_str_digits <= 10 ^ (k - 1))
        by (apply Z.pow_le_mono_r; lia).
      lia.
    + assert (10 ^ k <= 10 ^ int_max_str_digits)
        by (apply Z.pow_le_mono_r; lia).
      lia.
  - pose proof (py_str_digits p) as H. cbv zeta in H.
    set (k := Z.of_nat (String.length (py_str (Z.pos p)))) in *.
    destruct (Z.ltb_spec int_max_str_digits k) as [Hk | Hk];
      destruct (Z.leb_spec (10 ^ int_max_str_digits) (Z.pos p)) as [Hn | Hn];
      try reflexivity; exfalso.
    + assert (10 ^ int_max_str_digits <= 10 ^ (k - 1))
        by (apply Z.pow_le_mono_r; lia).
      lia.
    + assert (10 ^ k <= 10 ^ int_max_str_digits)
        by (apply Z.pow_le_mono_r; lia).
      lia.
Qed.

Lemma pow10_cap_large : 1000 <= 10 ^ int_max_str_digits.
Proof.
  change 1000 with (10 ^ 3). apply Z.pow_le_mono_r; unfold int_max_str_digits; lia.
Qed.

(** C7, as the claim words it, fails: [int] accepts a token that is not
    the decimal rendering of its value, here ["0100"]. *)
Lemma rejoin_differs_on_leading_zero :
  exists e,
    build_item "casco_basic_0100" = Ok e
    /\ rejoin_parts e = "casco_basic_100"
    /\ rejoin_parts e <> key e.
Proof.
  eexists. split; [reflexivity |]. split; [reflexivity |]. discriminate.
Qed.

(** C7, amended.  For every key that [build_item] accepts, the element
    keeps the key, and either it is the core product, whose only part is
    the key itself, or the key splits on ["_"] into the tokens of the
    product, the variant and a last token whose [int] is the deductible.
    Joining product, variant and that last token gives the key back;
    joining them with the decimal rendering of the deductible gives the
    key back exactly when the last token is that rendering. *)
Theorem build_item_round_trip (input_key : string) (e : PriceElement) :
  build_item input_key = Ok e ->
  key e = input_key
  /\ ((is_core_product input_key = true
       /\ product e = input_key /\ variant e = None /\ deductible e = None
       /\ rejoin_parts e = input_key)
      \/ exists v tok d,
           variant e = Some v /\ deductible e = Some d
           /\ split underscore input_key = (split underscore (product e) ++ [v; tok])%list
           /\ py_int tok = Ok d
           /\ join "_" [product e; v; tok] = input_key
           /\ (rejoin_parts e = input_key <-> tok = py_str d)).
Proof.
  unfold build_item. destruct (is_core_product input_key) eqn:Hcore; intros H.
  - injection H as <-. simpl. split; [reflexivity |]. left. repeat split.
  - destruct (parse_price_key_ok _ _ H) as (v & tok & d & He & Hs & Hd & Hj).
    split; [rewrite He; reflexivity |]. right.
    exists v, tok, d.
    assert (Hv : variant e = Some v) by (rewrite He; reflexivity).
    assert (Hde : deductible e = Some d) by (rewrite He; reflexivity).
    repeat split; try assumption; try (now symmetry).
    + unfold rejoin_parts. rewrite Hv, Hde. intros Hr.
      rewrite Hj in Hr. simpl in Hr.
      apply append_inj_r in Hr. injection Hr as Hr.
      apply append_inj_r in Hr. injection Hr as Hr. now symmetry.
    + intros ->. unfold rejoin_parts. rewrite Hv, Hde. now symmetry.
Qed.

(** The amended round trip at ["limited_casco_basic_100"]. *)
Lemma build_item_round_trip_witness :
  let e := mkPriceElement "limited_casco_basic_100" "limited_casco" (Some "basic") (Some 100) in
  key e = "limited_casco_basic_100"
  /\ ((is_core_product "limited_casco_basic_100" = true
       /\ product e = "limited_casco_basic_100" /\ variant e = None /\ deductible e = None
       /\ rejoin_parts e = "limited_casco_basic_100")
      \/ exists v tok d,
           variant e = Some v /\ deductible e = Some d
           /\ split underscore "limited_casco_basic_100"
              = (split underscore (product e) ++ [v; tok])%list
           /\ py_int tok = Ok d
           /\ join "_" [product e; v; tok] = "limited_casco_basic_100"
           /\ (rejoin_parts e = "limited_casco_basic_100" <-> tok = py_str d)).
Proof.
  apply (build_item_round_trip "limited_casco_basic_100"). reflexivity.
Defined.

(** C10. A key of exactly three tokens ["limited"], ["casco"] and a token
    that [int] accepts is parsed by the three-token rule: product
    ["limited"], variant ["casco"], not the two-word product
    ["limited_casco"] and not an error. *)
Theorem parse_price_key_limited_casco_three_tokens
    (input_key tok : string) (d : Z) :
  split underscore input_key = ["limited"; "casco"; tok] ->
  py_int tok = Ok d ->
  parse_price_key input_key
  = Ok (mkPriceElement input_key "limited" (Some "casco") (Some d)).
Proof.
  intros Hs Hd. unfold parse_price_key. rewrite Hs, Hd. reflexivity.
Qed.

Lemma parse_price_key_limited_casco_100 :
  split underscore "limited_casco_100" = ["limited"; "casco"; "100"]
  /\ py_int "100" = Ok 100
  /\ parse_price_key "limited_casco_100"
     = Ok (mkPriceElement "limited_casco_100" "limited" (Some "casco") (Some 100)).
Proof.
  split; [reflexivity |]. split; [reflexivity |].
  apply (parse_price_key_limited_casco_three_tokens "limited_casco_100" "100" 100);
    reflexivity.
Defined.

(** ** The detector on the first scenario *)

(** C6. On the table [{"limited_casco_basic_100": 900,
    "limited_casco_comfort_100": 850}], [build_price_items] followed by
    [detect_inconsistencies] returns the one VARIANT ORDER line and no
    other. *)
Theorem detect_scenario_1 :
  let prices := [("limited_casco_basic_100", 900); ("limited_casco_comfort_100", 850)] in
  exists items,
    build_price_items prices = Ok items
    /\ snd (detect_inconsistencies (mkStore items prices))
       = Ok "VARIANT ORDER: 'limited_casco_basic_100' (900) should be cheaper than 'limited_casco_comfort_100' (850)."
    /\ snd (detect_lines (mkStore items prices))
       = Ok ["VARIANT ORDER: 'limited_casco_basic_100' (900) should be cheaper than 'limited_casco_comfort_100' (850)."].
Proof.
  eexists. split; [reflexivity |]. split; vm_compute; reflexivity.
Qed.

(** ** Pairs whose scaling ratio cannot be computed *)

Lemma price_of_some (s : store) (k : string) (p : Z) :
  dict_get (st_prices s) k = Some p -> price_of k s = (s, Ok p).
Proof. intros H. unfold price_of. now rewrite H. Qed.

Lemma resolves_price (s : store) (it : PriceElement) :
  resolves s it = true -> exists p, dict_get (st_prices s) (key it) = Some p.
Proof.
  unfold resolves. intros H. apply andb_prop in H. destruct H as [_ H].
  destruct (dict_get (st_prices s) (key it)) as [p |]; [now exists p | discriminate].
Qed.

(** In [modified_version.py] the branch of different product ranks does
    nothing when the ratio cannot be computed. *)
Lemma modified_fix_product_order_skips
    (items : list PriceElement) (avg_prices : list (string * Float.float))
    (lower higher : PriceElement) (changed : bool) (s : store) :
  resolves s lower = true -> resolves s higher = true ->
  uncomputable_ratio avg_prices lower higher ->
  Modified.fix_product_order items avg_prices lower higher changed s = (s, Ok changed).
Proof.
  intros Hl Hh Hu.
  destruct (resolves_price _ _ Hl) as [pl Hpl].
  destruct (resolves_price _ _ Hh) as [ph Hph].
  unfold Modified.fix_product_order, bind.
  rewrite (price_of_some _ _ _ Hpl), (price_of_some _ _ _ Hph).
  destruct Hu as [Hu | [Hu | (z & Hu & Hz)]].
  - rewrite Hu. reflexivity.
  - rewrite Hu. destruct (dict_get avg_prices (product lower)); reflexivity.
  - rewrite Hu, Hz. destruct (dict_get avg_prices (product higher)); reflexivity.
Qed.

Lemma rank_unless_core_resolves (s : store) (core : bool) (r : result Z) :
  core || is_ok r = true ->
  exists v, Modified.rank_unless_core core r s = (s, Ok v).
Proof.
  unfold Modified.rank_unless_core. destruct core; simpl.
  - intros _. now exists None.
  - destruct r as [v | e]; simpl; [| discriminate]. intros _. now exists (Some v).
Qed.

(** The same at the level of the pair loop of [modified_version.py]: for
    a pair of resolving elements of different product ranks whose ratio
    cannot be computed, the body of the loop returns with the store and
    the flag as they were, so the scan goes on with the next pair. *)
Lemma modified_fix_pair_skips
    (items : list PriceElement) (avg_prices : list (string * Float.float))
    (a b : PriceElement) (changed : bool) (s : store) (pa pb : Z) :
  resolves s a = true -> resolves s b = true ->
  get_product_rank (product a) = Ok pa ->
  get_product_rank (product b) = Ok pb ->
  pa <> pb ->
  uncomputable_ratio avg_prices (if pa <? pb then a else b) (if pa <? pb then b else a) ->
  Modified.fix_pair items avg_prices a b changed s = (s, Ok changed).
Proof.
  intros Ha Hb Hpa Hpb Hne Hu.
  destruct (resolves_price _ _ Ha) as [price_a Hprice_a].
  destruct (resolves_price _ _ Hb) as [price_b Hprice_b].
  assert (Hra := Ha). assert (Hrb := Hb).
  unfold resolves in Hra, Hrb.
  apply andb_prop in Hra. destruct Hra as [Hra _]. apply andb_prop in Hra. destruct Hra as [_ Hra].
  apply andb_prop in Hrb. destruct Hrb as [Hrb _]. apply andb_prop in Hrb. destruct Hrb as [_ Hrb].
  assert (Hva : is_core_product (product a) || is_ok (get_variant_rank (variant a)) = true).
  { destruct (is_core_product (product a)); [reflexivity |].
    simpl in *. now apply andb_prop in Hra. }
  assert (Hda : is_core_product (product a) || is_ok (get_deductible_rank (deductible a)) = true).
  { destruct (is_core_product (product a)); [reflexivity |].
    simpl in *. now apply andb_prop in Hra. }
  assert (Hvb : is_core_product (product b) || is_ok (get_variant_rank (variant b)) = true).
  { destruct (is_core_product (product b)); [reflexivity |].
    simpl in *. now apply andb_prop in Hrb. }
  assert (Hdb : is_core_product (product b) || is_ok (get_deductible_rank (deductible b)) = true).
  { destruct (is_core_product (product b)); [reflexivity |].
    simpl in *. now apply andb_prop in Hrb. }
  destruct (rank_unless_core_resolves s _ _ Hva) as [va Eva].
  destruct (rank_unless_core_resolves s _ _ Hvb) as [vb Evb].
  destruct (rank_unless_core_resolves s _ _ Hda) as [da Eda].
  destruct (rank_unless_core_resolves s _ _ Hdb) as [db Edb].
  unfold Modified.fix_pair, bind, lift.
  rewrite Hpa, Hpb, Eva, Evb, Eda, Edb.
  rewrite (price_of_some _ _ _ Hprice_a), (price_of_some _ _ _ Hprice_b).
  assert (Hneq : negb (pa =? pb) = true).
  { apply negb_true_iff. now apply Z.eqb_neq. }
  rewrite Hneq.
  apply modified_fix_product_order_skips; try assumption;
    destruct (pa <? pb); assumption.
Qed.

(** X28. The scan of [modified_version.py] goes on from such a pair as
    if it were not there: a pair of resolving elements of different
    product ranks whose ratio cannot be computed (an average is missing,
    or the one of the lower product is zero) is skipped without an
    exception, the table and the flag as they were. *)
Lemma modified_scan_continues
    (items rest : list PriceElement) (avg_prices : list (string * Float.float))
    (a b : PriceElement) (changed : bool) (s : store) (pa pb : Z) :
  resolves s a = true -> resolves s b = true ->
  get_product_rank (product a) = Ok pa ->
  get_product_rank (product b) = Ok pb ->
  pa <> pb ->
  uncomputable_ratio avg_prices (if pa <? pb then a else b) (if pa <? pb then b else a) ->
  foreach (b :: rest) (Modified.fix_pair items avg_prices a) changed s
  = foreach rest (Modified.fix_pair items avg_prices a) changed s.
Proof.
  intros. simpl. unfold bind at 1.
  erewrite modified_fix_pair_skips by eassumption. reflexivity.
Qed.

(** C1. [main.py] breaks the claim: on the table [{"mtpl": 400,
    "casco_compact_100": 300}] its [fix_products_inplace] raises
    [TypeError] when the averages are missing and [ZeroDivisionError] when
    the average of the lower product is [0.0]; [modified_version.py]
    returns on both, the table untouched. *)
Theorem main_raises_on_uncomputable_ratio :
  let s := Examples.store_of [("mtpl", 400); ("casco_compact_100", 300)] in
  let zero_avg := [("mtpl", S754_zero false); ("casco", Examples.f900)] in
  Main.fix_products_inplace [] 10 s = (s, Raise TypeError)
  /\ Main.fix_products_inplace zero_avg 10 s = (s, Raise ZeroDivisionError)
  /\ Modified.fix_products_inplace [] 10 s = (s, Ok tt)
  /\ Modified.fix_products_inplace zero_avg 10 s = (s, Ok tt).
Proof. repeat split; vm_compute; reflexivity. Qed.

(** ** The [changed] flag *)

(** C2. A pass can modify a price and leave [changed] false, so that the
    loop stops after it.  In [main.py], on [{"mtpl": 400,
    "casco_compact_100": 300}] with the averages of [run_example], the
    first pass rewrites 300 into 900 and the loop ends after that one
    pass.  In [modified_version.py], on [{"limited_casco_basic_100": 1,
    "casco_basic_100": 1}] with averages 10.0 and 3.0, the first pass
    rewrites the second price into 0 and the loop ends after it. *)
Theorem changed_flag_misses_a_write :
  let s1 := Examples.store_of [("mtpl", 400); ("casco_compact_100", 300)] in
  let pass1 := Main.fix_pass Examples.avg_prices Examples.initial_locals s1 in
  let s2 := Examples.store_of [("limited_casco_basic_100", 1); ("casco_basic_100", 1)] in
  let avg2 := [("limited_casco", Examples.f10); ("casco", Examples.f3)] in
  let pass2 := Modified.fix_pass avg2 s2 in
  (st_prices (fst pass1) = [("mtpl", 400); ("casco_compact_100", 900)]
   /\ option_map Main.changed (match snd pass1 with Ok l => Some l | Raise _ => None end)
      = Some false
   /\ snd (Main.fix_loop Examples.avg_prices 10 Examples.initial_locals s1) = Ok 1%nat)
  /\ (st_prices (fst pass2) = [("limited_casco_basic_100", 1); ("casco_basic_100", 0)]
      /\ snd pass2 = Ok false
      /\ snd (Modified.fix_loop avg2 10 s2) = Ok 1%nat).
Proof. repeat split; vm_compute; reflexivity. Qed.

(** ** Repair after a clean report *)

(** C3. On [{"casco_compact_100": 100, "casco_compact_200": 95,
    "casco_basic_200": 200}] the detector reports nothing, yet the repair
    of [modified_version.py] rewrites ["casco_compact_200"] into 90 and
    runs two passes: the pair of ["casco_compact_100"] and
    ["casco_basic_200"] has equal variant ranks, which the repair takes
    for equal variants.  The repair of [main.py] raises
    [UnboundLocalError] on the same table. *)
Theorem repair_mutates_a_clean_table :
  let prices := [("casco_compact_100", 100); ("casco_compact_200", 95);
                 ("casco_basic_200", 200)] in
  let s := Examples.store_of prices in
  snd (detect_inconsistencies s) = Ok ""
  /\ st_prices (fst (Modified.fix_products_inplace Examples.avg_prices 10 s))
     = [("casco_compact_100", 100); ("casco_compact_200", 90); ("casco_basic_200", 200)]
  /\ snd (Modified.fix_loop Examples.avg_prices 10 s) = Ok 2%nat
  /\ snd (Main.fix_products_inplace Examples.avg_prices 10 s) = Raise UnboundLocalError.
Proof. repeat split; vm_compute; reflexivity. Qed.

(** ** The iteration budget and the early exit *)

Lemma modified_fix_loop_bound (avg_prices : list (string * Float.float)) (budget : nat) :
  forall s n, snd (Modified.fix_loop avg_prices budget s) = Ok n -> (n <= budget)%nat.
Proof.
  induction budget as [| budget' IH]; intros s n; simpl.
  - intros H. injection H as <-. lia.
  - unfold bind. destruct (Modified.fix_pass avg_prices s) as [s1 [[|] | e]]; simpl.
    + specialize (IH s1).
      destruct (Modified.fix_loop avg_prices budget' s1) as [s2 [k | e]]; simpl in *.
      * intros H. injection H as <-. specialize (IH k eq_refl). lia.
      * discriminate.
    + intros H. injection H as <-. lia.
    + discriminate.
Qed.

Lemma main_fix_loop_bound (avg_prices : list (string * Float.float)) (budget : nat) :
  forall l s n, snd (Main.fix_loop avg_prices budget l s) = Ok n -> (n <= budget)%nat.
Proof.
  induction budget as [| budget' IH]; intros l s n; simpl.
  - intros H. injection H as <-. lia.
  - unfold bind. destruct (Main.fix_pass avg_prices l s) as [s1 [l1 | e]]; simpl.
    + destruct (Main.changed l1).
      * specialize (IH l1 s1).
        destruct (Main.fix_loop avg_prices budget' l1 s1) as [s2 [k | e]]; simpl in *.
        -- intros H. injection H as <-. specialize (IH k eq_refl). lia.
        -- discriminate.
      * intros H. injection H as <-. lia.
    + discriminate.
Qed.

(** X30. The budget bounds the work in both files: a call that returns
    ran at most [max_iters] passes over the list, and none when
    [max_iters] is zero or negative. *)
Lemma fix_loop_within_budget
    (avg_prices : list (string * Float.float)) (max_iters : Z) (s : store) (n : nat) :
  (snd (Modified.fix_loop avg_prices (Z.to_nat max_iters) s) = Ok n ->
   Z.of_nat n <= Z.max 0 max_iters)
  /\ (snd (Main.fix_loop avg_prices (Z.to_nat max_iters) Examples.initial_locals s) = Ok n ->
      Z.of_nat n <= Z.max 0 max_iters).
Proof.
  split; intros H.
  - apply modified_fix_loop_bound in H. lia.
  - apply main_fix_loop_bound in H. lia.
Qed.

(** C5. The second half fails.  In [main.py], on the table below with the
    averages of [run_example], the first call stops after one pass of a
    budget of ten, having rewritten ["casco_basic_200"] from 90 into 107
    with [changed] down; the second call rewrites it into 96.  In
    [modified_version.py] the same happens once prices exceed the 53 bits
    of a float: the first call stops after one pass, having rewritten
    [2^60 + 1] into [2^60], and the second call rewrites
    ["casco_basic_200"]. *)
Theorem rerun_after_early_exit_mutates :
  let s1 := Examples.store_of
              [("limited_casco_premium_500", 1000); ("casco_basic_100", 107);
               ("casco_basic_200", 90); ("limited_casco_basic_200", 95)] in
  let first1 := Main.fix_products_inplace Examples.avg_prices 10 s1 in
  let again1 := Main.fix_products_inplace Examples.avg_prices 10 (fst first1) in
  let s2 := Examples.store_of
              [("casco_basic_100", 2 ^ 60 + 1); ("casco_basic_200", 2 ^ 60);
               ("limited_casco_basic_100", 2 ^ 60 + 1)] in
  let avg2 := [("limited_casco", Float.one); ("casco", Float.one)] in
  let first2 := Modified.fix_products_inplace avg2 10 s2 in
  let again2 := Modified.fix_products_inplace avg2 10 (fst first2) in
  (snd (Main.fix_loop Examples.avg_prices 10 Examples.initial_locals s1) = Ok 1%nat
   /\ st_prices (fst first1)
      = [("limited_casco_premium_500", 1000); ("casco_basic_100", 107);
         ("casco_basic_200", 107); ("limited_casco_basic_200", 95)]
   /\ st_prices (fst again1)
      = [("limited_casco_premium_500", 1000); ("casco_basic_100", 107);
         ("casco_basic_200", 96); ("limited_casco_basic_200", 95)])
  /\ (snd (Modified.fix_loop avg2 10 s2) = Ok 1%nat
      /\ st_prices (fst first2)
         = [("casco_basic_100", 2 ^ 60); ("casco_basic_200", 2 ^ 60);
            ("limited_casco_basic_100", 2 ^ 60 + 1)]
      /\ st_prices (fst again2)
         = [("casco_basic_100", 2 ^ 60); ("casco_basic_200", 1037629354146162304);
            ("limited_casco_basic_100", 2 ^ 60 + 1)]).
Proof. repeat split; vm_compute; reflexivity. Qed.

(** ** Monotonicity per axis *)


(** *** What a returning computation went through *)

Lemma bind_ok {A B : Type} (m : M A) (k : A -> M B) (s s' : store) (b : B) :
  bind m k s = (s', Ok b) ->
  exists s1 a, m s = (s1, Ok a) /\ k a s1 = (s', Ok b).
Proof.
  unfold bind. destruct (m s) as [s1 [a | e]]; intros H.
  - now exists s1, a.
  - discriminate.
Qed.

Lemma rbind_ok {A B : Type} (r : result A) (k : A -> result B) (b : B) :
  rbind r k = Ok b -> exists a, r = Ok a /\ k a = Ok b.
Proof. destruct r as [a | e]; simpl; [now exists a | discriminate]. Qed.

Lemma lift_ok {A : Type} (r : result A) (s s' : store) (a : A) :
  lift r s = (s', Ok a) -> s' = s /\ r = Ok a.
Proof. unfold lift. intros H. injection H as <- ->. now split. Qed.

Lemma ret_ok {A : Type} (a a' : A) (s s' : store) :
  ret a s = (s', Ok a') -> s' = s /\ a' = a.
Proof. unfold ret. intros H. injection H as <- <-. now split. Qed.

Lemma price_of_ok (k : string) (s s' : store) (p : Z) :
  price_of k s = (s', Ok p) -> s' = s /\ dict_get (st_prices s) k = Some p.
Proof.
  unfold price_of. destruct (dict_get (st_prices s) k) as [v |]; intros H.
  - injection H as <- <-. now split.
  - discriminate.
Qed.

(** Inverts the hypotheses that say a computation returned. *)
Ltac inv_ok :=
  repeat match goal with
  | H : bind _ _ _ = (_, Ok _) |- _ =>
      let s1 := fresh "s" in let a := fresh "a" in
      let H1 := fresh "H" in let H2 := fresh "H" in
      apply bind_ok in H; destruct H as (s1 & a & H1 & H2)
  | H : lift _ _ = (_, Ok _) |- _ =>
      let E := fresh "E" in apply lift_ok in H; destruct H as [-> E]
  | H : ret _ _ = (_, Ok _) |- _ =>
      let E := fresh "E" in apply ret_ok in H; destruct H as [-> E]
  | H : price_of _ _ = (_, Ok _) |- _ =>
      let E := fresh "E" in apply price_of_ok in H; destruct H as [-> E]
  end.

(** A guarded write that leaves the flag down wrote nothing: the price
    was already the new one. *)
Lemma write_if_new_idle (it : PriceElement) (new_val : Z) (changed : bool) (s s' : store) :
  Modified.write_if_new it new_val changed s = (s', Ok false) ->
  s' = s /\ changed = false /\ dict_get (st_prices s) (key it) = Some new_val.
Proof.
  unfold Modified.write_if_new. intros H. inv_ok.
  destruct (new_val =? a) eqn:Hcmp; simpl in *.
  - apply Z.eqb_eq in Hcmp. subst a. inv_ok. now subst.
  - inv_ok. discriminate.
Qed.

(** A schedule that leaves the flag down wrote nothing: every element of
    the group already had the price the schedule gives its rank. *)
Lemma schedule_idle (rank : PriceElement -> result Z) (factor : Float.float) (base : Z)
    (group : list PriceElement) :
  forall (changed : bool) (s s' : store),
    foreach group (fun it changed =>
      bind (lift (rank it)) (fun r =>
      bind (lift (Float.int_mul base (Float.pow factor (r - 1)))) (fun x =>
      bind (lift (Float.round x)) (fun new_price =>
      Modified.write_if_new it new_price changed)))) changed s = (s', Ok false) ->
    s' = s /\ changed = false
    /\ forall it, In it group ->
         exists r p, rank it = Ok r /\ schedule_price factor base r = Ok p
                     /\ dict_get (st_prices s) (key it) = Some p.
Proof.
  induction group as [| it0 rest IH]; intros changed s s' H; simpl in H.
  - inv_ok. subst. repeat split. intros it [].
  - apply bind_ok in H. destruct H as (s1 & c1 & Hstep & Hrest).
    apply IH in Hrest. destruct Hrest as (-> & -> & Hall).
    apply bind_ok in Hstep. destruct Hstep as (s2 & r & Hr & Hstep).
    apply lift_ok in Hr. destruct Hr as [-> Hr].
    apply bind_ok in Hstep. destruct Hstep as (s2 & x & Hx & Hstep).
    apply lift_ok in Hx. destruct Hx as [-> Hx].
    apply bind_ok in Hstep. destruct Hstep as (s2 & p & Hp & Hstep).
    apply lift_ok in Hp. destruct Hp as [-> Hp].
    apply write_if_new_idle in Hstep. destruct Hstep as (-> & -> & Hprice).
    repeat split. intros it [<- | Hin].
    + exists r, p. repeat split; try assumption.
      unfold schedule_price. rewrite Hx. exact Hp.
    + now apply Hall.
Qed.

Lemma apply_deductible_schedule_idle (group : list PriceElement) (base : Z) (s s' : store) :
  Modified.apply_deductible_schedule group base s = (s', Ok false) ->
  s' = s
  /\ forall it, In it group ->
       exists r p, get_deductible_rank (deductible it) = Ok r
                   /\ decay_price base r = Ok p
                   /\ dict_get (st_prices s) (key it) = Some p.
Proof.
  intros H. apply (schedule_idle (fun it => get_deductible_rank (deductible it))) in H.
  destruct H as (-> & _ & H). now split.
Qed.

Lemma apply_variant_schedule_idle (group : list PriceElement) (base : Z) (s s' : store) :
  Modified.apply_variant_schedule group base s = (s', Ok false) ->
  s' = s
  /\ forall it, In it group ->
       exists r p, get_variant_rank (variant it) = Ok r
                   /\ markup_price base r = Ok p
                   /\ dict_get (st_prices s) (key it) = Some p.
Proof.
  intros H. apply (schedule_idle (fun it => get_variant_rank (variant it))) in H.
  destruct H as (-> & _ & H). now split.
Qed.

(** The search for a base reads only, and finds one as soon as an element
    of the group passes the test. *)
Lemma max_price_in_group_ok (items : list PriceElement)
    (predicate : PriceElement -> result bool) (s s' : store) (mx : option Z) :
  Modified.max_price_in_group items predicate s = (s', Ok mx) ->
  s' = s
  /\ ((exists z, In z items /\ predicate z = Ok true) -> mx <> None)
  /\ (forall base, mx = Some base ->
        exists z, In z items /\ dict_get (st_prices s) (key z) = Some base).
Proof.
  unfold Modified.max_price_in_group.
  set (P := fun base : Z =>
              exists z, In z items /\ dict_get (st_prices s) (key z) = Some base).
  assert (G : forall l acc s0,
    incl l items -> s0 = s ->
    (forall base, acc = Some base -> P base) ->
    foreach l (fun it mx =>
      bind (lift (predicate it)) (fun sel =>
        if sel : bool then
          bind (price_of (key it)) (fun p =>
            ret (Some (match mx with None => p | Some m => Z.max m p end)))
        else ret mx)) acc s0 = (s', Ok mx) ->
    s' = s0
    /\ ((acc <> None \/ exists z, In z l /\ predicate z = Ok true) -> mx <> None)
    /\ (forall base, mx = Some base -> P base)).
  { induction l as [| it0 rest IH]; intros acc s0 Hincl Hs0 Hacc H; simpl in H.
    - apply ret_ok in H. destruct H as [-> ->].
      split; [reflexivity |]. split; [| exact Hacc].
      intros [Hnone | (z & [] & _)]. exact Hnone.
    - apply bind_ok in H. destruct H as (s1 & acc1 & Hstep & Hrest).
      apply bind_ok in Hstep. destruct Hstep as (s2 & sel & Hsel & Hstep).
      apply lift_ok in Hsel. destruct Hsel as [-> Hsel].
      assert (Hrest_incl : incl rest items).
      { intros z Hz. apply Hincl. now right. }
      destruct sel.
      + apply bind_ok in Hstep. destruct Hstep as (s2 & p & Hp & Hstep).
        apply price_of_ok in Hp. destruct Hp as [-> Hp].
        apply ret_ok in Hstep. destruct Hstep as [-> ->].
        apply IH in Hrest; [| exact Hrest_incl | exact Hs0 |].
        * destruct Hrest as (-> & Hmx & HP). split; [reflexivity |]. split; [| exact HP].
          intros _. apply Hmx. left. discriminate.
        * intros base Hb. injection Hb as <-.
          assert (Hpp : P p).
          { exists it0. split; [apply Hincl; now left | now rewrite <- Hs0]. }
          destruct acc as [m |]; [| exact Hpp].
          destruct (Z.max_spec m p) as [[_ ->] | [_ ->]]; [exact Hpp | now apply Hacc].
      + apply ret_ok in Hstep. destruct Hstep as [-> ->].
        apply IH in Hrest; [| exact Hrest_incl | exact Hs0 | exact Hacc].
        destruct Hrest as (-> & Hmx & HP). split; [reflexivity |]. split; [| exact HP].
        intros [Hnone | (z & [<- | Hin] & Hz)].
        * apply Hmx. now left.
        * congruence.
        * apply Hmx. right. now exists z. }
  intros H. apply (G items None s) in H.
  - destruct H as (-> & Hmx & HP). split; [reflexivity |]. split; [| exact HP].
    intros Hz. apply Hmx. now right.
  - apply incl_refl.
  - reflexivity.
  - intros base Hb. discriminate.
Qed.
Lemma option_eqb_string_eq (x y : option string) :
  variant_eqb x y = true <-> x = y.
Proof.
  unfold variant_eqb, option_eqb. destruct x as [u |], y as [v |]; split; intros H;
    try discriminate; try reflexivity.
  - apply String.eqb_eq in H. now subst.
  - injection H as ->. apply String.eqb_refl.
Qed.

Lemma option_eqb_Z_eq (x y : option Z) :
  option_eqb Z.eqb x y = true <-> x = y.
Proof.
  unfold option_eqb. destruct x as [u |], y as [v |]; split; intros H;
    try discriminate; try reflexivity.
  - apply Z.eqb_eq in H. now subst.
  - injection H as ->. apply Z.eqb_refl.
Qed.

Lemma rank_unless_core_non_core (r : result Z) (s s' : store) (v : option Z) :
  Modified.rank_unless_core false r s = (s', Ok v) ->
  s' = s /\ exists x, r = Ok x /\ v = Some x.
Proof.
  unfold Modified.rank_unless_core. intros H.
  apply bind_ok in H. destruct H as (s1 & x & Hx & H).
  apply lift_ok in Hx. destruct Hx as [-> Hx].
  apply ret_ok in H. destruct H as [-> ->]. split; [reflexivity |]. now exists x.
Qed.

Lemma in_variant_group (items : list PriceElement) (a z : PriceElement) :
  In z items -> product z = product a -> is_core_product (product a) = false ->
  variant z = variant a ->
  In z (Modified.group_items items (fun it =>
          String.eqb (product it) (product a)
          && negb (is_core_product (product it))
          && variant_eqb (variant it) (variant a))).
Proof.
  intros Hin Hp Hc Hv. unfold Modified.group_items. apply filter_In. split; [exact Hin |].
  rewrite Hp, Hv, Hc, String.eqb_refl. simpl.
  now apply option_eqb_string_eq.
Qed.

Lemma idle_deductible_pair
    (avg_prices : list (string * Float.float)) (s : store) (a b : PriceElement) (da db : Z) :
  idle_pair avg_prices s a b ->
  In a (st_items s) -> In b (st_items s) ->
  product a = product b -> is_core_product (product a) = false ->
  variant a = variant b ->
  get_deductible_rank (deductible a) = Ok da ->
  get_deductible_rank (deductible b) = Ok db ->
  da <> db ->
  (exists z, In z (st_items s) /\ product z = product a /\ variant z = variant a
             /\ get_deductible_rank (deductible z) = Ok 1) ->
  exists price_a price_b,
    dict_get (st_prices s) (key a) = Some price_a
    /\ dict_get (st_prices s) (key b) = Some price_b
    /\ ((if da <? db then price_b < price_a else price_a < price_b)
        \/ exists base k,
             dict_get (st_prices s) k = Some base
             /\ decay_price base da = Ok price_a /\ decay_price base db = Ok price_b).
Proof.
  intros H Ha Hb Hprod Hcore Hvar Hda Hdb Hne Hbase.
  unfold idle_pair, Modified.fix_pair in H.
  rewrite <- Hprod, <- Hvar, Hcore, Hda, Hdb in H.
  apply bind_ok in H. destruct H as (s1 & pa & Hpa & H).
  apply lift_ok in Hpa. destruct Hpa as [-> Hpa]. rewrite Hpa in H.
  apply bind_ok in H. destruct H as (s1 & pb & Hpb & H).
  apply lift_ok in Hpb. destruct Hpb as [-> Hpb]. injection Hpb as <-.
  apply bind_ok in H. destruct H as (s1 & va & Hva & H).
  apply rank_unless_core_non_core in Hva. destruct Hva as (-> & x & Hx & ->).
  rewrite Hx in H.
  apply bind_ok in H. destruct H as (s1 & vb & Hvb & H).
  apply rank_unless_core_non_core in Hvb. destruct Hvb as (-> & x' & Hx' & ->).
  injection Hx' as <-.
  apply bind_ok in H. destruct H as (s1 & da' & Hda' & H).
  apply rank_unless_core_non_core in Hda'. destruct Hda' as (-> & y & Hy & ->).
  injection Hy as <-.
  apply bind_ok in H. destruct H as (s1 & db' & Hdb' & H).
  apply rank_unless_core_non_core in Hdb'. destruct Hdb' as (-> & y & Hy & ->).
  injection Hy as <-.
  apply bind_ok in H. destruct H as (s1 & price_a & Hprice_a & H).
  apply price_of_ok in Hprice_a. destruct Hprice_a as [-> Hprice_a].
  apply bind_ok in H. destruct H as (s1 & price_b & Hprice_b & H).
  apply price_of_ok in Hprice_b. destruct Hprice_b as [-> Hprice_b].
  rewrite Z.eqb_refl in H. simpl in H. rewrite Z.eqb_refl in H.
  assert (Hdd : (da =? db) = false) by now apply Z.eqb_neq.
  rewrite Hdd in H. simpl in H.
  apply bind_ok in H. destruct H as (s1 & c & Hfix & H).
  apply ret_ok in H. destruct H as [<- Hc]. subst c.
  exists price_a, price_b. split; [exact Hprice_a |]. split; [exact Hprice_b |].
  unfold Modified.fix_deductible_order in Hfix. simpl in Hfix.
  apply bind_ok in Hfix. destruct Hfix as (s1 & lt & Hlt & Hfix).
  apply ret_ok in Hlt. destruct Hlt as [-> Hlt]. subst lt.
  apply bind_ok in Hfix. destruct Hfix as (s1 & lower_price & Hlower & Hfix).
  apply price_of_ok in Hlower. destruct Hlower as [-> Hlower].
  apply bind_ok in Hfix. destruct Hfix as (s1 & higher_price & Hhigher & Hfix).
  apply price_of_ok in Hhigher. destruct Hhigher as [-> Hhigher].
  destruct (lower_price <=? higher_price) eqn:Hle.
  - right.
    apply bind_ok in Hfix. destruct Hfix as (s1 & base & Hmax & Hfix).
    apply max_price_in_group_ok in Hmax. destruct Hmax as (-> & Hsome & Horigin).
    destruct Hbase as (z & Hz & Hzp & Hzv & Hzd).
    destruct base as [base' |].
    2:{ exfalso. apply Hsome; [| reflexivity].
        exists z. split; [now apply in_variant_group |]. now rewrite Hzd. }
    destruct (Horigin base' eq_refl) as (z' & _ & Hz').
    exists base', (key z'). split; [exact Hz' |].
    apply bind_ok in Hfix. destruct Hfix as (s1 & c & Hsched & Hfix).
    apply ret_ok in Hfix. destruct Hfix as [<- Hc]. subst c.
    apply apply_deductible_schedule_idle in Hsched. destruct Hsched as [_ Hall].
    destruct (Hall a) as (ra & p_a & Hra & Hsa & Hpa').
    { now apply in_variant_group. }
    destruct (Hall b) as (rb & p_b & Hrb & Hsb & Hpb').
    { apply in_variant_group; try assumption; now symmetry. }
    rewrite Hda in Hra. injection Hra as <-.
    rewrite Hdb in Hrb. injection Hrb as <-.
    rewrite Hprice_a in Hpa'. injection Hpa' as <-.
    rewrite Hprice_b in Hpb'. injection Hpb' as <-.
    now split.
  - left. apply ret_ok in Hfix. clear Hfix.
    apply Z.leb_gt in Hle.
    destruct (da <? db).
    + rewrite Hprice_a in Hlower. rewrite Hprice_b in Hhigher.
      injection Hlower as <-. injection Hhigher as <-. exact Hle.
    + rewrite Hprice_b in Hlower. rewrite Hprice_a in Hhigher.
      injection Hlower as <-. injection Hhigher as <-. exact Hle.
Qed.

Lemma option_eqb_deductible_eq (x y : option Z) :
  deductible_eqb x y = true <-> x = y.
Proof. apply option_eqb_Z_eq. Qed.

Lemma in_deductible_group (items : list PriceElement) (a z : PriceElement) :
  In z items -> product z = product a -> is_core_product (product a) = false ->
  deductible z = deductible a ->
  In z (Modified.group_items items (fun it =>
          String.eqb (product it) (product a)
          && negb (is_core_product (product it))
          && deductible_eqb (deductible it) (deductible a))).
Proof.
  intros Hin Hp Hc Hd. unfold Modified.group_items. apply filter_In. split; [exact Hin |].
  rewrite Hp, Hd, Hc, String.eqb_refl. simpl.
  now apply option_eqb_deductible_eq.
Qed.

Lemma idle_variant_pair
    (avg_prices : list (string * Float.float)) (s : store) (a b : PriceElement) (va vb : Z) :
  idle_pair avg_prices s a b ->
  In a (st_items s) -> In b (st_items s) ->
  product a = product b -> is_core_product (product a) = false ->
  deductible a = deductible b ->
  get_variant_rank (variant a) = Ok va ->
  get_variant_rank (variant b) = Ok vb ->
  va <> vb ->
  (exists z, In z (st_items s) /\ product z = product a /\ deductible z = deductible a
             /\ get_variant_rank (variant z) = Ok 1) ->
  exists price_a price_b,
    dict_get (st_prices s) (key a) = Some price_a
    /\ dict_get (st_prices s) (key b) = Some price_b
    /\ ((if va <? vb then price_a < price_b else price_b < price_a)
        \/ exists base k,
             dict_get (st_prices s) k = Some base
             /\ markup_price base va = Ok price_a /\ markup_price base vb = Ok price_b).
Proof.
  intros H Ha Hb Hprod Hcore Hded Hva Hvb Hne Hbase.
  unfold idle_pair, Modified.fix_pair in H.
  rewrite <- Hprod, <- Hded, Hcore, Hva, Hvb in H.
  apply bind_ok in H. destruct H as (s1 & pa & Hpa & H).
  apply lift_ok in Hpa. destruct Hpa as [-> Hpa]. rewrite Hpa in H.
  apply bind_ok in H. destruct H as (s1 & pb & Hpb & H).
  apply lift_ok in Hpb. destruct Hpb as [-> Hpb]. injection Hpb as <-.
  apply bind_ok in H. destruct H as (s1 & va' & Hva' & H).
  apply rank_unless_core_non_core in Hva'. destruct Hva' as (-> & x & Hx & ->).
  injection Hx as <-.
  apply bind_ok in H. destruct H as (s1 & vb' & Hvb' & H).
  apply rank_unless_core_non_core in Hvb'. destruct Hvb' as (-> & x & Hx & ->).
  injection Hx as <-.
  apply bind_ok in H. destruct H as (s1 & da & Hda & H).
  apply rank_unless_core_non_core in Hda. destruct Hda as (-> & d & Hd & ->).
  rewrite Hd in H.
  apply bind_ok in H. destruct H as (s1 & db & Hdb & H).
  apply rank_unless_core_non_core in Hdb. destruct Hdb as (-> & d' & Hd' & ->).
  injection Hd' as <-.
  apply bind_ok in H. destruct H as (s1 & price_a & Hprice_a & H).
  apply price_of_ok in Hprice_a. destruct Hprice_a as [-> Hprice_a].
  apply bind_ok in H. destruct H as (s1 & price_b & Hprice_b & H).
  apply price_of_ok in Hprice_b. destruct Hprice_b as [-> Hprice_b].
  rewrite Z.eqb_refl in H. simpl in H. rewrite Z.eqb_refl in H.
  assert (Hvv : (va =? vb) = false) by now apply Z.eqb_neq.
  rewrite Hvv in H. simpl in H.
  apply bind_ok in H. destruct H as (s1 & c & Hskip & Hfix).
  apply ret_ok in Hskip. destruct Hskip as [-> ->].
  exists price_a, price_b. split; [exact Hprice_a |]. split; [exact Hprice_b |].
  unfold Modified.fix_variant_order in Hfix. simpl in Hfix.
  apply bind_ok in Hfix. destruct Hfix as (s1 & lt & Hlt & Hfix).
  apply ret_ok in Hlt. destruct Hlt as [-> Hlt]. subst lt.
  apply bind_ok in Hfix. destruct Hfix as (s1 & lower_price & Hlower & Hfix).
  apply price_of_ok in Hlower. destruct Hlower as [-> Hlower].
  apply bind_ok in Hfix. destruct Hfix as (s1 & higher_price & Hhigher & Hfix).
  apply price_of_ok in Hhigher. destruct Hhigher as [-> Hhigher].
  destruct (lower_price >=? higher_price) eqn:Hge.
  - right.
    apply bind_ok in Hfix. destruct Hfix as (s1 & base & Hmax & Hfix).
    apply max_price_in_group_ok in Hmax. destruct Hmax as (-> & Hsome & Horigin).
    destruct Hbase as (z & Hz & Hzp & Hzd & Hzv).
    destruct base as [base' |].
    2:{ exfalso. apply Hsome; [| reflexivity].
        exists z. split; [now apply in_deductible_group |]. now rewrite Hzv. }
    destruct (Horigin base' eq_refl) as (z' & _ & Hz').
    exists base', (key z'). split; [exact Hz' |].
    apply bind_ok in Hfix. destruct Hfix as (s1 & c & Hsched & Hfix).
    apply ret_ok in Hfix. destruct Hfix as [<- Hc]. subst c.
    apply apply_variant_schedule_idle in Hsched. destruct Hsched as [_ Hall].
    destruct (Hall a) as (ra & p_a & Hra & Hsa & Hpa').
    { now apply in_deductible_group. }
    destruct (Hall b) as (rb & p_b & Hrb & Hsb & Hpb').
    { apply in_deductible_group; try assumption; now symmetry. }
    rewrite Hva in Hra. injection Hra as <-.
    rewrite Hvb in Hrb. injection Hrb as <-.
    rewrite Hprice_a in Hpa'. injection Hpa' as <-.
    rewrite Hprice_b in Hpb'. injection Hpb' as <-.
    now split.
  - left. apply ret_ok in Hfix. clear Hfix.
    assert (Hlt : lower_price < higher_price).
    { destruct (Z.geb_spec lower_price higher_price); [discriminate | lia]. }
    destruct (va <? vb).
    + rewrite Hprice_a in Hlower. rewrite Hprice_b in Hhigher.
      injection Hlower as <-. injection Hhigher as <-. exact Hlt.
    + rewrite Hprice_b in Hlower. rewrite Hprice_a in Hhigher.
      injection Hlower as <-. injection Hhigher as <-. exact Hlt.
Qed.

Lemma scanned_pairs_in (l : list PriceElement) (a b : PriceElement) :
  In (a, b) (scanned_pairs l) -> In a l /\ In b l.
Proof.
  induction l as [| x rest IH]; simpl; [intros [] |].
  intros H. apply in_app_or in H. destruct H as [H | H].
  - apply in_map_iff in H. destruct H as (y & Hy & Hin). injection Hy as <- <-.
    split; [now left | now right].
  - apply IH in H. destruct H. split; now right.
Qed.

Lemma foreach_idle {A : Type} (l : list A) (g : A -> bool -> M bool) (s : store) :
  (forall y, In y l -> g y false s = (s, Ok false)) ->
  foreach l g false s = (s, Ok false).
Proof.
  induction l as [| y rest IH]; intros H; simpl; [reflexivity |].
  unfold bind. rewrite H by now left. apply IH. intros z Hz. apply H. now right.
Qed.

Lemma for_pairs_idle (l : list PriceElement)
    (f : PriceElement -> PriceElement -> bool -> M bool) (s : store) :
  (forall a b, In (a, b) (scanned_pairs l) -> f a b false s = (s, Ok false)) ->
  for_pairs l f false s = (s, Ok false).
Proof.
  induction l as [| x rest IH]; intros H; simpl; [reflexivity |].
  unfold bind. rewrite foreach_idle.
  - apply IH. intros a b Hab. apply H. simpl. apply in_or_app. now right.
  - intros y Hy. apply H. simpl. apply in_or_app. left. now apply in_map.
Qed.

(** On a table at rest the repair of [modified_version.py] returns after
    one pass, or at once on an empty budget, and leaves the table as it
    was. *)
Lemma at_rest_fix_products_inplace
    (avg_prices : list (string * Float.float)) (s : store) (max_iters : Z) :
  at_rest avg_prices s ->
  Modified.fix_pass avg_prices s = (s, Ok false)
  /\ Modified.fix_products_inplace avg_prices max_iters s = (s, Ok tt)
  /\ (0 < max_iters ->
      Modified.fix_loop avg_prices (Z.to_nat max_iters) s = (s, Ok 1%nat)).
Proof.
  intros H.
  assert (Hpass : Modified.fix_pass avg_prices s = (s, Ok false)).
  { unfold Modified.fix_pass, bind, get_items. now apply for_pairs_idle. }
  split; [exact Hpass |].
  assert (Hloop : forall n, Modified.fix_loop avg_prices (S n) s = (s, Ok 1%nat)).
  { intros n. simpl. unfold bind. now rewrite Hpass. }
  split.
  - unfold Modified.fix_products_inplace, bind.
    destruct (Z.to_nat max_iters) as [| n]; [reflexivity |]. now rewrite Hloop.
  - intros Hpos. destruct (Z.to_nat max_iters) as [| n] eqn:E; [lia |]. apply Hloop.
Qed.

(** On a table at rest, the two prices of a scanned pair within one
    group that has a base are either strictly ordered, or both on the
    schedule of one base, itself a price of the table. *)
Lemma at_rest_pairs_on_schedule
    (avg_prices : list (string * Float.float)) (s : store) (a b : PriceElement) :
  at_rest avg_prices s ->
  In (a, b) (scanned_pairs (st_items s)) ->
  product a = product b ->
  is_core_product (product a) = false ->
  (forall da db,
     variant a = variant b ->
     get_deductible_rank (deductible a) = Ok da ->
     get_deductible_rank (deductible b) = Ok db ->
     da <> db ->
     (exists z, In z (st_items s) /\ product z = product a /\ variant z = variant a
                /\ get_deductible_rank (deductible z) = Ok 1) ->
     exists price_a price_b,
       dict_get (st_prices s) (key a) = Some price_a
       /\ dict_get (st_prices s) (key b) = Some price_b
       /\ ((if da <? db then price_b < price_a else price_a < price_b)
           \/ exists base k,
                dict_get (st_prices s) k = Some base
                /\ decay_price base da = Ok price_a /\ decay_price base db = Ok price_b))
  /\ (forall va vb,
        deductible a = deductible b ->
        get_variant_rank (variant a) = Ok va ->
        get_variant_rank (variant b) = Ok vb ->
        va <> vb ->
        (exists z, In z (st_items s) /\ product z = product a
                   /\ deductible z = deductible a
                   /\ get_variant_rank (variant z) = Ok 1) ->
        exists price_a price_b,
          dict_get (st_prices s) (key a) = Some price_a
          /\ dict_get (st_prices s) (key b) = Some price_b
          /\ ((if va <? vb then price_a < price_b else price_b < price_a)
              \/ exists base k,
                   dict_get (st_prices s) k = Some base
                   /\ markup_price base va = Ok price_a
                   /\ markup_price base vb = Ok price_b)).
Proof.
  intros Hrest Hpair Hprod Hcore.
  destruct (scanned_pairs_in _ _ _ Hpair) as [Ha Hb].
  specialize (Hrest a b Hpair).
  split; intros.
  - eapply idle_deductible_pair; eassumption.
  - eapply idle_variant_pair; eassumption.
Qed.
(** ** A clean report and the repair *)

(** A deductible rank that was found comes from the table. *)
Lemma get_deductible_rank_ok (x : option Z) (r : Z) :
  get_deductible_rank x = Ok r ->
  exists d, x = Some d /\ zdict_get deductables_rank d = Some r.
Proof.
  unfold get_deductible_rank. destruct x as [d |]; [| discriminate].
  destruct (zdict_get deductables_rank d) as [r' |] eqn:E.
  - intros H. injection H as <-. now exists d.
  - destruct (py_format d); simpl; discriminate.
Qed.

Lemma get_product_rank_inj (p q : string) (r : Z) :
  get_product_rank p = Ok r -> get_product_rank q = Ok r -> p = q.
Proof.
  unfold get_product_rank, product_rank, dict_get.
  destruct (String.eqb "mtpl" p) eqn:P1;
  destruct (String.eqb "limited_casco" p) eqn:P2;
  destruct (String.eqb "casco" p) eqn:P3;
  destruct (String.eqb "mtpl" q) eqn:Q1;
  destruct (String.eqb "limited_casco" q) eqn:Q2;
  destruct (String.eqb "casco" q) eqn:Q3;
  intros H1 H2; try discriminate; try (injection H1 as <-; discriminate);
  repeat match goal with
         | H : String.eqb _ _ = true |- _ => apply String.eqb_eq in H
         end; congruence.
Qed.

Lemma get_deductible_rank_inj (x y : option Z) (r : Z) :
  get_deductible_rank x = Ok r -> get_deductible_rank y = Ok r -> x = y.
Proof.
  intros H1 H2.
  apply get_deductible_rank_ok in H1. destruct H1 as (u & -> & H1).
  apply get_deductible_rank_ok in H2. destruct H2 as (v & -> & H2).
  revert H1 H2. unfold deductables_rank, zdict_get.
  destruct (Z.eqb 100 u) eqn:P1; destruct (Z.eqb 200 u) eqn:P2;
  destruct (Z.eqb 500 u) eqn:P3; destruct (Z.eqb 100 v) eqn:Q1;
  destruct (Z.eqb 200 v) eqn:Q2; destruct (Z.eqb 500 v) eqn:Q3;
  intros H1 H2; try discriminate; try (injection H1 as <-; discriminate);
  repeat match goal with
         | H : Z.eqb _ _ = true |- _ => apply Z.eqb_eq in H
         end; congruence.
Qed.

Lemma append_line_not_nil (report : list string) (line : string) :
  append_line report line <> [].
Proof. unfold append_line. destruct report; discriminate. Qed.

Lemma report_line_ok (report report' : list string) (line : result string) :
  report_line report line = Ok report' ->
  exists l, line = Ok l /\ report' = append_line report l.
Proof.
  unfold report_line. destruct line as [l | e]; simpl; [| discriminate].
  intros H. injection H as <-. now exists l.
Qed.

Lemma report_line_not_nil (report : list string) (line : result string) :
  report_line report line <> Ok [].
Proof.
  intros H. apply report_line_ok in H. destruct H as (l & _ & H).
  symmetry in H. now apply append_line_not_nil in H.
Qed.

Lemma check_product_order_nil a b price_a price_b pa pb report :
  check_product_order a b price_a price_b pa pb report = Ok [] -> report = [].
Proof.
  unfold check_product_order.
  repeat match goal with
         | |- context [if ?c then _ else _] => destruct c
         end; intros H; try (injection H as H; exact H);
    now apply report_line_not_nil in H.
Qed.

Lemma check_cross_product_order_nil a b price_a price_b pa pb report :
  check_cross_product_order a b price_a price_b pa pb report = Ok [] -> report = [].
Proof.
  unfold check_cross_product_order.
  repeat match goal with
         | |- context [if ?c then _ else _] => destruct c
         end; intros H; try (injection H as H; exact H);
    now apply report_line_not_nil in H.
Qed.

Lemma check_variant_order_nil a b price_a price_b report s s' :
  check_variant_order a b price_a price_b report s = (s', Ok []) ->
  s' = s /\ report = [].
Proof.
  unfold check_variant_order, bind, lift, ret.
  repeat match goal with
         | |- context [if ?c then _ else _] => destruct c
         | |- context [match ?r with Ok _ => _ | Raise _ => _ end] => destruct r
         end; intros H; try discriminate; injection H as <- H; split; auto;
    now apply report_line_not_nil in H.
Qed.

Lemma check_deductible_order_nil a b price_a price_b report s s' :
  check_deductible_order a b price_a price_b report s = (s', Ok []) ->
  s' = s /\ report = [].
Proof.
  unfold check_deductible_order, bind, lift, ret.
  repeat match goal with
         | |- context [if ?c then _ else _] => destruct c
         | |- context [match ?r with Ok _ => _ | Raise _ => _ end] => destruct r
         end; intros H; try discriminate; injection H as <- H; split; auto;
    now apply report_line_not_nil in H.
Qed.

(** What an empty report of one pair says. *)
Lemma detect_pair_nil (a b : PriceElement) (report : list string) (s s' : store) :
  detect_pair a b report s = (s', Ok []) ->
  s' = s /\ report = []
  /\ exists price_a price_b pa pb,
       dict_get (st_prices s) (key a) = Some price_a
       /\ dict_get (st_prices s) (key b) = Some price_b
       /\ get_product_rank (product a) = Ok pa
       /\ get_product_rank (product b) = Ok pb
       /\ check_product_order a b price_a price_b pa pb [] = Ok []
       /\ check_cross_product_order a b price_a price_b pa pb [] = Ok []
       /\ check_variant_order a b price_a price_b [] s = (s, Ok [])
       /\ check_deductible_order a b price_a price_b [] s = (s, Ok []).
Proof.
  unfold detect_pair. intros H.
  apply bind_ok in H. destruct H as (s1 & price_a & Hpa & H).
  apply price_of_ok in Hpa. destruct Hpa as [-> Hprice_a].
  apply bind_ok in H. destruct H as (s1 & price_b & Hpb & H).
  apply price_of_ok in Hpb. destruct Hpb as [-> Hprice_b].
  apply bind_ok in H. destruct H as (s1 & pa & Hpa & H).
  apply lift_ok in Hpa. destruct Hpa as [-> Hpa].
  apply bind_ok in H. destruct H as (s1 & pb & Hpb & H).
  apply lift_ok in Hpb. destruct Hpb as [-> Hpb].
  apply bind_ok in H. destruct H as (s1 & r1 & Hr1 & H).
  apply lift_ok in Hr1. destruct Hr1 as [-> Hr1].
  apply bind_ok in H. destruct H as (s1 & r2 & Hr2 & H).
  apply lift_ok in Hr2. destruct Hr2 as [-> Hr2].
  apply bind_ok in H. destruct H as (s1 & r3 & Hv & Hd).
  pose proof (check_deductible_order_nil _ _ _ _ _ _ _ Hd) as [-> ->].
  pose proof (check_variant_order_nil _ _ _ _ _ _ _ Hv) as [-> ->].
  pose proof (check_cross_product_order_nil _ _ _ _ _ _ _ Hr2) as ->.
  pose proof (check_product_order_nil _ _ _ _ _ _ _ Hr1) as ->.
  split; [reflexivity |]. split; [reflexivity |].
  exists price_a, price_b, pa, pb.
  repeat split; assumption.
Qed.

Lemma foreach_detect_nil (a : PriceElement) (l : list PriceElement) :
  forall report s s',
    foreach l (detect_pair a) report s = (s', Ok []) ->
    s' = s /\ report = []
    /\ forall b, In b l -> detect_pair a b [] s = (s, Ok []).
Proof.
  induction l as [| y rest IH]; intros report s s' H; simpl in H.
  - apply ret_ok in H. destruct H as [-> ->]. repeat split. intros b [].
  - apply bind_ok in H. destruct H as (s1 & acc & Hstep & Hrest).
    apply IH in Hrest. destruct Hrest as (-> & -> & Hall).
    pose proof (detect_pair_nil _ _ _ _ _ Hstep) as (-> & -> & _).
    repeat split. intros b [<- | Hb]; [exact Hstep | now apply Hall].
Qed.

(** An empty report says that every scanned pair, taken alone, reports
    nothing. *)
Lemma for_pairs_detect_nil (l : list PriceElement) :
  forall report s s',
    for_pairs l detect_pair report s = (s', Ok []) ->
    s' = s /\ report = []
    /\ forall a b, In (a, b) (scanned_pairs l) -> detect_pair a b [] s = (s, Ok []).
Proof.
  induction l as [| x rest IH]; intros report s s' H; simpl in H.
  - apply ret_ok in H. destruct H as [-> ->]. repeat split. intros a b [].
  - apply bind_ok in H. destruct H as (s1 & acc & Hrow & Hrest).
    apply IH in Hrest. destruct Hrest as (-> & -> & Hall).
    apply foreach_detect_nil in Hrow. destruct Hrow as (-> & -> & Hrow).
    repeat split. intros a b Hab. simpl in Hab. apply in_app_or in Hab.
    destruct Hab as [Hab | Hab].
    + apply in_map_iff in Hab. destruct Hab as (y & Hy & Hin). injection Hy as <- <-.
      now apply Hrow.
    + now apply Hall.
Qed.

Lemma is_ok_inv {A : Type} (r : result A) : is_ok r = true -> exists a, r = Ok a.
Proof. destruct r as [a | e]; [now exists a | discriminate]. Qed.

Lemma resolves_inv (s : store) (it : PriceElement) :
  resolves s it = true ->
  (exists p, get_product_rank (product it) = Ok p)
  /\ (exists price, dict_get (st_prices s) (key it) = Some price)
  /\ (is_core_product (product it) = false ->
      (exists v, get_variant_rank (variant it) = Ok v)
      /\ (exists d, get_deductible_rank (deductible it) = Ok d)).
Proof.
  unfold resolves. intros H.
  apply andb_prop in H. destruct H as [H Hprice].
  apply andb_prop in H. destruct H as [Hp Hr].
  split; [now apply is_ok_inv |]. split.
  - destruct (dict_get (st_prices s) (key it)) as [p |]; [now exists p | discriminate].
  - intros Hc. rewrite Hc in Hr. simpl in Hr. apply andb_prop in Hr.
    destruct Hr as [Hv Hd]. split; now apply is_ok_inv.
Qed.

(** What the last two rules say of a pair that they leave unreported. *)
Lemma deductible_order_clean (s : store) (a b : PriceElement)
    (price_a price_b da db : Z) :
  check_deductible_order a b price_a price_b [] s = (s, Ok []) ->
  product a = product b -> is_core_product (product a) = false ->
  variant a = variant b ->
  get_deductible_rank (deductible a) = Ok da ->
  get_deductible_rank (deductible b) = Ok db ->
  da <> db ->
  if da <? db then price_b < price_a else price_a < price_b.
Proof.
  intros Hc Hprod Hcore Hvar Hda Hdb Hne.
  unfold check_deductible_order in Hc.
  rewrite <- Hprod, <- Hvar, Hcore, String.eqb_refl in Hc.
  rewrite (proj2 (option_eqb_string_eq _ _) eq_refl) in Hc. cbn [negb andb] in Hc.
  unfold bind, lift, ret in Hc. rewrite Hda, Hdb in Hc.
  assert (Hdd : (da =? db) = false) by now apply Z.eqb_neq.
  rewrite Hdd in Hc. cbn [negb] in Hc.
  destruct (da <? db);
    match type of Hc with
    | context [?x >=? ?y] => destruct (Z.geb_spec x y) as [Hge | Hlt]; [| lia]
    end;
    injection Hc as Hc; now apply report_line_not_nil in Hc.
Qed.

Lemma variant_order_clean (s : store) (a b : PriceElement)
    (price_a price_b va vb : Z) :
  check_variant_order a b price_a price_b [] s = (s, Ok []) ->
  product a = product b -> is_core_product (product a) = false ->
  deductible a = deductible b ->
  get_variant_rank (variant a) = Ok va ->
  get_variant_rank (variant b) = Ok vb ->
  va <> vb ->
  if va <? vb then price_a < price_b else price_b < price_a.
Proof.
  intros Hc Hprod Hcore Hded Hva Hvb Hne.
  unfold check_variant_order in Hc.
  rewrite <- Hprod, <- Hded, Hcore, String.eqb_refl in Hc.
  rewrite (proj2 (option_eqb_deductible_eq _ _) eq_refl) in Hc. cbn [negb andb] in Hc.
  unfold bind, lift, ret in Hc. rewrite Hva, Hvb in Hc.
  assert (Hvv : (va =? vb) = false) by now apply Z.eqb_neq.
  rewrite Hvv in Hc. cbn [negb] in Hc.
  destruct (va <? vb);
    match type of Hc with
    | context [?x >=? ?y] => destruct (Z.geb_spec x y) as [Hge | Hlt]; [| lia]
    end;
    injection Hc as Hc; now apply report_line_not_nil in Hc.
Qed.

Lemma clean_deductible_idle (items : list PriceElement) (s : store) (a b : PriceElement)
    (price_a price_b da db : Z) :
  check_deductible_order a b price_a price_b [] s = (s, Ok []) ->
  product a = product b -> is_core_product (product a) = false ->
  variant a = variant b ->
  get_deductible_rank (deductible a) = Ok da ->
  get_deductible_rank (deductible b) = Ok db ->
  da <> db ->
  dict_get (st_prices s) (key a) = Some price_a ->
  dict_get (st_prices s) (key b) = Some price_b ->
  Modified.fix_deductible_order items a b (Some da) (Some db) false s = (s, Ok false).
Proof.
  intros Hc Hprod Hcore Hvar Hda Hdb Hne Hprice_a Hprice_b.
  pose proof (deductible_order_clean s a b price_a price_b da db
                Hc Hprod Hcore Hvar Hda Hdb Hne) as Hlt.
  unfold Modified.fix_deductible_order, Modified.rank_lt, bind, ret, price_of.
  destruct (da <? db);
    rewrite Hprice_a, Hprice_b;
    match goal with
    | |- context [?x <=? ?y] => replace (x <=? y) with false; [reflexivity |]
    end;
    symmetry; apply Z.leb_gt; lia.
Qed.

Lemma clean_variant_idle (items : list PriceElement) (s : store) (a b : PriceElement)
    (price_a price_b va vb : Z) :
  check_variant_order a b price_a price_b [] s = (s, Ok []) ->
  product a = product b -> is_core_product (product a) = false ->
  deductible a = deductible b ->
  get_variant_rank (variant a) = Ok va ->
  get_variant_rank (variant b) = Ok vb ->
  va <> vb ->
  dict_get (st_prices s) (key a) = Some price_a ->
  dict_get (st_prices s) (key b) = Some price_b ->
  Modified.fix_variant_order items a b (Some va) (Some vb) false s = (s, Ok false).
Proof.
  intros Hc Hprod Hcore Hded Hva Hvb Hne Hprice_a Hprice_b.
  pose proof (variant_order_clean s a b price_a price_b va vb
                Hc Hprod Hcore Hded Hva Hvb Hne) as Hlt.
  unfold Modified.fix_variant_order, Modified.rank_lt, bind, ret, price_of.
  destruct (va <? vb);
    rewrite Hprice_a, Hprice_b;
    match goal with
    | |- context [?x >=? ?y] =>
        replace (x >=? y) with false;
        [reflexivity | symmetry; destruct (Z.geb_spec x y); [lia | reflexivity]]
    end.
Qed.

Lemma variant_eqb_sym (x y : option string) : variant_eqb x y = variant_eqb y x.
Proof.
  destruct (variant_eqb x y) eqn:E; symmetry.
  - apply option_eqb_string_eq. apply option_eqb_string_eq in E. now symmetry.
  - destruct (variant_eqb y x) eqn:E'; [| reflexivity].
    apply option_eqb_string_eq in E'. symmetry in E'.
    apply option_eqb_string_eq in E'. congruence.
Qed.

Lemma deductible_eqb_sym (x y : option Z) : deductible_eqb x y = deductible_eqb y x.
Proof.
  destruct (deductible_eqb x y) eqn:E; symmetry.
  - apply option_eqb_deductible_eq. apply option_eqb_deductible_eq in E. now symmetry.
  - destruct (deductible_eqb y x) eqn:E'; [| reflexivity].
    apply option_eqb_deductible_eq in E'. symmetry in E'.
    apply option_eqb_deductible_eq in E'. congruence.
Qed.

(** What the first two rules say of a pair that they leave unreported. *)
Lemma product_order_clean (a b : PriceElement) (price_a price_b pa pb : Z) :
  pa <> pb ->
  check_product_order a b price_a price_b pa pb [] = Ok [] ->
  is_core_product (product (if pa <? pb then a else b)) = true ->
  (if pa <? pb then price_a else price_b) < (if pa <? pb then price_b else price_a).
Proof.
  intros Hne Hc Hcore. unfold check_product_order in Hc.
  replace (pa =? pb) with false in Hc by (symmetry; now apply Z.eqb_neq).
  cbn [negb] in Hc. rewrite Hcore in Hc. cbn [andb] in Hc.
  match type of Hc with
  | context [?x >=? ?y] => destruct (Z.geb_spec x y) as [Hge | Hlt]; [| exact Hlt]
  end.
  now apply report_line_not_nil in Hc.
Qed.

Lemma cross_product_order_clean (a b : PriceElement) (price_a price_b pa pb : Z) :
  String.eqb (product a) (product b) = false ->
  check_cross_product_order a b price_a price_b pa pb [] = Ok [] ->
  is_core_product (product a) = false -> is_core_product (product b) = false ->
  variant_eqb (variant a) (variant b) = true ->
  deductible_eqb (deductible a) (deductible b) = true ->
  (if pa <? pb then price_a else price_b) < (if pa <? pb then price_b else price_a).
Proof.
  intros Hprod Hc Hca Hcb Hv Hd. unfold check_cross_product_order in Hc.
  rewrite Hprod, Hca, Hcb, Hv, Hd in Hc. cbn [negb andb] in Hc.
  match type of Hc with
  | context [?x >=? ?y] => destruct (Z.geb_spec x y) as [Hge | Hlt]; [| exact Hlt]
  end.
  now apply report_line_not_nil in Hc.
Qed.

Lemma clean_product_order_idle (items : list PriceElement)
    (avg_prices : list (string * Float.float)) (s : store) (a b : PriceElement)
    (price_a price_b pa pb : Z) :
  pa <> pb ->
  get_product_rank (product a) = Ok pa ->
  get_product_rank (product b) = Ok pb ->
  check_product_order a b price_a price_b pa pb [] = Ok [] ->
  check_cross_product_order a b price_a price_b pa pb [] = Ok [] ->
  dict_get (st_prices s) (key a) = Some price_a ->
  dict_get (st_prices s) (key b) = Some price_b ->
  Modified.fix_product_order items avg_prices
    (if pa <? pb then a else b) (if pa <? pb then b else a) false s = (s, Ok false).
Proof.
  intros Hne Hpa Hpb Hc1 Hc2 Hprice_a Hprice_b.
  assert (Hprod : String.eqb (product a) (product b) = false).
  { apply String.eqb_neq. intros E. rewrite E in Hpa. congruence. }
  pose proof (product_order_clean a b price_a price_b pa pb Hne Hc1) as F1.
  pose proof (cross_product_order_clean a b price_a price_b pa pb Hprod Hc2) as F2.
  unfold Modified.fix_product_order, bind, ret, lift, price_of.
  destruct (pa <? pb);
    rewrite ?(variant_eqb_sym (variant b) (variant a));
    rewrite ?(deductible_eqb_sym (deductible b) (deductible a));
    rewrite Hprice_a, Hprice_b;
    (destruct (dict_get avg_prices _) as [avg_low |]; [| reflexivity]);
    (destruct (dict_get avg_prices _) as [avg_high |]; [| reflexivity]);
    unfold Float.truediv;
    (destruct (Float.is_zero avg_low); [reflexivity |]);
    match goal with
    | |- context [?x >=? ?y] => destruct (Z.geb_spec x y) as [Hge | Hlt]; [| reflexivity]
    end;
    destruct (is_core_product (product a)) eqn:Hca;
    destruct (is_core_product (product b)) eqn:Hcb;
    cbn [negb andb];
    try reflexivity;
    try (specialize (F1 eq_refl); lia);
    destruct (variant_eqb (variant a) (variant b));
    destruct (deductible_eqb (deductible a) (deductible b));
    cbn [negb andb]; try reflexivity;
    specialize (F2 eq_refl eq_refl eq_refl eq_refl); lia.
Qed.

Lemma clean_pair_idle
    (avg_prices : list (string * Float.float)) (s : store) (a b : PriceElement) :
  resolves s a = true -> resolves s b = true ->
  (forall r, product a = product b ->
             get_variant_rank (variant a) = Ok r -> get_variant_rank (variant b) = Ok r ->
             variant a = variant b) ->
  detect_pair a b [] s = (s, Ok []) ->
  idle_pair avg_prices s a b.
Proof.
  intros Hra Hrb Htie Hclean.
  apply detect_pair_nil in Hclean.
  destruct Hclean as (_ & _ & price_a & price_b & pa & pb & Hprice_a & Hprice_b
                      & Hpa & Hpb & Hc1 & Hc2 & Hc3 & Hc4).
  apply resolves_inv in Hra. destruct Hra as (_ & _ & Hranks_a).
  apply resolves_inv in Hrb. destruct Hrb as (_ & _ & Hranks_b).
  unfold idle_pair, Modified.fix_pair, Modified.rank_unless_core, bind, lift, ret.
  rewrite Hpa, Hpb.
  destruct (Z.eqb_spec pa pb) as [Heq | Hne]; simpl.
  - (* equal product ranks: the same product *)
    subst pb. pose proof (get_product_rank_inj _ _ _ Hpa Hpb) as Hprod.
    rewrite <- Hprod in *.
    destruct (is_core_product (product a)) eqn:Hcore; simpl.
    + unfold price_of. rewrite Hprice_a, Hprice_b. reflexivity.
    + destruct (Hranks_a eq_refl) as [[va Hva] [da Hda]].
      destruct (Hranks_b eq_refl) as [[vb Hvb] [db Hdb]].
      rewrite Hva, Hvb, Hda, Hdb, Hprice_a, Hprice_b. simpl.
      destruct (Z.eqb_spec va vb) as [Hv | Hv]; destruct (Z.eqb_spec da db) as [Hd | Hd];
        simpl; try reflexivity.
      * subst vb.
        rewrite (clean_deductible_idle (st_items s) s a b price_a price_b da db);
          try assumption; try reflexivity.
        now apply (Htie va).
      * subst db.
        rewrite (clean_variant_idle (st_items s) s a b price_a price_b va vb);
          try assumption; try reflexivity.
        eapply get_deductible_rank_inj; eassumption.
  - destruct (is_core_product (product a)) eqn:Hca;
      [| destruct (Hranks_a eq_refl) as [[va Hva] [da Hda]]; rewrite Hva, Hda];
      (destruct (is_core_product (product b)) eqn:Hcb;
       [| destruct (Hranks_b eq_refl) as [[vb Hvb] [db Hdb]]; rewrite Hvb, Hdb]);
      rewrite Hprice_a, Hprice_b;
      now apply (clean_product_order_idle _ _ _ _ _ price_a price_b).
Qed.

(** *** Lines of a report are never empty *)

Lemma order_line_not_empty rule cheap cheap_price dear dear_price line :
  order_line rule cheap cheap_price dear dear_price = Ok line -> line <> "".
Proof.
  unfold order_line. intros H.
  apply rbind_ok in H. destruct H as (p1 & _ & H).
  apply rbind_ok in H. destruct H as (p2 & _ & H).
  injection H as <-. destruct rule; simpl; discriminate.
Qed.

Lemma append_line_full (report : list string) (line : string) :
  Forall (fun l => l <> "") report -> line <> "" ->
  Forall (fun l => l <> "") (append_line report line).
Proof.
  intros Hr Hl. unfold append_line. apply Forall_app. split; [exact Hr |].
  constructor; [exact Hl | constructor].
Qed.

Lemma report_line_full (report report' : list string) rule cheap cheap_price dear dear_price :
  Forall (fun l => l <> "") report ->
  report_line report (order_line rule cheap cheap_price dear dear_price) = Ok report' ->
  Forall (fun l => l <> "") report'.
Proof.
  intros Hfull H. apply report_line_ok in H. destruct H as (l & Hl & ->).
  apply append_line_full; [exact Hfull |]. eapply order_line_not_empty; eassumption.
Qed.

Lemma detect_pair_full (a b : PriceElement) (report report' : list string) (s s' : store) :
  Forall (fun l => l <> "") report ->
  detect_pair a b report s = (s', Ok report') ->
  Forall (fun l => l <> "") report'.
Proof.
  intros Hfull H. unfold detect_pair in H.
  apply bind_ok in H. destruct H as (s1 & price_a & _ & H).
  apply bind_ok in H. destruct H as (s2 & price_b & _ & H).
  apply bind_ok in H. destruct H as (s3 & pa & _ & H).
  apply bind_ok in H. destruct H as (s4 & pb & _ & H).
  apply bind_ok in H. destruct H as (s5 & r1 & Hr1 & H).
  apply lift_ok in Hr1. destruct Hr1 as [_ Hr1].
  apply bind_ok in H. destruct H as (s6 & r2 & Hr2 & H).
  apply lift_ok in Hr2. destruct Hr2 as [_ Hr2].
  apply bind_ok in H. destruct H as (s7 & r3 & Hv & Hd).
  assert (H1 : Forall (fun l => l <> "") r1).
  { revert Hr1. unfold check_product_order.
    repeat match goal with
           | |- context [if ?c then _ else _] => destruct c
           end; intros Hr1; try (injection Hr1 as <-; exact Hfull);
      eapply report_line_full; eassumption. }
  assert (H2 : Forall (fun l => l <> "") r2).
  { revert Hr2. unfold check_cross_product_order.
    repeat match goal with
           | |- context [if ?c then _ else _] => destruct c
           end; intros Hr2; try (injection Hr2 as <-; exact H1);
      eapply report_line_full; eassumption. }
  assert (H3 : Forall (fun l => l <> "") r3).
  { revert Hv. unfold check_variant_order, bind, lift, ret.
    repeat match goal with
           | |- context [if ?c then _ else _] => destruct c
           | |- context [match ?r with Ok _ => _ | Raise _ => _ end] =>
               destruct r eqn:?
           end; intros Hv; try discriminate; injection Hv as _ Hv;
      first [subst; assumption | eapply report_line_full; eassumption]. }
  revert Hd. unfold check_deductible_order, bind, lift, ret.
  repeat match goal with
         | |- context [if ?c then _ else _] => destruct c
         | |- context [match ?r with Ok _ => _ | Raise _ => _ end] =>
             destruct r eqn:?
         end; intros Hd; try discriminate; injection Hd as _ Hd;
    first [subst; assumption | eapply report_line_full; eassumption].
Qed.

Lemma foreach_detect_full (a : PriceElement) (l : list PriceElement) :
  forall report report' s s',
    Forall (fun l => l <> "") report ->
    foreach l (detect_pair a) report s = (s', Ok report') ->
    Forall (fun l => l <> "") report'.
Proof.
  induction l as [| y rest IH]; intros report report' s s' Hfull H; simpl in H.
  - apply ret_ok in H. destruct H as [_ ->]. exact Hfull.
  - apply bind_ok in H. destruct H as (s1 & acc & Hstep & Hrest).
    eapply IH; [| exact Hrest]. eapply detect_pair_full; eassumption.
Qed.

Lemma for_pairs_detect_full (l : list PriceElement) :
  forall report report' s s',
    Forall (fun l => l <> "") report ->
    for_pairs l detect_pair report s = (s', Ok report') ->
    Forall (fun l => l <> "") report'.
Proof.
  induction l as [| x rest IH]; intros report report' s s' Hfull H; simpl in H.
  - apply ret_ok in H. destruct H as [_ ->]. exact Hfull.
  - apply bind_ok in H. destruct H as (s1 & acc & Hrow & Hrest).
    eapply IH; [| exact Hrest]. eapply foreach_detect_full; eassumption.
Qed.

Lemma join_empty (sep : string) (parts : list string) :
  Forall (fun l => l <> "") parts -> join sep parts = "" -> parts = [].
Proof.
  destruct parts as [| p ps]; [reflexivity |].
  intros Hfull H. exfalso. inversion Hfull as [| ? ? Hp _]; subst.
  destruct ps; simpl in H; destruct p; try discriminate; now apply Hp.
Qed.

(** The report is the empty string only when no line was reported. *)
Lemma empty_report_no_lines (s : store) :
  snd (detect_inconsistencies s) = Ok "" -> detect_lines s = (s, Ok []).
Proof.
  unfold detect_inconsistencies, bind. intros H.
  pose proof (keeps_eq_unchanged detect_lines) as Hs.
  specialize (Hs (fun s0 => keeps_bind _ _ _ (keeps_get_items _)
               (fun items => keeps_for_pairs _ _ _
                  (fun x y acc _ _ => keeps_detect_pair _ x y acc) _)) s).
  destruct (detect_lines s) as [s' [report | e]] eqn:E; simpl in *; [| discriminate].
  subst s'. injection H as H.
  assert (Hfull : Forall (fun l => l <> "") report).
  { unfold detect_lines, bind, get_items in E.
    eapply for_pairs_detect_full; [| exact E]. constructor. }
  apply join_empty in H; [| exact Hfull]. now subst.
Qed.

(** On a table whose elements all resolve and where no two variants of a
    product share a rank, an empty report leaves the repair of
    [modified_version.py] nothing to do: the table is at rest, for any
    average prices. *)
Lemma clean_report_at_rest (avg_prices : list (string * Float.float)) (s : store) :
  (forall x, In x (st_items s) -> resolves s x = true) ->
  no_rank_ties (st_items s) ->
  snd (detect_inconsistencies s) = Ok "" ->
  at_rest avg_prices s.
Proof.
  intros Hres Hties Hclean a b Hab.
  apply empty_report_no_lines in Hclean.
  unfold detect_lines, bind, get_items in Hclean.
  apply for_pairs_detect_nil in Hclean. destruct Hclean as (_ & _ & Hpairs).
  destruct (scanned_pairs_in _ _ _ Hab) as [Ha Hb].
  apply clean_pair_idle; auto.
  intros r Hprod Hva Hvb. now apply (Hties a b r).
Qed.

(** X27. The repair of [modified_version.py] leaves a clean table alone
    away from rank ties: when every element resolves and no two variants
    of a product share a rank, after an empty report the repair returns
    with the store as it was, after one pass, for any average prices. *)
Lemma clean_report_repair_idle
    (avg_prices : list (string * Float.float)) (s : store) (max_iters : Z) :
  (forall x, In x (st_items s) -> resolves s x = true) ->
  no_rank_ties (st_items s) ->
  snd (detect_inconsistencies s) = Ok "" ->
  Modified.fix_products_inplace avg_prices max_iters s = (s, Ok tt)
  /\ (0 < max_iters ->
      Modified.fix_loop avg_prices (Z.to_nat max_iters) s = (s, Ok 1%nat)).
Proof.
  intros Hres Hties Hclean.
  apply (at_rest_fix_products_inplace avg_prices s max_iters).
  now apply clean_report_at_rest.
Qed.

(** The hypotheses of [clean_report_repair_idle] on a table of two
    products: the report is empty and the repair leaves the store as it
    was. *)
Example clean_report_repair_idle_example :
  let s := Examples.store_of
             [("mtpl", 400); ("casco_basic_100", 900); ("casco_basic_200", 800);
              ("casco_comfort_100", 950)] in
  snd (detect_inconsistencies s) = Ok ""
  /\ Modified.fix_products_inplace Examples.avg_prices 10 s = (s, Ok tt).
Proof.
  intros s. split; [vm_compute; reflexivity |].
  apply (clean_report_repair_idle Examples.avg_prices s 10).
  - intros x Hx. simpl in Hx.
    destruct Hx as [<- | [<- | [<- | [<- | []]]]]; reflexivity.
  - intros x y r Hx Hy Hp Hvx Hvy. simpl in Hx, Hy.
    destruct Hx as [<- | [<- | [<- | [<- | []]]]];
      destruct Hy as [<- | [<- | [<- | [<- | []]]]];
      try reflexivity; try discriminate;
      vm_compute in Hvx, Hvy; congruence.
  - vm_compute. reflexivity.
Defined.
(** ** Rounding error of the float operations *)

Lemma digits2_pos_bounds (m : positive) :
  2 ^ (Zpos (digits2_pos m) - 1) <= Zpos m < 2 ^ Zpos (digits2_pos m).
Proof.
  induction m as [p IH | p IH |]; simpl digits2_pos.
  - rewrite Pos2Z.inj_succ.
    replace (Z.succ (Zpos (digits2_pos p)) - 1) with (Z.succ (Zpos (digits2_pos p) - 1)) by lia.
    rewrite !Z.pow_succ_r by lia. lia.
  - rewrite Pos2Z.inj_succ.
    replace (Z.succ (Zpos (digits2_pos p)) - 1) with (Z.succ (Zpos (digits2_pos p) - 1)) by lia.
    rewrite !Z.pow_succ_r by lia. lia.
  - simpl. lia.
Qed.

Lemma pow2_pos (k : Z) : 0 <= k -> 0 < 2 ^ k.
Proof. intros. apply Z.pow_pos_nonneg; lia. Qed.

Lemma digits2_pos_unique (m : positive) (d : Z) :
  2 ^ (d - 1) <= Zpos m < 2 ^ d -> Zpos (digits2_pos m) = d.
Proof.
  intros [Hlo Hhi]. destruct (digits2_pos_bounds m) as [Hlo' Hhi'].
  assert (Hd : 0 < d).
  { destruct (Z.le_gt_cases d 0) as [H | H]; [| exact H].
    assert (2 ^ d <= 1); [| lia].
    destruct (Z.eq_dec d 0) as [-> | Hn]; [simpl; lia |].
    rewrite Z.pow_neg_r by lia. lia. }
  assert (H1 : d - 1 < Zpos (digits2_pos m)).
  { apply (Z.pow_lt_mono_r_iff 2); lia. }
  assert (H2 : Zpos (digits2_pos m) - 1 < d).
  { apply (Z.pow_lt_mono_r_iff 2); lia. }
  lia.
Qed.

Lemma shr_m_shr_1 (mrs : shr_record) :
  0 <= shr_m mrs -> shr_m (shr_1 mrs) = shr_m mrs / 2.
Proof.
  destruct mrs as [m r s]. simpl. intros Hm.
  destruct m as [| [p | p |] | p]; cbn [shr_m shr_1]; try lia.
  - reflexivity.
  - apply Z.div_unique with (r := 1); lia.
  - apply Z.div_unique with (r := 0); lia.
  - reflexivity.
Qed.

Lemma shr_m_iter (p : positive) :
  forall mrs, 0 <= shr_m mrs ->
    shr_m (SpecFloat.iter_pos shr_1 p mrs) = shr_m mrs / 2 ^ Zpos p.
Proof.
  induction p as [p IH | p IH |]; intros mrs Hm; simpl SpecFloat.iter_pos.
  - assert (H1 : 0 <= shr_m (shr_1 mrs)).
    { rewrite shr_m_shr_1 by exact Hm. apply Z.div_pos; lia. }
    assert (H2 : 0 <= shr_m (SpecFloat.iter_pos shr_1 p (shr_1 mrs))).
    { rewrite IH by exact H1. apply Z.div_pos; [exact H1 | apply pow2_pos; lia]. }
    rewrite IH by exact H2. rewrite IH by exact H1. rewrite shr_m_shr_1 by exact Hm.
    rewrite !Z.div_div by first [apply pow2_pos; lia | apply Z.pow_nonzero; lia | lia].
    f_equal.
    replace (Zpos p~1) with (1 + Zpos p + Zpos p) by lia.
    rewrite !Z.pow_add_r by lia. change (2 ^ 1) with 2. lia.
  - assert (H2 : 0 <= shr_m (SpecFloat.iter_pos shr_1 p mrs)).
    { rewrite IH by exact Hm. apply Z.div_pos; [exact Hm | apply pow2_pos; lia]. }
    rewrite IH by exact H2. rewrite IH by exact Hm.
    rewrite Z.div_div by first [apply pow2_pos; lia | apply Z.pow_nonzero; lia | lia].
    f_equal.
    replace (Zpos p~0) with (Zpos p + Zpos p) by lia.
    rewrite Z.pow_add_r by lia. reflexivity.
  - rewrite shr_m_shr_1 by exact Hm. reflexivity.
Qed.

Lemma round_nearest_even_bounds (mx : Z) (lx : location) :
  mx <= round_nearest_even mx lx <= mx + 1.
Proof.
  unfold round_nearest_even. destruct lx as [| []]; try lia.
  destruct (Z.even mx); lia.
Qed.

Lemma fexp_normal (k : Z) :
  -1074 <= k - 53 -> fexp Float.prec Float.emax k = k - 53.
Proof.
  intros H. unfold fexp, emin, Float.prec, Float.emax. lia.
Qed.

Lemma shr_fexp_exact (M : positive) (E : Z) :
  -1074 <= Zpos (digits2_pos M) + E - 53 ->
  let d := Zpos (digits2_pos M) in
  let '(mrs, e) := shr_fexp Float.prec Float.emax (Zpos M) E loc_Exact in
  (d <= 53 -> mrs = Build_shr_record (Zpos M) false false /\ e = E)
  /\ (53 < d -> shr_m mrs = Zpos M / 2 ^ (d - 53) /\ e = E + (d - 53)).
Proof.
  intros Hn d. unfold shr_fexp. cbn [Zdigits2]. rewrite fexp_normal by exact Hn.
  fold d. replace (d + E - 53 - E) with (d - 53) by lia.
  unfold shr, shr_record_of_loc.
  destruct (d - 53) as [| p | p] eqn:Hd.
  - split; [intros _; now split | lia].
  - split; [lia |]. intros _. split; [| reflexivity].
    rewrite shr_m_iter by (simpl; lia). reflexivity.
  - split; [intros _; now split | lia].
Qed.

Lemma bra_error (M : positive) (E : Z) :
  -1074 <= Zpos (digits2_pos M) + E - 53 ->
  match binary_round_aux Float.prec Float.emax false (Zpos M) E loc_Exact with
  | S754_finite s m e =>
      s = false /\ E <= e
      /\ Z.abs (Zpos m * 2 ^ (e - E) - Zpos M) * 2 ^ 52 <= Zpos M
  | S754_infinity _ => True
  | _ => False
  end.
Proof.
  intros Hn. unfold binary_round_aux.
  pose proof (shr_fexp_exact M E Hn) as H1. cbv zeta in H1.
  destruct (shr_fexp Float.prec Float.emax (Zpos M) E loc_Exact) as [mrs' e'].
  destruct H1 as [Hsmall Hbig].
  pose proof (digits2_pos_bounds M) as HM.
  set (d := Zpos (digits2_pos M)) in *.
  destruct (Z.le_gt_cases d 53) as [Hd | Hd].
  - destruct (Hsmall Hd) as [-> ->]. cbn [shr_m loc_of_shr_record round_nearest_even].
    pose proof (shr_fexp_exact M E Hn) as H2. cbv zeta in H2. fold d in H2.
    destruct (shr_fexp Float.prec Float.emax (Zpos M) E loc_Exact) as [mrs'' e''].
    destruct H2 as [H2 _]. destruct (H2 Hd) as [-> ->]. cbn [shr_m].
    destruct (E <=? Float.emax - Float.prec); [| exact I].
    split; [reflexivity |]. split; [lia |].
    rewrite Z.sub_diag. simpl (2 ^ 0). rewrite Z.mul_1_r, Z.sub_diag. simpl Z.abs. lia.
  - destruct (Hbig Hd) as [Hm' ->]. clear Hsmall Hbig.
    set (n := d - 53) in *.
    assert (Hn0 : 0 < n) by (unfold n; lia).
    assert (HP : 0 < 2 ^ n) by (apply pow2_pos; lia).
    assert (Hlo : 2 ^ (d - 1) = 2 ^ 52 * 2 ^ n).
    { rewrite <- Z.pow_add_r by lia. f_equal. unfold n. lia. }
    assert (Hhi : 2 ^ d = 2 ^ 53 * 2 ^ n).
    { rewrite <- Z.pow_add_r by lia. f_equal. unfold n. lia. }
    pose proof (Z.div_mod (Zpos M) (2 ^ n) ltac:(lia)) as Hdm.
    pose proof (Z.mod_pos_bound (Zpos M) (2 ^ n) HP) as Hmod.
    rewrite <- Hm' in Hdm.
    set (m' := shr_m mrs') in *.
    set (P := 2 ^ n) in *.
    assert (Hm'lo : 2 ^ 52 <= m') by nia.
    assert (Hm'hi : m' < 2 ^ 53) by nia.
    pose proof (round_nearest_even_bounds m' (loc_of_shr_record mrs')) as Hrne.
    set (m1 := round_nearest_even m' (loc_of_shr_record mrs')) in *.
    destruct m1 as [| q | q] eqn:Hq; try lia.
    assert (Hq1 : 53 <= Zpos (digits2_pos q)).
    { pose proof (digits2_pos_bounds q) as [_ Hb].
      destruct (Z.le_gt_cases 53 (Zpos (digits2_pos q))) as [H | H]; [exact H |].
      assert (2 ^ Zpos (digits2_pos q) <= 2 ^ 52) by (apply Z.pow_le_mono_r; lia).
      lia. }
    assert (Hq2 : Zpos (digits2_pos q) <= 54).
    { pose proof (digits2_pos_bounds q) as [Hb _].
      destruct (Z.le_gt_cases (Zpos (digits2_pos q)) 54) as [H | H]; [exact H |].
      assert (2 ^ 54 <= 2 ^ (Zpos (digits2_pos q) - 1)) by (apply Z.pow_le_mono_r; lia).
      lia. }
    pose proof (shr_fexp_exact q (E + n) ltac:(unfold n; lia)) as H2. cbv zeta in H2.
    destruct (shr_fexp Float.prec Float.emax (Zpos q) (E + n) loc_Exact) as [mrs'' e''].
    destruct H2 as [H2small H2big].
    destruct (Z.le_gt_cases (Zpos (digits2_pos q)) 53) as [Hd1 | Hd1].
    + destruct (H2small Hd1) as [-> ->]. cbn [shr_m].
      destruct (E + n <=? Float.emax - Float.prec); [| exact I].
      split; [reflexivity |]. split; [lia |].
      replace (E + n - E) with n by lia. fold P. nia.
    + destruct (H2big Hd1) as [Hm'' ->].
      replace (Zpos (digits2_pos q) - 53) with 1 in * by lia.
      assert (Hq53 : Zpos q = 2 ^ 53).
      { pose proof (digits2_pos_bounds q) as [Hb _].
        assert (2 ^ 53 <= 2 ^ (Zpos (digits2_pos q) - 1)) by (apply Z.pow_le_mono_r; lia).
        lia. }
      rewrite Hq53 in Hm''. change (2 ^ 53 / 2 ^ 1) with (2 ^ 52) in Hm''.
      rewrite Hm''. change (2 ^ 52) with (Zpos (2 ^ 52)%positive) at 1.
      cbv iota.
      destruct (E + n + 1 <=? Float.emax - Float.prec); [| exact I].
      split; [reflexivity |]. split; [lia |].
      replace (E + n + 1 - E) with (n + 1) by lia.
      rewrite Z.pow_add_r by lia. fold P. change (2 ^ 1) with 2.
      change (Zpos (2 ^ 52)%positive) with (2 ^ 52). nia.
Qed.

Lemma Qpow2_pos (e : Z) : (0 < 2 ^ e)%Q.
Proof. apply Qpower_0_lt. reflexivity. Qed.

Lemma Qval_shift (m e E : Z) :
  E <= e -> (Qval m e == Qval (m * 2 ^ (e - E)) E)%Q.
Proof.
  intros H. unfold Qval.
  replace e with (E + (e - E)) at 1 by lia.
  rewrite Qpower_plus by discriminate.
  rewrite inject_Z_mult. rewrite Zpower_Qpower by lia.
  change (inject_Z 2) with 2%Q. ring.
Qed.

Lemma Qval_error (A M E : Z) :
  0 < M ->
  Z.abs (A - M) * 2 ^ 52 <= M ->
  (Qval M E * (1 - eps) <= Qval A E <= Qval M E * (1 + eps))%Q.
Proof.
  intros HM H. unfold Qval.
  pose proof (Qpow2_pos E) as Ht. set (t := (2 ^ E)%Q) in *.
  assert (Hlo : (M - A) * 4503599627370496 <= M) by (change 4503599627370496 with (2 ^ 52); lia).
  assert (Hhi : (A - M) * 4503599627370496 <= M) by (change 4503599627370496 with (2 ^ 52); lia).
  rewrite Zle_Qle in Hlo, Hhi.
  rewrite inject_Z_mult in Hlo, Hhi.
  unfold Z.sub in Hlo, Hhi. rewrite inject_Z_plus, inject_Z_opp in Hlo, Hhi.
  assert (HMq : (inject_Z 0 < inject_Z M)%Q) by (rewrite <- Zlt_Qlt; exact HM).
  change (inject_Z 0) with 0%Q in HMq.
  set (a := inject_Z A) in *. set (m := inject_Z M) in *.
  change (inject_Z 4503599627370496) with (4503599627370496 # 1)%Q in Hlo, Hhi.
  unfold eps.
  split.
  - apply Qle_trans with ((m * (1 - (1 # 4503599627370496))) * t)%Q; [lra |].
    apply Qmult_le_compat_r; lra.
  - apply Qle_trans with ((m * (1 + (1 # 4503599627370496))) * t)%Q; [| lra].
    apply Qmult_le_compat_r; lra.
Qed.

Lemma bra_error_Q (M : positive) (E : Z) :
  -1074 <= Zpos (digits2_pos M) + E - 53 ->
  match binary_round_aux Float.prec Float.emax false (Zpos M) E loc_Exact with
  | S754_finite s m e =>
      s = false /\ E <= e
      /\ (Qval (Zpos M) E * (1 - eps) <= Qval (Zpos m) e
          <= Qval (Zpos M) E * (1 + eps))%Q
  | S754_infinity _ => True
  | _ => False
  end.
Proof.
  intros Hn. pose proof (bra_error M E Hn) as H.
  destruct (binary_round_aux Float.prec Float.emax false (Zpos M) E loc_Exact)
    as [| | | s m e]; try exact H.
  destruct H as (Hs & He & Hb). split; [exact Hs |]. split; [exact He |].
  rewrite (Qval_shift (Zpos m) e E He). apply Qval_error; [lia | exact Hb].
Qed.

(** The product of two positive floats is within a relative error of
    [2^-52] of the product of their values, or it overflows. *)
Lemma mul_error (mx mc : positive) (ex ec : Z) :
  -1074 <= Zpos (digits2_pos (mx * mc)) + (ex + ec) - 53 ->
  match Float.mul (S754_finite false mx ex) (S754_finite false mc ec) with
  | S754_finite s m e =>
      s = false
      /\ (Qval (Zpos mx) ex * Qval (Zpos mc) ec * (1 - eps) <= Qval (Zpos m) e
          <= Qval (Zpos mx) ex * Qval (Zpos mc) ec * (1 + eps))%Q
  | S754_infinity _ => True
  | _ => False
  end.
Proof.
  intros Hn. unfold Float.mul, SFmul. cbn [xorb].
  pose proof (bra_error_Q (mx * mc) (ex + ec) Hn) as H.
  destruct (binary_round_aux Float.prec Float.emax false (Zpos (mx * mc)) (ex + ec) loc_Exact)
    as [| | | s m e]; try exact H.
  destruct H as (Hs & _ & Hb). split; [exact Hs |].
  assert (Hv : (Qval (Zpos (mx * mc)) (ex + ec)
                == Qval (Zpos mx) ex * Qval (Zpos mc) ec)%Q).
  { unfold Qval. rewrite Pos2Z.inj_mul, inject_Z_mult.
    rewrite Qpower_plus by discriminate. ring. }
  rewrite <- Hv. exact Hb.
Qed.

Lemma shl_align_spec (mb : positive) (e' : Z) :
  let '(mz, ez) := shl_align mb 0 e' in
  ez = Z.min 0 e' /\ Zpos mz = Zpos mb * 2 ^ (- ez).
Proof.
  unfold shl_align. rewrite Z.sub_0_r.
  destruct e' as [| p | p].
  - split; [reflexivity |]. simpl (2 ^ (- 0)). lia.
  - split; [reflexivity |]. simpl (2 ^ (- 0)). lia.
  - split; [reflexivity |].
    change (- Zneg p) with (Zpos p).
    change (Pos.iter xO mb p) with (shift_pos p mb).
    rewrite shift_pos_correct. rewrite Zpower_pos_nat, Zpower_nat_Z.
    rewrite positive_nat_Z. lia.
Qed.

Lemma digits2_pos_shift (mb mz : positive) (k : Z) :
  0 <= k -> Zpos mz = Zpos mb * 2 ^ k ->
  Zpos (digits2_pos mz) = Zpos (digits2_pos mb) + k.
Proof.
  intros Hk Hz. apply digits2_pos_unique.
  destruct (digits2_pos_bounds mb) as [Hlo Hhi].
  pose proof (pow2_pos k Hk) as HP.
  rewrite Hz. split.
  - replace (Zpos (digits2_pos mb) + k - 1) with (Zpos (digits2_pos mb) - 1 + k) by lia.
    rewrite Z.pow_add_r by lia. nia.
  - rewrite Z.pow_add_r by lia. nia.
Qed.

(** [float(n)] for a positive [n] is a positive float within a relative
    error of [2^-52] of [n]; its exponent is at least [-52]. *)
Lemma of_int_error (b : positive) (x : Float.float) :
  Float.of_int (Zpos b) = Ok x ->
  exists mx ex,
    x = S754_finite false mx ex /\ -52 <= ex
    /\ (inject_Z (Zpos b) * (1 - eps) <= Qval (Zpos mx) ex
        <= inject_Z (Zpos b) * (1 + eps))%Q.
Proof.
  unfold Float.of_int, binary_normalize, binary_round.
  pose proof (shl_align_spec b
                (fexp Float.prec Float.emax (Zpos (digits2_pos b) + 0))) as Hsh.
  destruct (shl_align b 0 (fexp Float.prec Float.emax (Zpos (digits2_pos b) + 0)))
    as [mz ez].
  destruct Hsh as [Hez Hmz].
  assert (Hfexp : fexp Float.prec Float.emax (Zpos (digits2_pos b) + 0)
                  = Zpos (digits2_pos b) - 53).
  { rewrite Z.add_0_r. apply fexp_normal. lia. }
  rewrite Hfexp in Hez.
  assert (Hez_lo : -52 <= ez) by lia.
  assert (Hez_hi : ez <= 0) by lia.
  pose proof (digits2_pos_shift b mz (- ez) ltac:(lia) Hmz) as Hdz.
  pose proof (bra_error_Q mz ez ltac:(lia)) as H.
  destruct (binary_round_aux Float.prec Float.emax false (Zpos mz) ez loc_Exact)
    as [| | | s m e]; try contradiction.
  - intros; discriminate.
  - destruct H as (-> & He & Hb). intros Hx. injection Hx as <-.
    exists m, e. split; [reflexivity |]. split; [lia |].
    assert (Hv : (Qval (Zpos mz) ez == inject_Z (Zpos b))%Q).
    { unfold Qval. rewrite Hmz, inject_Z_mult. rewrite Zpower_Qpower by lia.
      change (inject_Z 2) with 2%Q. rewrite <- Qmult_assoc.
      rewrite <- Qpower_plus by discriminate.
      replace (- ez + ez) with 0 by lia. simpl (2 ^ 0)%Q. ring. }
    rewrite <- Hv. exact Hb.
Qed.

(** [round] returns an integer within one half of the value. *)
Lemma round_error (m : positive) (e : Z) :
  exists q,
    Float.round (S754_finite false m e) = Ok q
    /\ (inject_Z q - (1 # 2) <= Qval (Zpos m) e <= inject_Z q + (1 # 2))%Q.
Proof.
  unfold Float.round, Float.round_half_even.
  destruct e as [| p | p].
  - eexists. split; [reflexivity |].
    unfold Qval. rewrite inject_Z_mult. simpl (2 ^ 0). simpl (2 ^ 0)%Q.
    change (inject_Z 1) with 1%Q. lra.
  - eexists. split; [reflexivity |].
    unfold Qval. rewrite inject_Z_mult. rewrite Zpower_Qpower by lia.
    change (inject_Z 2) with 2%Q. lra.
  - set (d := Z.pow_pos 2 p).
    assert (Hd : d = 2 ^ Zpos p) by reflexivity.
    assert (Hdpos : 0 < d) by (rewrite Hd; apply pow2_pos; lia).
    pose proof (Z.div_mod (Zpos m) d ltac:(lia)) as Hdm.
    pose proof (Z.mod_pos_bound (Zpos m) d Hdpos) as Hmod.
    set (q0 := Zpos m / d) in *. set (r := Zpos m mod d) in *.
    assert (Hv : (Qval (Zpos m) (Zneg p) * inject_Z d == inject_Z (Zpos m))%Q).
    { unfold Qval. rewrite Hd. rewrite Zpower_Qpower by lia.
      change (inject_Z 2) with 2%Q. rewrite <- Qmult_assoc.
      rewrite <- Qpower_plus by discriminate.
      replace (Zneg p + Zpos p) with 0 by lia. simpl (2 ^ 0)%Q. ring. }
    assert (Hdq : (0 < inject_Z d)%Q).
    { change 0%Q with (inject_Z 0). rewrite <- Zlt_Qlt. exact Hdpos. }
    set (v := Qval (Zpos m) (Zneg p)) in *.
    assert (Hm : (inject_Z (Zpos m) == inject_Z d * inject_Z q0 + inject_Z r)%Q).
    { rewrite <- inject_Z_mult, <- inject_Z_plus. now rewrite <- Hdm. }
    assert (Hr0 : (0 <= inject_Z r)%Q).
    { change 0%Q with (inject_Z 0). rewrite <- Zle_Qle. lia. }
    assert (Hlocal : forall q : Z,
      (2 * Z.abs (q * d - Zpos m) <= d) ->
      (inject_Z q - (1 # 2) <= v <= inject_Z q + (1 # 2))%Q).
    { intros q Hq.
      assert (H1 : 2 * (q * d - Zpos m) <= d) by lia.
      assert (H2 : 2 * (Zpos m - q * d) <= d) by lia.
      rewrite Zle_Qle in H1, H2.
      rewrite inject_Z_mult in H1, H2. unfold Z.sub in H1, H2.
      rewrite inject_Z_plus, inject_Z_opp, inject_Z_mult in H1, H2.
      change (inject_Z 2) with 2%Q in H1, H2.
      rewrite <- Hv in H1, H2.
      set (dq := inject_Z d) in *. set (qq := inject_Z q) in *.
      split.
      - apply Qmult_le_r with (z := dq); [exact Hdq |]. lra.
      - apply Qmult_le_r with (z := dq); [exact Hdq |]. lra. }
    destruct (Z.compare_spec (2 * r) d) as [Hc | Hc | Hc].
    + destruct (Z.even q0); eexists; (split; [reflexivity |]); apply Hlocal; nia.
    + eexists. split; [reflexivity |]. apply Hlocal. nia.
    + eexists. split; [reflexivity |]. apply Hlocal. nia.
Qed.

(** Scaling an int by two positive floats and rounding keeps their order,
    once the floats are further apart than the rounding errors. *)
Lemma scaled_round_mono (mc1 mc2 : positive) (ec1 ec2 : Z) (base p1 p2 : Z) :
  -970 <= ec1 -> -970 <= ec2 ->
  (Qval (Zpos mc1) ec1 * (1 + eps) < Qval (Zpos mc2) ec2 * (1 - eps))%Q ->
  0 <= base ->
  rbind (Float.int_mul base (S754_finite false mc1 ec1)) Float.round = Ok p1 ->
  rbind (Float.int_mul base (S754_finite false mc2 ec2)) Float.round = Ok p2 ->
  p1 <= p2.
Proof.
  intros He1 He2 Hc Hbase H1 H2.
  destruct base as [| b | b]; [| | lia].
  - vm_compute in H1, H2. injection H1 as <-. injection H2 as <-. lia.
  - unfold Float.int_mul in H1, H2.
    destruct (Float.of_int (Zpos b)) as [x | e] eqn:Hx; [| discriminate].
    apply of_int_error in Hx. destruct Hx as (mx & ex & -> & Hex & Hvx).
    cbn [rbind] in H1, H2.
    pose proof (mul_error mx mc1 ex ec1) as M1.
    pose proof (mul_error mx mc2 ex ec2) as M2.
    assert (Hd1 : 1 <= Zpos (digits2_pos (mx * mc1))) by lia.
    assert (Hd2 : 1 <= Zpos (digits2_pos (mx * mc2))) by lia.
    specialize (M1 ltac:(lia)). specialize (M2 ltac:(lia)).
    destruct (Float.mul (S754_finite false mx ex) (S754_finite false mc1 ec1))
      as [| | | s1 my1 ey1]; try contradiction; try discriminate.
    destruct (Float.mul (S754_finite false mx ex) (S754_finite false mc2 ec2))
      as [| | | s2 my2 ey2]; try contradiction; try discriminate.
    destruct M1 as (-> & Hy1). destruct M2 as (-> & Hy2).
    destruct (round_error my1 ey1) as (q1 & Hq1 & Hr1).
    destruct (round_error my2 ey2) as (q2 & Hq2 & Hr2).
    rewrite Hq1 in H1. rewrite Hq2 in H2. injection H1 as <-. injection H2 as <-.
    set (vx := Qval (Zpos mx) ex) in *.
    set (vc1 := Qval (Zpos mc1) ec1) in *. set (vc2 := Qval (Zpos mc2) ec2) in *.
    set (vy1 := Qval (Zpos my1) ey1) in *. set (vy2 := Qval (Zpos my2) ey2) in *.
    assert (Hbq : (1 <= inject_Z (Zpos b))%Q).
    { change 1%Q with (inject_Z 1). rewrite <- Zle_Qle. lia. }
    assert (Hvx0 : (0 < vx)%Q) by (unfold eps in *; lra).
    assert (Hmid : (vx * (vc1 * (1 + eps)) < vx * (vc2 * (1 - eps)))%Q).
    { apply Qmult_lt_l; assumption. }
    assert (Hlt : (inject_Z q1 < inject_Z q2 + 1)%Q) by lra.
    change 1%Q with (inject_Z 1) in Hlt. rewrite <- inject_Z_plus in Hlt.
    rewrite <- Zlt_Qlt in Hlt. lia.
Qed.

(** ** The schedules are monotone *)

Lemma get_deductible_rank_range (d : option Z) (r : Z) :
  get_deductible_rank d = Ok r -> r = 1 \/ r = 2 \/ r = 3.
Proof.
  intros H. apply get_deductible_rank_ok in H. destruct H as (v & _ & H).
  revert H. unfold deductables_rank, zdict_get.
  destruct (100 =? v); [intros H; injection H as <-; auto |].
  destruct (200 =? v); [intros H; injection H as <-; auto |].
  destruct (500 =? v); [intros H; injection H as <-; auto |].
  discriminate.
Qed.

Lemma get_variant_rank_range (v : option string) (r : Z) :
  get_variant_rank v = Ok r -> r = 1 \/ r = 2 \/ r = 3.
Proof.
  unfold get_variant_rank, variants_rank, dict_get.
  destruct v as [x |]; [| discriminate].
  destruct (String.eqb "compact" x); [intros H; injection H as <-; auto |].
  destruct (String.eqb "basic" x); [intros H; injection H as <-; auto |].
  destruct (String.eqb "comfort" x); [intros H; injection H as <-; auto |].
  destruct (String.eqb "premium" x); [intros H; injection H as <-; auto |].
  discriminate.
Qed.

(** The three factors of each schedule, [f ** 0], [f ** 1] and [f ** 2]. *)
Lemma decay_factors :
  Float.pow Float.lit_0_9 (1 - 1) = S754_finite false 4503599627370496 (-52)
  /\ Float.pow Float.lit_0_9 (2 - 1) = S754_finite false 8106479329266893 (-53)
  /\ Float.pow Float.lit_0_9 (3 - 1) = S754_finite false 7295831396340204 (-53).
Proof. repeat split; vm_compute; reflexivity. Qed.

Lemma markup_factors :
  Float.pow Float.lit_1_07 (1 - 1) = S754_finite false 4503599627370496 (-52)
  /\ Float.pow Float.lit_1_07 (2 - 1) = S754_finite false 4818851601286431 (-52)
  /\ Float.pow Float.lit_1_07 (3 - 1) = S754_finite false 5156171213376481 (-52).
Proof. repeat split; vm_compute; reflexivity. Qed.

(** From a non-negative base the decay schedule never gives a higher rank
    a higher price. *)
Lemma decay_price_mono (base r1 r2 p1 p2 : Z) :
  0 <= base ->
  (r1 = 1 \/ r1 = 2 \/ r1 = 3) -> (r2 = 1 \/ r2 = 2 \/ r2 = 3) -> r1 <= r2 ->
  decay_price base r1 = Ok p1 -> decay_price base r2 = Ok p2 ->
  p2 <= p1.
Proof.
  intros Hbase Hr1 Hr2 Hle H1 H2.
  unfold decay_price, schedule_price in H1, H2.
  destruct decay_factors as (F1 & F2 & F3).
  destruct Hr1 as [-> | [-> | ->]]; destruct Hr2 as [-> | [-> | ->]]; try lia;
    try (rewrite H1 in H2; injection H2 as <-; lia);
    rewrite ?F1, ?F2, ?F3 in H1; rewrite ?F1, ?F2, ?F3 in H2;
    (eapply scaled_round_mono; [| | | exact Hbase | exact H2 | exact H1];
     [lia | lia | vm_compute; reflexivity]).
Qed.

(** From a non-negative base the markup schedule never gives a higher
    rank a lower price. *)
Lemma markup_price_mono (base r1 r2 p1 p2 : Z) :
  0 <= base ->
  (r1 = 1 \/ r1 = 2 \/ r1 = 3) -> (r2 = 1 \/ r2 = 2 \/ r2 = 3) -> r1 <= r2 ->
  markup_price base r1 = Ok p1 -> markup_price base r2 = Ok p2 ->
  p1 <= p2.
Proof.
  intros Hbase Hr1 Hr2 Hle H1 H2.
  unfold markup_price, schedule_price in H1, H2.
  destruct markup_factors as (F1 & F2 & F3).
  destruct Hr1 as [-> | [-> | ->]]; destruct Hr2 as [-> | [-> | ->]]; try lia;
    try (rewrite H1 in H2; injection H2 as <-; lia);
    rewrite ?F1, ?F2, ?F3 in H1; rewrite ?F1, ?F2, ?F3 in H2;
    (eapply scaled_round_mono; [| | | exact Hbase | exact H1 | exact H2];
     [lia | lia | vm_compute; reflexivity]).
Qed.

(** On a table at rest whose prices are not negative, the two prices of
    a scanned pair within one group that has a base are in the order of
    the axis. *)
Lemma at_rest_monotone_pair
    (avg_prices : list (string * Float.float)) (s : store) (a b : PriceElement) :
  at_rest avg_prices s ->
  prices_nonneg s ->
  In (a, b) (scanned_pairs (st_items s)) ->
  product a = product b ->
  is_core_product (product a) = false ->
  (forall da db,
     variant a = variant b ->
     get_deductible_rank (deductible a) = Ok da ->
     get_deductible_rank (deductible b) = Ok db ->
     da <> db ->
     (exists z, In z (st_items s) /\ product z = product a /\ variant z = variant a
                /\ get_deductible_rank (deductible z) = Ok 1) ->
     exists price_a price_b,
       dict_get (st_prices s) (key a) = Some price_a
       /\ dict_get (st_prices s) (key b) = Some price_b
       /\ (if da <? db then price_b <= price_a else price_a <= price_b))
  /\ (forall va vb,
        deductible a = deductible b ->
        get_variant_rank (variant a) = Ok va ->
        get_variant_rank (variant b) = Ok vb ->
        va <> vb ->
        (exists z, In z (st_items s) /\ product z = product a
                   /\ deductible z = deductible a
                   /\ get_variant_rank (variant z) = Ok 1) ->
        exists price_a price_b,
          dict_get (st_prices s) (key a) = Some price_a
          /\ dict_get (st_prices s) (key b) = Some price_b
          /\ (if va <? vb then price_a <= price_b else price_b <= price_a)).
Proof.
  intros Hrest Hnonneg Hpair Hprod Hcore.
  destruct (at_rest_pairs_on_schedule avg_prices s a b Hrest Hpair Hprod Hcore)
    as [Hded Hvar].
  split.
  - intros da db Hv Hda Hdb Hne Hbase.
    destruct (Hded da db Hv Hda Hdb Hne Hbase)
      as (price_a & price_b & Hpa & Hpb & [Hstrict | (base & k & Hk & Ha & Hb)]).
    + exists price_a, price_b. split; [exact Hpa |]. split; [exact Hpb |].
      destruct (da <? db); lia.
    + exists price_a, price_b. split; [exact Hpa |]. split; [exact Hpb |].
      pose proof (Hnonneg k base Hk) as Hbase0.
      pose proof (get_deductible_rank_range _ _ Hda) as Hra.
      pose proof (get_deductible_rank_range _ _ Hdb) as Hrb.
      destruct (Z.ltb_spec da db).
      * apply (decay_price_mono base da db); auto; lia.
      * apply (decay_price_mono base db da); auto; lia.
  - intros va vb Hd Hva Hvb Hne Hbase.
    destruct (Hvar va vb Hd Hva Hvb Hne Hbase)
      as (price_a & price_b & Hpa & Hpb & [Hstrict | (base & k & Hk & Ha & Hb)]).
    + exists price_a, price_b. split; [exact Hpa |]. split; [exact Hpb |].
      destruct (va <? vb); lia.
    + exists price_a, price_b. split; [exact Hpa |]. split; [exact Hpb |].
      pose proof (Hnonneg k base Hk) as Hbase0.
      pose proof (get_variant_rank_range _ _ Hva) as Hra.
      pose proof (get_variant_rank_range _ _ Hvb) as Hrb.
      destruct (Z.ltb_spec va vb).
      * apply (markup_price_mono base va vb); auto; lia.
      * apply (markup_price_mono base vb va); auto; lia.
Qed.

Lemma in_scanned_pairs (l : list PriceElement) (x y : PriceElement) :
  In x l -> In y l -> x <> y ->
  In (x, y) (scanned_pairs l) \/ In (y, x) (scanned_pairs l).
Proof.
  induction l as [| z rest IH]; intros Hx Hy Hne; [destruct Hx |].
  simpl. destruct Hx as [-> | Hx], Hy as [-> | Hy].
  - congruence.
  - left. apply in_or_app. left. now apply in_map.
  - right. apply in_or_app. left. now apply in_map.
  - destruct (IH Hx Hy Hne) as [H | H]; [left | right]; apply in_or_app; now right.
Qed.

(** On a table at rest for the repair of [modified_version.py] whose
    prices are not negative, take two elements of one non-core product.
    If they have the same variant, and their group holds an element of
    deductible rank 1, the one of higher deductible rank is not dearer.
    If they have the same deductible, and their group holds an element of
    variant rank 1, the one of higher variant rank is not cheaper. *)
Lemma at_rest_monotone_each_axis
    (avg_prices : list (string * Float.float)) (s : store) (x y : PriceElement) :
  at_rest avg_prices s ->
  prices_nonneg s ->
  In x (st_items s) -> In y (st_items s) ->
  product x = product y ->
  is_core_product (product x) = false ->
  (forall dx dy px py,
     variant x = variant y ->
     get_deductible_rank (deductible x) = Ok dx ->
     get_deductible_rank (deductible y) = Ok dy ->
     dict_get (st_prices s) (key x) = Some px ->
     dict_get (st_prices s) (key y) = Some py ->
     (exists z, In z (st_items s) /\ product z = product x /\ variant z = variant x
                /\ get_deductible_rank (deductible z) = Ok 1) ->
     dx < dy -> py <= px)
  /\ (forall vx vy px py,
        deductible x = deductible y ->
        get_variant_rank (variant x) = Ok vx ->
        get_variant_rank (variant y) = Ok vy ->
        dict_get (st_prices s) (key x) = Some px ->
        dict_get (st_prices s) (key y) = Some py ->
        (exists z, In z (st_items s) /\ product z = product x
                   /\ deductible z = deductible x
                   /\ get_variant_rank (variant z) = Ok 1) ->
        vx < vy -> px <= py).
Proof.
  intros Hrest Hnonneg Hx Hy Hprod Hcore. split.
  - intros dx dy px py Hvar Hdx Hdy Hpx Hpy Hbase Hlt.
    assert (Hne : x <> y) by (intros ->; rewrite Hdx in Hdy; injection Hdy; lia).
    destruct (in_scanned_pairs _ _ _ Hx Hy Hne) as [Hpair | Hpair].
    + destruct (proj1 (at_rest_monotone_pair avg_prices s x y
                         Hrest Hnonneg Hpair Hprod Hcore)
                      dx dy Hvar Hdx Hdy ltac:(lia) Hbase)
        as (qx & qy & Hqx & Hqy & Hord).
      rewrite Hpx in Hqx. rewrite Hpy in Hqy. injection Hqx as <-. injection Hqy as <-.
      destruct (Z.ltb_spec dx dy); lia.
    + rewrite Hprod in Hcore.
      assert (Hbase' : exists z, In z (st_items s) /\ product z = product y
                                 /\ variant z = variant y
                                 /\ get_deductible_rank (deductible z) = Ok 1).
      { destruct Hbase as (z & Hz & Hzp & Hzv & Hzd). exists z.
        repeat split; congruence. }
      destruct (proj1 (at_rest_monotone_pair avg_prices s y x
                         Hrest Hnonneg Hpair (eq_sym Hprod) Hcore)
                      dy dx (eq_sym Hvar) Hdy Hdx ltac:(lia) Hbase')
        as (qy & qx & Hqy & Hqx & Hord).
      rewrite Hpx in Hqx. rewrite Hpy in Hqy. injection Hqx as <-. injection Hqy as <-.
      destruct (Z.ltb_spec dy dx); lia.
  - intros vx vy px py Hded Hvx Hvy Hpx Hpy Hbase Hlt.
    assert (Hne : x <> y) by (intros ->; rewrite Hvx in Hvy; injection Hvy; lia).
    destruct (in_scanned_pairs _ _ _ Hx Hy Hne) as [Hpair | Hpair].
    + destruct (proj2 (at_rest_monotone_pair avg_prices s x y
                         Hrest Hnonneg Hpair Hprod Hcore)
                      vx vy Hded Hvx Hvy ltac:(lia) Hbase)
        as (qx & qy & Hqx & Hqy & Hord).
      rewrite Hpx in Hqx. rewrite Hpy in Hqy. injection Hqx as <-. injection Hqy as <-.
      destruct (Z.ltb_spec vx vy); lia.
    + rewrite Hprod in Hcore.
      assert (Hbase' : exists z, In z (st_items s) /\ product z = product y
                                 /\ deductible z = deductible y
                                 /\ get_variant_rank (variant z) = Ok 1).
      { destruct Hbase as (z & Hz & Hzp & Hzd & Hzv). exists z.
        repeat split; congruence. }
      destruct (proj2 (at_rest_monotone_pair avg_prices s y x
                         Hrest Hnonneg Hpair (eq_sym Hprod) Hcore)
                      vy vx (eq_sym Hded) Hvy Hvx ltac:(lia) Hbase')
        as (qy & qx & Hqy & Hqx & Hord).
      rewrite Hpx in Hqx. rewrite Hpy in Hqy. injection Hqx as <-. injection Hqy as <-.
      destruct (Z.ltb_spec vy vx); lia.
Qed.

(** The order of ["casco_basic_100"] (100) and ["casco_basic_200"] (90)
    on a table at rest: the higher deductible rank is not dearer. *)
Lemma at_rest_monotone_each_axis_example :
  let s := Examples.store_of
             [("casco_basic_100", 100); ("casco_basic_200", 90);
              ("casco_comfort_100", 107)] in
  at_rest Examples.avg_prices s
  /\ prices_nonneg s
  /\ dict_get (st_prices s) "casco_basic_100" = Some 100
  /\ dict_get (st_prices s) "casco_basic_200" = Some 90
  /\ 90 <= 100.
Proof.
  intros s.
  pose (x := mkPriceElement "casco_basic_100" "casco" (Some "basic") (Some 100)).
  pose (y := mkPriceElement "casco_basic_200" "casco" (Some "basic") (Some 200)).
  assert (Hrest : at_rest Examples.avg_prices s).
  { intros a b Hin. simpl in Hin.
    destruct Hin as [H | [H | [H | []]]]; injection H as <- <-; vm_compute; reflexivity. }
  assert (Hnonneg : prices_nonneg s).
  { intros k v H.
    change (st_prices s)
      with [("casco_basic_100", 100); ("casco_basic_200", 90); ("casco_comfort_100", 107)]
      in H.
    unfold dict_get in H.
    destruct (String.eqb "casco_basic_100" k); [injection H as <-; lia |].
    destruct (String.eqb "casco_basic_200" k); [injection H as <-; lia |].
    destruct (String.eqb "casco_comfort_100" k); [injection H as <-; lia |].
    discriminate. }
  assert (Hpx : dict_get (st_prices s) "casco_basic_100" = Some 100) by reflexivity.
  assert (Hpy : dict_get (st_prices s) "casco_basic_200" = Some 90) by reflexivity.
  split; [exact Hrest |]. split; [exact Hnonneg |].
  split; [exact Hpx |]. split; [exact Hpy |].
  refine (proj1 (at_rest_monotone_each_axis Examples.avg_prices s x y
                   Hrest Hnonneg _ _ _ _) 1 2 100 90 _ _ _ Hpx Hpy _ _).
  - simpl. left. reflexivity.
  - simpl. right. left. reflexivity.
  - reflexivity.
  - reflexivity.
  - reflexivity.
  - reflexivity.
  - reflexivity.
  - exists x. simpl. repeat split. left. reflexivity.
  - lia.
Defined.

(** Why the prices must not be negative: from a negative base the decay
    schedule climbs.  The table [{"casco_basic_100": -100,
    "casco_basic_200": -90}] is at rest, and the higher deductible rank is
    the dearer one. *)
Example negative_base_climbs :
  let s := Examples.store_of [("casco_basic_100", -100); ("casco_basic_200", -90)] in
  at_rest Examples.avg_prices s /\ ~ deductible_axis_monotone s.
Proof.
  intros s. split.
  - intros x y Hin. simpl in Hin.
    destruct Hin as [H | []]; injection H as <- <-; vm_compute; reflexivity.
  - intros H.
    specialize (H (mkPriceElement "casco_basic_100" "casco" (Some "basic") (Some 100))
                  (mkPriceElement "casco_basic_200" "casco" (Some "basic") (Some 200))
                  1 2 (-100) (-90)).
    simpl in H.
    assert (-90 <= -100) as Habs; [| lia].
    apply H; try reflexivity; try lia.
    + left. reflexivity.
    + right. left. reflexivity.
Qed.

(** ** Writes that the flag does see *)


(** ** What a pass without a flag went through *)














(** In [main.py] the stale [lower_is_core] keeps the schedules from
    running: after the pairs with ["mtpl"] the flag says that the lower
    element is core, and the pair of the two [casco_basic] elements is
    left as it is, the higher deductible rank dearer, although the group
    has its base.  [modified_version.py] repairs the same table. *)
Example main_stale_flag_blocks_schedule :
  let s := Examples.store_of
             [("mtpl", 50); ("casco_basic_100", 100); ("casco_basic_200", 200)] in
  Main.fix_products_inplace Examples.avg_prices 10 s = (s, Ok tt)
  /\ ~ deductible_axis_monotone s
  /\ st_prices (fst (Modified.fix_products_inplace Examples.avg_prices 10 s))
     = [("mtpl", 50); ("casco_basic_100", 100); ("casco_basic_200", 90)].
Proof.
  intros s. split; [vm_compute; reflexivity |]. split; [| vm_compute; reflexivity].
  intros H.
  specialize (H (mkPriceElement "casco_basic_100" "casco" (Some "basic") (Some 100))
                (mkPriceElement "casco_basic_200" "casco" (Some "basic") (Some 200))
                1 2 100 200).
  simpl in H.
  assert (200 <= 100) as Habs; [| lia].
  apply H; try reflexivity; try lia.
  - right. left. reflexivity.
  - right. right. left. reflexivity.
Qed.

(** * Further properties of the code *)

(** ** The rank tables *)

Lemma is_core_product_mtpl (p : string) : is_core_product p = true <-> p = "mtpl".
Proof.
  unfold is_core_product, core_product. simpl. rewrite orb_false_r. apply String.eqb_eq.
Qed.

Lemma py_format_raises (n : Z) (e : exn) : py_format n = Raise e -> e = ValueError.
Proof. unfold py_format. destruct (_ <? _); congruence. Qed.

(** X1. What the three rank lookups give: a rank between 1 and 3, or a
    [KeyError] that carries the key that was looked up; the product of
    rank 1 is the core product and no other.  The handler of
    [get_deductible_rank] writes [repr(deductible)] into the message of
    its [KeyError]: for an unknown deductible of more than
    [int_max_str_digits] digits that fails, and the lookup raises
    [ValueError] instead. *)
Theorem rank_lookups_spec (p : string) (v : option string) (d : option Z) :
  match get_product_rank p with
  | Ok r => 1 <= r <= 3 /\ (r = 1 <-> is_core_product p = true)
  | Raise e => e = KeyError_product p
  end
  /\ match get_variant_rank v with
     | Ok r => 1 <= r <= 3
     | Raise e => e = KeyError_variant v
     end
  /\ match get_deductible_rank d with
     | Ok r => 1 <= r <= 3
     | Raise e =>
         match d with
         | Some x =>
             if is_ok (py_format x) then e = KeyError_deductible d
             else e = ValueError
         | None => e = KeyError_deductible None
         end
     end.
Proof.
  split; [| split].
  - unfold get_product_rank, product_rank, dict_get.
    destruct (String.eqb "mtpl" p) eqn:E1.
    { apply String.eqb_eq in E1. subst p. split; [lia |]. split; reflexivity. }
    assert (Hnc : is_core_product p = false).
    { destruct (is_core_product p) eqn:Hc; [| reflexivity].
      apply is_core_product_mtpl in Hc. subst p. discriminate. }
    rewrite Hnc.
    destruct (String.eqb "limited_casco" p).
    { split; [lia |]. split; intros H; discriminate. }
    destruct (String.eqb "casco" p).
    { split; [lia |]. split; intros H; discriminate. }
    reflexivity.
  - destruct (get_variant_rank v) as [r | e] eqn:E.
    + apply get_variant_rank_range in E. lia.
    + unfold get_variant_rank in E. destruct v as [x |]; [| congruence].
      destruct (dict_get variants_rank x); congruence.
  - destruct (get_deductible_rank d) as [r | e] eqn:E.
    + apply get_deductible_rank_range in E. lia.
    + unfold get_deductible_rank in E. destruct d as [x |]; [| congruence].
      destruct (zdict_get deductables_rank x); [congruence |].
      destruct (py_format x) as [t | e'] eqn:F; simpl in *; [congruence |].
      injection E as <-. eapply py_format_raises; eassumption.
Qed.

(** An unknown deductible of more than [int_max_str_digits] digits: the
    handler cannot write it. *)
Example get_deductible_rank_too_long (d : Z) :
  10 ^ int_max_str_digits <= d -> get_deductible_rank (Some d) = Raise ValueError.
Proof.
  intros Hd. pose proof pow10_cap_large as Hk.
  unfold get_deductible_rank, deductables_rank, zdict_get.
  replace (100 =? d) with false by (symmetry; apply Z.eqb_neq; lia).
  replace (200 =? d) with false by (symmetry; apply Z.eqb_neq; lia).
  replace (500 =? d) with false by (symmetry; apply Z.eqb_neq; lia).
  rewrite py_format_cap.
  replace (10 ^ int_max_str_digits <=? Z.abs d) with true
    by (symmetry; apply Z.leb_le; lia).
  reflexivity.
Qed.

(** ** Keys built from their parts *)

Lemma split_singleton_cons (sep c : ascii) (p : string) :
  split sep (String c p) = [String c p] ->
  Ascii.eqb c sep = false /\ split sep p = [p].
Proof.
  simpl. destruct (Ascii.eqb c sep) eqn:E.
  - intros H. injection H as H _. discriminate.
  - pose proof (split_not_nil sep p) as Hne.
    destruct (split sep p) as [| tok toks]; [congruence |].
    intros H. injection H as -> ->. now split.
Qed.

(** A token followed by the separator is the first token of the split. *)
Lemma split_app_sep (sep : ascii) (p rest : string) :
  split sep p = [p] ->
  split sep (p ++ String sep rest) = p :: split sep rest.
Proof.
  induction p as [| c p IH]; intros H.
  - simpl. now rewrite Ascii.eqb_refl.
  - apply split_singleton_cons in H. destruct H as [Hc Hp].
    change ((String c p ++ String sep rest)%string)
      with (String c (p ++ String sep rest)).
    cbn [split]. rewrite Hc, (IH Hp). reflexivity.
Qed.

Lemma split_only_digits (s : string) :
  only_digits s = true -> split underscore s = [s].
Proof.
  induction s as [| c s IH]; [reflexivity |].
  cbn [only_digits]. destruct (digit_value c) as [d |] eqn:E; [| discriminate].
  intros H. cbn [split]. rewrite (IH H).
  destruct (Ascii.eqb c underscore) eqn:Hc; [| reflexivity].
  apply Ascii.eqb_eq in Hc. subst c. discriminate.
Qed.

(** The rendering of an int holds no underscore. *)
Lemma split_py_str (d : Z) : split underscore (py_str d) = [py_str d].
Proof.
  unfold py_str. destruct d as [| p | p]; [reflexivity | |];
    cbn [Z.to_int NilZero.string_of_int];
    rewrite (nilzero_string_of_uint _ (DecimalPos.Unsigned.to_uint_nonnil p)).
  - apply split_only_digits, only_digits_of_uint.
  - cbn [split]. change (Ascii.eqb "-" underscore) with false. cbv iota.
    rewrite (split_only_digits _ (only_digits_of_uint _)). reflexivity.
Qed.

Lemma py_format_ok (n : Z) (t : string) : py_format n = Ok t -> t = py_str n.
Proof. unfold py_format. destruct (_ <? _); congruence. Qed.

(** X2. A key written as [f"{product}_{variant}_{deductible}"] is parsed
    back into these three parts: for every product and variant that hold
    no underscore, for the product ["limited_casco"], and for every int
    deductible that the f-string can format, which is one of at most
    [int_max_str_digits] digits. *)
Theorem parse_price_key_of_parts (p v t : string) (d : Z) :
  split underscore p = [p] \/ p = "limited_casco" ->
  split underscore v = [v] ->
  py_format d = Ok t ->
  parse_price_key (join "_" [p; v; t])
  = Ok (mkPriceElement (join "_" [p; v; t]) p (Some v) (Some d)).
Proof.
  intros Hp Hv Ht. unfold parse_price_key.
  pose proof (py_int_py_str d t Ht) as Hint.
  pose proof (py_format_ok d t Ht) as Et.
  assert (Hsplit : split underscore t = [t]) by (rewrite Et; apply split_py_str).
  assert (Htail : split underscore (v ++ "_" ++ t) = [v; t]).
  { change ((v ++ "_" ++ t)%string) with ((v ++ String underscore t)%string).
    rewrite (split_app_sep _ _ _ Hv), Hsplit. reflexivity. }
  cbn [join].
  destruct Hp as [Hp | ->].
  - change ((p ++ "_" ++ v ++ "_" ++ t)%string)
      with ((p ++ String underscore (v ++ "_" ++ t))%string).
    rewrite (split_app_sep _ _ _ Hp), Htail.
    rewrite Hint. reflexivity.
  - change (("limited_casco" ++ "_" ++ v ++ "_" ++ t)%string)
      with (("limited" ++ String underscore
               ("casco" ++ String underscore (v ++ "_" ++ t)))%string).
    rewrite (split_app_sep underscore "limited") by reflexivity.
    rewrite (split_app_sep underscore "casco") by reflexivity.
    rewrite Htail. cbn [String.eqb Ascii.eqb Bool.eqb andb].
    rewrite Hint. reflexivity.
Qed.

(** The round trip at ["casco"], ["premium"] and 500. *)
Lemma parse_price_key_of_parts_witness :
  split underscore "casco" = ["casco"]
  /\ split underscore "premium" = ["premium"]
  /\ py_format 500 = Ok "500"
  /\ parse_price_key "casco_premium_500"
     = Ok (mkPriceElement "casco_premium_500" "casco" (Some "premium") (Some 500)).
Proof.
  split; [reflexivity |]. split; [reflexivity |]. split; [reflexivity |].
  apply (parse_price_key_of_parts "casco" "premium" "500" 500); [left | |]; reflexivity.
Defined.

(** X3. The keys that [parse_price_key] accepts are those of three
    tokens, or of the four tokens ["limited"], ["casco"], a variant and a
    last one, whose last token [int] accepts; on every other key it raises
    [ValueError], and nothing else. *)
Theorem parse_price_key_accepts (input_key : string) :
  (is_ok (parse_price_key input_key) = true <->
   exists v tok,
     is_ok (py_int tok) = true
     /\ (split underscore input_key = ["limited"; "casco"; v; tok]
         \/ exists p, split underscore input_key = [p; v; tok]))
  /\ (forall e, parse_price_key input_key = Raise e -> e = ValueError).
Proof.
  unfold parse_price_key.
  destruct (split underscore input_key) as [| p0 [| p1 [| p2 [| p3 [| p4 rest]]]]];
    try (split; [split; [discriminate | intros (v & tok & _ & [H | [p H]]); discriminate]
                | intros e H; congruence]).
  - (* three tokens *)
    split.
    + split.
      * intros H. exists p1, p2. split; [| right; now exists p0].
        destruct (py_int p2); [reflexivity | discriminate].
      * intros (v & tok & Hint & [H | [p H]]); [discriminate |].
        injection H as _ _ <-. destruct (py_int p2); [reflexivity | discriminate].
    + intros e. unfold py_int. cbv zeta.
      match goal with
      | |- context [match ?x with Some _ => _ | None => _ end] => destruct x
      end; simpl; congruence.
  - (* four tokens *)
    split.
    + split.
      * destruct (String.eqb p0 "limited" && String.eqb p1 "casco") eqn:E; [| discriminate].
        apply andb_prop in E. destruct E as [E0 E1].
        apply String.eqb_eq in E0, E1. subst p0 p1.
        intros H. exists p2, p3. split; [| now left].
        destruct (py_int p3); [reflexivity | discriminate].
      * intros (v & tok & Hint & [H | [p H]]); [| discriminate].
        injection H as -> -> _ <-. simpl.
        destruct (py_int p3); [reflexivity | discriminate].
    + intros e. destruct (String.eqb p0 "limited" && String.eqb p1 "casco"); [| congruence].
      unfold py_int. cbv zeta.
      match goal with
      | |- context [match ?x with Some _ => _ | None => _ end] => destruct x
      end; simpl; congruence.
Qed.

(** ** The list of elements of a table *)

Lemma py_int_raises (s : string) (e : exn) : py_int s = Raise e -> e = ValueError.
Proof.
  unfold py_int. cbv zeta.
  match goal with
  | |- context [match ?x with Some _ => _ | None => _ end] => destruct x
  end; congruence.
Qed.

Lemma parse_price_key_raises (input_key : string) (e : exn) :
  parse_price_key input_key = Raise e -> e = ValueError.
Proof.
  unfold parse_price_key.
  destruct (split underscore input_key) as [| p0 [| p1 [| p2 [| p3 [| p4 rest]]]]];
    try congruence.
  - destruct (py_int p2) eqn:E; simpl; [discriminate |].
    intros H. injection H as <-. eapply py_int_raises; eassumption.
  - destruct (String.eqb p0 "limited" && String.eqb p1 "casco"); [| congruence].
    destruct (py_int p3) eqn:E; simpl; [discriminate |].
    intros H. injection H as <-. eapply py_int_raises; eassumption.
Qed.

Lemma build_item_key (input_key : string) (it : PriceElement) :
  build_item input_key = Ok it -> key it = input_key.
Proof.
  unfold build_item. destruct (is_core_product input_key).
  - intros H. injection H as <-. reflexivity.
  - intros H. apply parse_price_key_ok in H.
    destruct H as (v & tok & d & -> & _). reflexivity.
Qed.

Lemma build_item_raises (input_key : string) (e : exn) :
  build_item input_key = Raise e -> e = ValueError.
Proof.
  unfold build_item. destruct (is_core_product input_key); [discriminate |].
  apply parse_price_key_raises.
Qed.

(** The elements of a built list, one per entry of the table and in its
    order. *)
Lemma build_price_items_ok (prices : list (string * Z)) :
  forall items,
    build_price_items prices = Ok items ->
    Forall2 (fun it kv => build_item (fst kv) = Ok it) items prices.
Proof.
  induction prices as [| [k p] rest IH]; intros items H; simpl in H.
  - injection H as <-. constructor.
  - destruct (build_item k) as [it |] eqn:Hit; [| discriminate]. simpl in H.
    destruct (build_price_items rest) as [its |]; [| discriminate]. simpl in H.
    injection H as <-. constructor; [exact Hit | now apply IH].
Qed.

Lemma build_price_items_keys (prices : list (string * Z)) (items : list PriceElement) :
  build_price_items prices = Ok items -> map key items = map fst prices.
Proof.
  intros H. apply build_price_items_ok in H.
  induction H as [| it kv items prices Hit _ IH]; [reflexivity |].
  simpl. rewrite IH, (build_item_key _ _ Hit). reflexivity.
Qed.

Lemma dict_get_of_key {V : Type} (d : list (string * V)) (k : string) :
  In k (map fst d) -> exists v, dict_get d k = Some v.
Proof.
  induction d as [| [k' v'] rest IH]; simpl; [contradiction |].
  destruct (String.eqb k' k) eqn:E; [intros _; now exists v' |].
  intros [H | H]; [| now apply IH].
  subst. rewrite String.eqb_refl in E. discriminate.
Qed.

(** X4. When [build_price_items] returns, its list has one element per
    entry of the table, in the order of the table; each element carries
    the key of its entry and is what [build_item] makes of that key, so
    its price can be looked up. *)
Theorem build_price_items_aligned (prices : list (string * Z)) (items : list PriceElement) :
  build_price_items prices = Ok items ->
  map key items = map fst prices
  /\ (forall it, In it items ->
        build_item (key it) = Ok it
        /\ exists price, dict_get prices (key it) = Some price).
Proof.
  intros H. pose proof (build_price_items_keys _ _ H) as Hk.
  split; [exact Hk |].
  intros it Hin. split.
  - apply build_price_items_ok in H. clear Hk.
    induction H as [| it0 kv items prices Hit _ IH]; [destruct Hin |].
    destruct Hin as [<- | Hin]; [| now apply IH].
    now rewrite (build_item_key _ _ Hit).
  - apply dict_get_of_key. rewrite <- Hk. now apply in_map.
Qed.

(** The list of a table of two entries. *)
Lemma build_price_items_aligned_witness :
  let prices := [("mtpl", 400); ("casco_basic_100", 830)] in
  let items := [mkPriceElement "mtpl" "mtpl" None None;
                mkPriceElement "casco_basic_100" "casco" (Some "basic") (Some 100)] in
  build_price_items prices = Ok items
  /\ map key items = map fst prices
  /\ (forall it, In it items ->
        build_item (key it) = Ok it
        /\ exists price, dict_get prices (key it) = Some price).
Proof.
  split; [reflexivity |].
  apply (build_price_items_aligned [("mtpl", 400); ("casco_basic_100", 830)]).
  reflexivity.
Defined.

(** X5. [build_price_items] is all or nothing: it returns a list exactly
    when every key of the table is accepted, and otherwise raises
    [ValueError], whatever the other keys are. *)
Theorem build_price_items_all_or_nothing (prices : list (string * Z)) :
  is_ok (build_price_items prices)
  = forallb (fun kv => is_ok (build_item (fst kv))) prices
  /\ (forall e, build_price_items prices = Raise e -> e = ValueError).
Proof.
  induction prices as [| [k p] rest [IHok IHe]]; [split; [reflexivity | discriminate] |].
  simpl. destruct (build_item k) as [it | e0] eqn:Hit; simpl.
  - destruct (build_price_items rest) as [its | e1]; simpl in *.
    + split; [exact IHok | discriminate].
    + split; [exact IHok |]. intros e H. injection H as <-. now apply IHe.
  - split; [reflexivity |]. intros e H. injection H as <-.
    eapply build_item_raises; eassumption.
Qed.

(** ** Nothing to scan *)

(** X6. With fewer than two elements there is no pair to look at: the
    detector returns the empty report without a single lookup, whatever
    the element and the table are. *)
Theorem detect_inconsistencies_short_list (s : store) :
  (List.length (st_items s) <= 1)%nat ->
  detect_inconsistencies s = (s, Ok "").
Proof.
  intros H. unfold detect_inconsistencies, detect_lines, bind, get_items.
  destruct (st_items s) as [| x [| y rest]]; [reflexivity | reflexivity |].
  simpl in H. lia.
Qed.

(** An element of an unknown product, alone and without a price. *)
Lemma detect_inconsistencies_short_list_witness :
  let s := mkStore [mkPriceElement "van_basic_100" "van" (Some "basic") (Some 100)] [] in
  (List.length (st_items s) <= 1)%nat /\ detect_inconsistencies s = (s, Ok "").
Proof.
  split; [simpl; lia |].
  apply (detect_inconsistencies_short_list
           (mkStore [mkPriceElement "van_basic_100" "van" (Some "basic") (Some 100)] [])).
  simpl. lia.
Defined.

(** X7. The repair of either file returns at once, the store untouched
    and nothing raised, when the budget of iterations is zero or negative
    and when the list holds fewer than two elements. *)
Theorem fix_products_inplace_nothing_to_scan
    (avg_prices : list (string * Float.float)) (max_iters : Z) (s : store) :
  max_iters <= 0 \/ (List.length (st_items s) <= 1)%nat ->
  Modified.fix_products_inplace avg_prices max_iters s = (s, Ok tt)
  /\ Main.fix_products_inplace avg_prices max_iters s = (s, Ok tt).
Proof.
  intros H.
  unfold Modified.fix_products_inplace, Main.fix_products_inplace.
  destruct (Z.to_nat max_iters) as [| n] eqn:En; [split; reflexivity |].
  destruct H as [H | H]; [lia |].
  cbn [Modified.fix_loop Main.fix_loop].
  unfold Modified.fix_pass, Main.fix_pass, bind, get_items.
  destruct (st_items s) as [| x [| y rest]]; [split; reflexivity | split; reflexivity |].
  simpl in H. lia.
Qed.

Lemma fix_products_inplace_nothing_to_scan_witness :
  let s := Examples.store_of [("casco_basic_100", 100); ("casco_basic_200", 200)] in
  Modified.fix_products_inplace Examples.avg_prices 0 s = (s, Ok tt)
  /\ Main.fix_products_inplace Examples.avg_prices 0 s = (s, Ok tt).
Proof.
  apply (fix_products_inplace_nothing_to_scan Examples.avg_prices 0
           (Examples.store_of [("casco_basic_100", 100); ("casco_basic_200", 200)])).
  left. lia.
Defined.

(** ** The verdict of the detector and the order of the elements *)

Lemma get_product_rank_range (p : string) (r : Z) :
  get_product_rank p = Ok r -> r = 1 \/ r = 2 \/ r = 3.
Proof.
  unfold get_product_rank, product_rank, dict_get.
  destruct (String.eqb "mtpl" p); [intros H; injection H as <-; auto |].
  destruct (String.eqb "limited_casco" p); [intros H; injection H as <-; auto |].
  destruct (String.eqb "casco" p); [intros H; injection H as <-; auto |].
  discriminate.
Qed.

Lemma string_eqb_sym (x y : string) : String.eqb x y = String.eqb y x.
Proof.
  destruct (String.eqb_spec x y) as [-> | H]; symmetry.
  - apply String.eqb_refl.
  - apply String.eqb_neq. congruence.
Qed.

Lemma check_product_order_swap a b price_a price_b pa pb report :
  check_product_order b a price_b price_a pb pa report
  = check_product_order a b price_a price_b pa pb report.
Proof.
  unfold check_product_order.
  destruct (Z.eqb_spec pa pb) as [-> | Hne].
  - rewrite Z.eqb_refl. reflexivity.
  - replace (pb =? pa) with false by (symmetry; apply Z.eqb_neq; congruence).
    cbn [negb].
    destruct (Z.ltb_spec pa pb); destruct (Z.ltb_spec pb pa); try lia; reflexivity.
Qed.

Lemma check_cross_product_order_swap a b price_a price_b pa pb report :
  get_product_rank (product a) = Ok pa ->
  get_product_rank (product b) = Ok pb ->
  check_cross_product_order b a price_b price_a pb pa report
  = check_cross_product_order a b price_a price_b pa pb report.
Proof.
  intros Hpa Hpb. unfold check_cross_product_order.
  rewrite (string_eqb_sym (product b) (product a)).
  rewrite (variant_eqb_sym (variant b) (variant a)).
  rewrite (deductible_eqb_sym (deductible b) (deductible a)).
  destruct (String.eqb_spec (product a) (product b)) as [He | Hne]; [reflexivity |].
  assert (Hr : pa <> pb).
  { intros ->. apply Hne. eapply get_product_rank_inj; eassumption. }
  destruct (is_core_product (product a)), (is_core_product (product b));
    cbn [negb andb]; try reflexivity.
  destruct (variant_eqb (variant a) (variant b)); [| reflexivity].
  destruct (deductible_eqb (deductible a) (deductible b)); [| reflexivity].
  destruct (Z.ltb_spec pa pb); destruct (Z.ltb_spec pb pa); try lia; reflexivity.
Qed.

Lemma check_variant_order_swap a b price_a price_b report s s' lines :
  check_variant_order a b price_a price_b report s = (s', Ok lines) ->
  check_variant_order b a price_b price_a report s = (s', Ok lines).
Proof.
  unfold check_variant_order.
  rewrite (string_eqb_sym (product b) (product a)).
  rewrite (deductible_eqb_sym (deductible b) (deductible a)).
  destruct (is_core_product (product a)), (is_core_product (product b));
    rewrite ?andb_false_r; cbn [negb andb]; try exact (fun H => H).
  rewrite !andb_true_r.
  destruct (String.eqb (product a) (product b) && deductible_eqb (deductible a) (deductible b));
    [| exact (fun H => H)].
  unfold bind, lift, ret.
  destruct (get_variant_rank (variant a)) as [va |]; [| discriminate].
  destruct (get_variant_rank (variant b)) as [vb |]; [| discriminate].
  destruct (Z.eqb_spec va vb) as [-> | Hne].
  - rewrite Z.eqb_refl. exact (fun H => H).
  - replace (vb =? va) with false by (symmetry; apply Z.eqb_neq; congruence).
    cbn [negb].
    destruct (Z.ltb_spec va vb); destruct (Z.ltb_spec vb va); try lia; exact (fun H => H).
Qed.

Lemma check_deductible_order_swap a b price_a price_b report s s' lines :
  check_deductible_order a b price_a price_b report s = (s', Ok lines) ->
  check_deductible_order b a price_b price_a report s = (s', Ok lines).
Proof.
  unfold check_deductible_order.
  rewrite (string_eqb_sym (product b) (product a)).
  rewrite (variant_eqb_sym (variant b) (variant a)).
  destruct (is_core_product (product a)), (is_core_product (product b));
    rewrite ?andb_false_r; cbn [negb andb]; try exact (fun H => H).
  rewrite !andb_true_r.
  destruct (String.eqb (product a) (product b) && variant_eqb (variant a) (variant b));
    [| exact (fun H => H)].
  unfold bind, lift, ret.
  destruct (get_deductible_rank (deductible a)) as [da |]; [| discriminate].
  destruct (get_deductible_rank (deductible b)) as [db |]; [| discriminate].
  destruct (Z.eqb_spec da db) as [-> | Hne].
  - rewrite Z.eqb_refl. exact (fun H => H).
  - replace (db =? da) with false by (symmetry; apply Z.eqb_neq; congruence).
    cbn [negb].
    destruct (Z.ltb_spec da db); destruct (Z.ltb_spec db da); try lia; exact (fun H => H).
Qed.

(** The lines that a pair adds to the report do not depend on which of
    its two elements comes first. *)
Lemma detect_pair_swap (a b : PriceElement) (report lines : list string) (s s' : store) :
  detect_pair a b report s = (s', Ok lines) ->
  detect_pair b a report s = (s', Ok lines).
Proof.
  unfold detect_pair. intros H.
  apply bind_ok in H. destruct H as (s1 & price_a & Hpa & H).
  apply price_of_ok in Hpa. destruct Hpa as [-> Hprice_a].
  apply bind_ok in H. destruct H as (s1 & price_b & Hpb & H).
  apply price_of_ok in Hpb. destruct Hpb as [-> Hprice_b].
  apply bind_ok in H. destruct H as (s1 & pa & Hpa & H).
  apply lift_ok in Hpa. destruct Hpa as [-> Hpa].
  apply bind_ok in H. destruct H as (s1 & pb & Hpb & H).
  apply lift_ok in Hpb. destruct Hpb as [-> Hpb].
  apply bind_ok in H. destruct H as (s1 & r1 & Hr1 & H).
  apply lift_ok in Hr1. destruct Hr1 as [-> Hr1].
  apply bind_ok in H. destruct H as (s1 & r2 & Hr2 & H).
  apply lift_ok in Hr2. destruct Hr2 as [-> Hr2].
  apply bind_ok in H. destruct H as (s1 & r3 & Hv & Hd).
  assert (Hs1 : s1 = s).
  { pose proof (keeps_eq_unchanged
                  (check_variant_order a b price_a price_b r2)) as K.
    rewrite <- (K (fun s0 => ltac:(unfold check_variant_order; repeat keeps_step)) s).
    now rewrite Hv. }
  subst s1.
  unfold bind at 1. rewrite (price_of_some _ _ _ Hprice_b).
  unfold bind at 1. rewrite (price_of_some _ _ _ Hprice_a).
  unfold bind at 1, lift at 1. rewrite Hpb.
  unfold bind at 1, lift at 1. rewrite Hpa.
  rewrite check_product_order_swap, Hr1.
  unfold bind at 1, lift at 1.
  rewrite (check_cross_product_order_swap a b price_a price_b pa pb _ Hpa Hpb), Hr2.
  unfold bind at 1, lift at 1.
  unfold bind. rewrite (check_variant_order_swap _ _ _ _ _ _ _ _ Hv).
  now apply check_deductible_order_swap.
Qed.

Lemma foreach_detect_all_nil (a : PriceElement) (l : list PriceElement) (s : store) :
  (forall b, In b l -> detect_pair a b [] s = (s, Ok [])) ->
  foreach l (detect_pair a) [] s = (s, Ok []).
Proof.
  induction l as [| y rest IH]; intros H; [reflexivity |].
  simpl. unfold bind. rewrite (H y) by now left.
  apply IH. intros b Hb. apply H. now right.
Qed.

Lemma for_pairs_detect_all_nil (l : list PriceElement) (s : store) :
  (forall a b, In (a, b) (scanned_pairs l) -> detect_pair a b [] s = (s, Ok [])) ->
  for_pairs l detect_pair [] s = (s, Ok []).
Proof.
  induction l as [| x rest IH]; intros H; [reflexivity |].
  simpl. unfold bind. rewrite foreach_detect_all_nil.
  - apply IH. intros a b Hab. apply H. simpl. apply in_or_app. now right.
  - intros b Hb. apply H. simpl. apply in_or_app. left. now apply in_map.
Qed.

(** The pairs of a reordered list are the pairs of the list, up to the
    order within a pair. *)
Lemma scanned_pairs_perm (l l' : list PriceElement) :
  Permutation l l' ->
  forall a b, In (a, b) (scanned_pairs l) ->
    In (a, b) (scanned_pairs l') \/ In (b, a) (scanned_pairs l').
Proof.
  induction 1 as [| x l l' Hp IH | x y l | l l' l'' _ IH1 _ IH2]; intros a b Hab.
  - destruct Hab.
  - simpl in *. apply in_app_or in Hab. destruct Hab as [Hab | Hab].
    + apply in_map_iff in Hab. destruct Hab as (z & Hz & Hin). injection Hz as <- <-.
      left. apply in_or_app. left. apply in_map. eapply Permutation_in; eassumption.
    + destruct (IH a b Hab) as [H | H]; [left | right]; apply in_or_app; now right.
  - simpl in *.
    destruct Hab as [Hab | Hab].
    + injection Hab as <- <-. right. now left.
    + apply in_app_or in Hab. destruct Hab as [Hab | Hab].
      * apply in_map_iff in Hab. destruct Hab as (z & Hz & Hin). injection Hz as <- <-.
        left. right. apply in_or_app. right. apply in_or_app. left. now apply in_map.
      * apply in_app_or in Hab. destruct Hab as [Hab | Hab].
        -- apply in_map_iff in Hab. destruct Hab as (z & Hz & Hin). injection Hz as <- <-.
           left. right. apply in_or_app. left. now apply in_map.
        -- left. right. apply in_or_app. right. apply in_or_app. now right.
  - destruct (IH1 a b Hab) as [H | H].
    + now apply IH2.
    + destruct (IH2 b a H) as [H' | H']; [now right | now left].
Qed.

(** A clean report says that every two elements of the list, in either
    order, report nothing. *)
Lemma empty_report_pairs (s : store) :
  snd (detect_inconsistencies s) = Ok "" ->
  forall a b, In (a, b) (scanned_pairs (st_items s)) \/ In (b, a) (scanned_pairs (st_items s)) ->
    detect_pair a b [] s = (s, Ok []).
Proof.
  intros Hclean a b Hab.
  apply empty_report_no_lines in Hclean.
  unfold detect_lines, bind, get_items in Hclean.
  apply for_pairs_detect_nil in Hclean. destruct Hclean as (_ & _ & Hpairs).
  destruct Hab as [Hab | Hab]; [now apply Hpairs |].
  apply detect_pair_swap. now apply Hpairs.
Qed.

(** X8. Whether the detector finds a table clean does not depend on the
    order of the list of elements: when the report of a list is empty, so
    is the report of every reordering of it over the same table. *)
Theorem clean_report_any_order (items items' : list PriceElement) (prices : list (string * Z)) :
  Permutation items items' ->
  snd (detect_inconsistencies (mkStore items prices)) = Ok "" ->
  detect_inconsistencies (mkStore items' prices) = (mkStore items' prices, Ok "").
Proof.
  intros Hperm Hclean.
  pose proof (empty_report_pairs _ Hclean) as Hpairs. simpl in Hpairs.
  assert (Hall : forall a b, In (a, b) (scanned_pairs items') ->
                   detect_pair a b [] (mkStore items' prices)
                   = (mkStore items' prices, Ok [])).
  { intros a b Hab.
    apply (scanned_pairs_perm items' items (Permutation_sym Hperm)) in Hab.
    specialize (Hpairs a b Hab).
    (* a pair reads the table only *)
    revert Hpairs. unfold detect_pair, bind, price_of. simpl.
    destruct (dict_get prices (key a)); [| discriminate].
    destruct (dict_get prices (key b)); [| discriminate].
    unfold lift.
    destruct (get_product_rank (product a)); [| discriminate].
    destruct (get_product_rank (product b)); [| discriminate].
    unfold check_variant_order, check_deductible_order, bind, lift, ret.
    repeat match goal with
           | |- context [if ?c then _ else _] => destruct c
           | |- context [match ?r with Ok _ => _ | Raise _ => _ end] => destruct r
           end; intros H; try discriminate; injection H as H; now rewrite H. }
  unfold detect_inconsistencies, detect_lines, bind, get_items. simpl.
  rewrite (for_pairs_detect_all_nil items' _ Hall). reflexivity.
Qed.

(** A clean table of three entries, read in the order of the table and
    backwards. *)
Lemma clean_report_any_order_witness :
  let prices := [("mtpl", 400); ("casco_basic_100", 900); ("casco_basic_200", 800)] in
  let m := mkPriceElement "mtpl" "mtpl" None None in
  let c1 := mkPriceElement "casco_basic_100" "casco" (Some "basic") (Some 100) in
  let c2 := mkPriceElement "casco_basic_200" "casco" (Some "basic") (Some 200) in
  snd (detect_inconsistencies (mkStore [m; c1; c2] prices)) = Ok ""
  /\ detect_inconsistencies (mkStore [c2; c1; m] prices) = (mkStore [c2; c1; m] prices, Ok "").
Proof.
  split; [vm_compute; reflexivity |].
  apply (clean_report_any_order
           [mkPriceElement "mtpl" "mtpl" None None;
            mkPriceElement "casco_basic_100" "casco" (Some "basic") (Some 100);
            mkPriceElement "casco_basic_200" "casco" (Some "basic") (Some 200)]).
  - apply Permutation_rev.
  - vm_compute. reflexivity.
Defined.

(** ** What a clean report guarantees *)

(** After a clean report every two different elements of the list have
    their prices and product ranks, and none of the four rules fires on
    them. *)
Lemma clean_report_pair (s : store) (x y : PriceElement) :
  snd (detect_inconsistencies s) = Ok "" ->
  In x (st_items s) -> In y (st_items s) -> x <> y ->
  exists px py rx ry,
    dict_get (st_prices s) (key x) = Some px
    /\ dict_get (st_prices s) (key y) = Some py
    /\ get_product_rank (product x) = Ok rx
    /\ get_product_rank (product y) = Ok ry
    /\ check_product_order x y px py rx ry [] = Ok []
    /\ check_cross_product_order x y px py rx ry [] = Ok []
    /\ check_variant_order x y px py [] s = (s, Ok [])
    /\ check_deductible_order x y px py [] s = (s, Ok []).
Proof.
  intros Hclean Hx Hy Hne.
  pose proof (empty_report_pairs s Hclean x y (in_scanned_pairs _ _ _ Hx Hy Hne)) as H.
  apply detect_pair_nil in H. destruct H as (_ & _ & H). exact H.
Qed.

(** X9. After a clean report the core product is strictly cheaper than
    every element of another product. *)
Theorem clean_report_core_cheapest (s : store) (x y : PriceElement) (px py : Z) :
  snd (detect_inconsistencies s) = Ok "" ->
  In x (st_items s) -> In y (st_items s) ->
  is_core_product (product x) = true ->
  is_core_product (product y) = false ->
  dict_get (st_prices s) (key x) = Some px ->
  dict_get (st_prices s) (key y) = Some py ->
  px < py.
Proof.
  intros Hclean Hx Hy Hcx Hcy Hpx Hpy.
  assert (Hne : x <> y) by (intros ->; congruence).
  destruct (clean_report_pair s x y Hclean Hx Hy Hne)
    as (px' & py' & rx & ry & Hpx' & Hpy' & Hrx & Hry & Hc & _).
  rewrite Hpx in Hpx'. injection Hpx' as <-.
  rewrite Hpy in Hpy'. injection Hpy' as <-.
  assert (Hrx1 : rx = 1).
  { apply is_core_product_mtpl in Hcx. rewrite Hcx in Hrx. vm_compute in Hrx. congruence. }
  subst rx.
  assert (Hry1 : ry <> 1).
  { intros ->. pose proof (get_product_rank_inj _ _ _ Hrx Hry) as E.
    rewrite E in Hcx. congruence. }
  pose proof (get_product_rank_range _ _ Hry) as Hrange.
  assert (Hlt : (1 <? ry) = true) by (apply Z.ltb_lt; lia).
  pose proof (product_order_clean x y px py 1 ry ltac:(congruence) Hc) as F.
  rewrite Hlt in F. now apply F.
Qed.

(** X10. After a clean report, of two elements of different non-core
    products with the same variant and the same deductible, the one of
    the lower product rank is strictly cheaper. *)
Theorem clean_report_product_order (s : store) (x y : PriceElement) (px py rx ry : Z) :
  snd (detect_inconsistencies s) = Ok "" ->
  In x (st_items s) -> In y (st_items s) ->
  is_core_product (product x) = false ->
  is_core_product (product y) = false ->
  variant x = variant y -> deductible x = deductible y ->
  get_product_rank (product x) = Ok rx ->
  get_product_rank (product y) = Ok ry ->
  rx < ry ->
  dict_get (st_prices s) (key x) = Some px ->
  dict_get (st_prices s) (key y) = Some py ->
  px < py.
Proof.
  intros Hclean Hx Hy Hcx Hcy Hv Hd Hrx Hry Hlt Hpx Hpy.
  assert (Hne : x <> y) by (intros ->; rewrite Hrx in Hry; injection Hry; lia).
  destruct (clean_report_pair s x y Hclean Hx Hy Hne)
    as (px' & py' & rx' & ry' & Hpx' & Hpy' & Hrx' & Hry' & _ & Hc & _).
  rewrite Hpx in Hpx'. injection Hpx' as <-.
  rewrite Hpy in Hpy'. injection Hpy' as <-.
  rewrite Hrx in Hrx'. injection Hrx' as <-.
  rewrite Hry in Hry'. injection Hry' as <-.
  assert (Hprod : String.eqb (product x) (product y) = false).
  { apply String.eqb_neq. intros E. rewrite E in Hrx. rewrite Hrx in Hry. injection Hry. lia. }
  pose proof (cross_product_order_clean x y px py rx ry Hprod Hc Hcx Hcy) as F.
  replace (rx <? ry) with true in F by (symmetry; apply Z.ltb_lt; lia).
  apply F.
  - rewrite Hv. now apply option_eqb_string_eq.
  - rewrite Hd. now apply option_eqb_deductible_eq.
Qed.

(** X11. After a clean report, of two elements of one non-core product
    with the same deductible, the one of the lower variant rank is
    strictly cheaper. *)
Theorem clean_report_variant_order (s : store) (x y : PriceElement) (px py vx vy : Z) :
  snd (detect_inconsistencies s) = Ok "" ->
  In x (st_items s) -> In y (st_items s) ->
  product x = product y ->
  is_core_product (product x) = false ->
  deductible x = deductible y ->
  get_variant_rank (variant x) = Ok vx ->
  get_variant_rank (variant y) = Ok vy ->
  vx < vy ->
  dict_get (st_prices s) (key x) = Some px ->
  dict_get (st_prices s) (key y) = Some py ->
  px < py.
Proof.
  intros Hclean Hx Hy Hprod Hcx Hd Hvx Hvy Hlt Hpx Hpy.
  assert (Hne : x <> y) by (intros ->; rewrite Hvx in Hvy; injection Hvy; lia).
  destruct (clean_report_pair s x y Hclean Hx Hy Hne)
    as (px' & py' & rx' & ry' & Hpx' & Hpy' & _ & _ & _ & _ & Hc & _).
  rewrite Hpx in Hpx'. injection Hpx' as <-.
  rewrite Hpy in Hpy'. injection Hpy' as <-.
  pose proof (variant_order_clean s x y px py vx vy Hc Hprod Hcx Hd Hvx Hvy
                ltac:(lia)) as F.
  replace (vx <? vy) with true in F by (symmetry; apply Z.ltb_lt; lia).
  exact F.
Qed.

(** X12. After a clean report, of two elements of one non-core product
    with the same variant, the one of the higher deductible rank is
    strictly cheaper. *)
Theorem clean_report_deductible_order (s : store) (x y : PriceElement) (px py dx dy : Z) :
  snd (detect_inconsistencies s) = Ok "" ->
  In x (st_items s) -> In y (st_items s) ->
  product x = product y ->
  is_core_product (product x) = false ->
  variant x = variant y ->
  get_deductible_rank (deductible x) = Ok dx ->
  get_deductible_rank (deductible y) = Ok dy ->
  dx < dy ->
  dict_get (st_prices s) (key x) = Some px ->
  dict_get (st_prices s) (key y) = Some py ->
  py < px.
Proof.
  intros Hclean Hx Hy Hprod Hcx Hv Hdx Hdy Hlt Hpx Hpy.
  assert (Hne : x <> y) by (intros ->; rewrite Hdx in Hdy; injection Hdy; lia).
  destruct (clean_report_pair s x y Hclean Hx Hy Hne)
    as (px' & py' & rx' & ry' & Hpx' & Hpy' & _ & _ & _ & _ & _ & Hc).
  rewrite Hpx in Hpx'. injection Hpx' as <-.
  rewrite Hpy in Hpy'. injection Hpy' as <-.
  pose proof (deductible_order_clean s x y px py dx dy Hc Hprod Hcx Hv Hdx Hdy
                ltac:(lia)) as F.
  replace (dx <? dy) with true in F by (symmetry; apply Z.ltb_lt; lia).
  exact F.
Qed.

(** A clean table of five entries, on which the four rules are read. *)
Lemma clean_report_core_cheapest_witness :
  let s := Examples.store_of
             [("mtpl", 400); ("limited_casco_basic_100", 500); ("casco_basic_100", 900);
              ("casco_basic_200", 800); ("casco_comfort_100", 950)] in
  snd (detect_inconsistencies s) = Ok "" /\ 400 < 900.
Proof.
  split; [vm_compute; reflexivity |].
  apply (clean_report_core_cheapest
           (Examples.store_of
              [("mtpl", 400); ("limited_casco_basic_100", 500); ("casco_basic_100", 900);
               ("casco_basic_200", 800); ("casco_comfort_100", 950)])
           (mkPriceElement "mtpl" "mtpl" None None)
           (mkPriceElement "casco_basic_100" "casco" (Some "basic") (Some 100)));
    try (vm_compute; reflexivity).
  - left. reflexivity.
  - right. right. left. reflexivity.
Defined.

Lemma clean_report_product_order_witness :
  let s := Examples.store_of
             [("mtpl", 400); ("limited_casco_basic_100", 500); ("casco_basic_100", 900);
              ("casco_basic_200", 800); ("casco_comfort_100", 950)] in
  snd (detect_inconsistencies s) = Ok "" /\ 500 < 900.
Proof.
  split; [vm_compute; reflexivity |].
  apply (clean_report_product_order
           (Examples.store_of
              [("mtpl", 400); ("limited_casco_basic_100", 500); ("casco_basic_100", 900);
               ("casco_basic_200", 800); ("casco_comfort_100", 950)])
           (mkPriceElement "limited_casco_basic_100" "limited_casco" (Some "basic") (Some 100))
           (mkPriceElement "casco_basic_100" "casco" (Some "basic") (Some 100))
           500 900 2 3);
    try (vm_compute; reflexivity).
  - right. left. reflexivity.
  - right. right. left. reflexivity.
Defined.

Lemma clean_report_variant_order_witness :
  let s := Examples.store_of
             [("mtpl", 400); ("limited_casco_basic_100", 500); ("casco_basic_100", 900);
              ("casco_basic_200", 800); ("casco_comfort_100", 950)] in
  snd (detect_inconsistencies s) = Ok "" /\ 900 < 950.
Proof.
  split; [vm_compute; reflexivity |].
  apply (clean_report_variant_order
           (Examples.store_of
              [("mtpl", 400); ("limited_casco_basic_100", 500); ("casco_basic_100", 900);
               ("casco_basic_200", 800); ("casco_comfort_100", 950)])
           (mkPriceElement "casco_basic_100" "casco" (Some "basic") (Some 100))
           (mkPriceElement "casco_comfort_100" "casco" (Some "comfort") (Some 100))
           900 950 1 2);
    try (vm_compute; reflexivity).
  - right. right. left. reflexivity.
  - right. right. right. right. left. reflexivity.
Defined.

Lemma clean_report_deductible_order_witness :
  let s := Examples.store_of
             [("mtpl", 400); ("limited_casco_basic_100", 500); ("casco_basic_100", 900);
              ("casco_basic_200", 800); ("casco_comfort_100", 950)] in
  snd (detect_inconsistencies s) = Ok "" /\ 800 < 900.
Proof.
  split; [vm_compute; reflexivity |].
  apply (clean_report_deductible_order
           (Examples.store_of
              [("mtpl", 400); ("limited_casco_basic_100", 500); ("casco_basic_100", 900);
               ("casco_basic_200", 800); ("casco_comfort_100", 950)])
           (mkPriceElement "casco_basic_100" "casco" (Some "basic") (Some 100))
           (mkPriceElement "casco_basic_200" "casco" (Some "basic") (Some 200))
           900 800 1 2);
    try (vm_compute; reflexivity).
  - right. right. left. reflexivity.
  - right. right. right. left. reflexivity.
Defined.

(** ** Which exceptions can be raised *)

Lemma get_product_rank_raises (p : string) (e : exn) :
  get_product_rank p = Raise e -> e = KeyError_product p.
Proof.
  unfold get_product_rank. destruct (dict_get product_rank p); congruence.
Qed.

Lemma get_variant_rank_raises (v : option string) (e : exn) :
  get_variant_rank v = Raise e -> e = KeyError_variant v.
Proof.
  unfold get_variant_rank. destruct v as [x |]; [| congruence].
  destruct (dict_get variants_rank x); congruence.
Qed.

Lemma get_deductible_rank_raises (d : option Z) (e : exn) :
  get_deductible_rank d = Raise e -> e = KeyError_deductible d \/ e = ValueError.
Proof.
  unfold get_deductible_rank. destruct d as [x |]; [| left; congruence].
  destruct (zdict_get deductables_rank x); [discriminate |].
  destruct (py_format x) as [t | e'] eqn:E; simpl; intros H; injection H as <-.
  - now left.
  - right. eapply py_format_raises; eassumption.
Qed.

Lemma of_int_raises (n : Z) (e : exn) : Float.of_int n = Raise e -> e = OverflowError.
Proof.
  unfold Float.of_int.
  destruct (binary_normalize Float.prec Float.emax n 0 false); congruence.
Qed.

Lemma int_mul_raises (n : Z) (x : Float.float) (e : exn) :
  Float.int_mul n x = Raise e -> e = OverflowError.
Proof.
  unfold Float.int_mul. destruct (Float.of_int n) eqn:E; simpl; [discriminate |].
  intros H. injection H as <-. eapply of_int_raises; eassumption.
Qed.

Lemma round_raises (x : Float.float) (e : exn) :
  Float.round x = Raise e -> e = OverflowError \/ e = ValueError.
Proof.
  unfold Float.round. destruct x; intros H; try discriminate; injection H as <-; auto.
Qed.

Lemma truediv_nonzero (x y : Float.float) :
  Float.is_zero y = false -> Float.truediv x y = Ok (Float.div x y).
Proof. unfold Float.truediv. now intros ->. Qed.

Lemma int_truediv_raises (n d : Z) (e : exn) :
  d <> 0 -> Float.int_truediv n d = Raise e -> e = OverflowError.
Proof.
  unfold Float.int_truediv. intros Hd.
  destruct d as [| p | p]; [congruence | |]; destruct n; try discriminate;
    match goal with
    | |- context [Float.div ?a ?b] => destruct (Float.div a b)
    end; congruence.
Qed.

Lemma dict_set_in_keys {V : Type} (d : list (string * V)) (k k' : string) (v : V) :
  In k (map fst d) -> In k (map fst (dict_set d k' v)).
Proof.
  induction d as [| [k0 v0] rest IH]; simpl; [contradiction |].
  destruct (String.eqb k0 k'); simpl; intros [H | H]; auto.
Qed.

(** The deductible of an element of a built list was read by [int], so
    [repr] can write it. *)
Lemma built_deductible_formats (prices : list (string * Z)) (items : list PriceElement)
    (it : PriceElement) (d : Z) :
  build_price_items prices = Ok items -> In it items -> deductible it = Some d ->
  py_format d = Ok (py_str d).
Proof.
  intros Hbuild Hin Hd.
  apply build_price_items_ok in Hbuild.
  assert (Hit : exists k, build_item k = Ok it).
  { induction Hbuild as [| x kv its kvs Hx _ IH]; [destruct Hin |].
    destruct Hin as [<- | Hin]; [now exists (fst kv) | now apply IH]. }
  destruct Hit as [k Hk]. unfold build_item in Hk.
  destruct (is_core_product k).
  - injection Hk as <-. discriminate.
  - apply parse_price_key_ok in Hk. destruct Hk as (v & tok & d' & E & _ & Hint & _).
    rewrite E in Hd. simpl in Hd. injection Hd as <-.
    eapply py_int_formats; eassumption.
Qed.

Lemma built_rank_error (prices : list (string * Z)) (items : list PriceElement) (e : exn) :
  build_price_items prices = Ok items -> rank_error_of items e -> e <> ValueError.
Proof.
  intros Hbuild (it & Hin & [H | [_ [H | H]]]).
  - apply get_product_rank_raises in H. subst. discriminate.
  - apply get_variant_rank_raises in H. subst. discriminate.
  - unfold get_deductible_rank in H. destruct (deductible it) as [d |] eqn:Hd.
    + destruct (zdict_get deductables_rank d); [discriminate |].
      rewrite (built_deductible_formats _ _ _ _ Hbuild Hin Hd) in H. simpl in H.
      injection H as <-. discriminate.
    + injection H as <-. discriminate.
Qed.

Lemma order_line_raises (rule : string) (cheap dear : PriceElement)
    (cheap_price dear_price : Z) (e : exn) :
  order_line rule cheap cheap_price dear dear_price = Raise e ->
  py_format cheap_price = Raise e \/ py_format dear_price = Raise e.
Proof.
  unfold order_line.
  destruct (py_format cheap_price) as [p1 | e1]; simpl; [| intros H; now left].
  destruct (py_format dear_price) as [p2 | e2]; simpl; [discriminate | intros H; now right].
Qed.

Lemma report_line_raises (report : list string) (line : result string) (e : exn) :
  report_line report line = Raise e -> line = Raise e.
Proof. unfold report_line. destruct line; simpl; congruence. Qed.

Section Raises.

Variable items : list PriceElement.
Variable I : store -> Prop.
Variable allowed : exn -> Prop.

Hypothesis Hitems : forall s, I s -> st_items s = items.
Hypothesis Hset :
  forall k v s, I s -> I (mkStore (st_items s) (dict_set (st_prices s) k v)).
Hypothesis Hprice :
  forall it s, In it items -> I s ->
    dict_get (st_prices s) (key it) = None -> allowed (KeyError_price (key it)).
Hypothesis Hprod :
  forall it e, In it items -> get_product_rank (product it) = Raise e -> allowed e.
Hypothesis Hvar :
  forall it e, In it items -> is_core_product (product it) = false ->
    get_variant_rank (variant it) = Raise e -> allowed e.
Hypothesis Hded :
  forall it e, In it items -> is_core_product (product it) = false ->
    get_deductible_rank (deductible it) = Raise e -> allowed e.

Lemma ro_ret {A : Type} (a : A) : raises_only I allowed (ret a).
Proof. intros s H. exact H. Qed.

Lemma ro_lift {A : Type} (r : result A) :
  (forall e, r = Raise e -> allowed e) -> raises_only I allowed (lift r).
Proof. intros Hr s H. unfold lift. destruct r; [exact H | now apply Hr]. Qed.

Lemma ro_bind {A B : Type} (m : M A) (k : A -> M B) :
  raises_only I allowed m -> (forall a, raises_only I allowed (k a)) ->
  raises_only I allowed (bind m k).
Proof.
  intros Hm Hk s Hs. unfold bind.
  specialize (Hm s Hs). destruct (m s) as [s' [a | e]].
  - exact (Hk a s' Hm).
  - exact Hm.
Qed.

Lemma ro_foreach {A B : Type} (l : list A) (f : A -> B -> M B) :
  (forall x acc, In x l -> raises_only I allowed (f x acc)) ->
  forall acc, raises_only I allowed (foreach l f acc).
Proof.
  induction l as [| x rest IH]; intros Hf acc; simpl.
  - apply ro_ret.
  - apply ro_bind.
    + apply Hf. now left.
    + intros acc'. apply IH. intros y acc'' Hy. apply Hf. now right.
Qed.

Lemma ro_for_pairs {A B : Type} (l : list A) (f : A -> A -> B -> M B) :
  (forall x y acc, In x l -> In y l -> raises_only I allowed (f x y acc)) ->
  forall acc, raises_only I allowed (for_pairs l f acc).
Proof.
  induction l as [| x rest IH]; intros Hf acc; simpl.
  - apply ro_ret.
  - apply ro_bind.
    + apply ro_foreach. intros y acc' Hy. apply Hf; [now left | now right].
    + intros acc'. apply IH. intros y z acc'' Hy Hz. apply Hf; now right.
Qed.

Lemma ro_price_of (it : PriceElement) : In it items -> raises_only I allowed (price_of (key it)).
Proof.
  intros Hin s Hs. unfold price_of.
  destruct (dict_get (st_prices s) (key it)) eqn:E; [exact Hs |].
  eapply Hprice; eassumption.
Qed.

Lemma ro_set_price (k : string) (v : Z) : raises_only I allowed (set_price k v).
Proof. intros s Hs. unfold set_price. now apply Hset. Qed.

Lemma ro_get_items {B : Type} (k : list PriceElement -> M B) :
  raises_only I allowed (k items) -> raises_only I allowed (bind get_items k).
Proof.
  intros Hk s Hs. unfold bind, get_items. rewrite (Hitems s Hs). now apply Hk.
Qed.

Lemma ro_product_rank (it : PriceElement) :
  In it items -> raises_only I allowed (lift (get_product_rank (product it))).
Proof. intros Hin. apply ro_lift. intros e. now apply Hprod. Qed.

Lemma ro_variant_rank (it : PriceElement) :
  In it items -> is_core_product (product it) = false ->
  raises_only I allowed (lift (get_variant_rank (variant it))).
Proof. intros Hin Hc. apply ro_lift. intros e. now apply Hvar. Qed.

Lemma ro_deductible_rank (it : PriceElement) :
  In it items -> is_core_product (product it) = false ->
  raises_only I allowed (lift (get_deductible_rank (deductible it))).
Proof. intros Hin Hc. apply ro_lift. intros e. now apply Hded. Qed.

(** *** The detector *)

Hypothesis Hfmt :
  forall it p e s, In it items -> I s ->
    dict_get (st_prices s) (key it) = Some p -> py_format p = Raise e -> allowed e.

Lemma ro_price_of_then {B : Type} (it : PriceElement) (k : Z -> M B) :
  In it items ->
  (forall p, read_price I it p -> raises_only I allowed (k p)) ->
  raises_only I allowed (bind (price_of (key it)) k).
Proof.
  intros Hin Hk s Hs. unfold bind, price_of.
  destruct (dict_get (st_prices s) (key it)) as [p |] eqn:E.
  - apply (Hk p); [exists s; now split | exact Hs].
  - eapply Hprice; eassumption.
Qed.

Lemma ro_report_line (rule : string) (a b : PriceElement) (price_a price_b : Z)
    (report : list string) (swap : bool) :
  In a items -> In b items -> read_price I a price_a -> read_price I b price_b ->
  forall e,
    report_line report
      (order_line rule (if swap then b else a) (if swap then price_b else price_a)
                       (if swap then a else b) (if swap then price_a else price_b))
    = Raise e -> allowed e.
Proof.
  intros Ha Hb (sa & Hsa & Hpa) (sb & Hsb & Hpb) e H.
  apply report_line_raises in H. apply order_line_raises in H.
  destruct swap, H as [H | H];
    first [exact (Hfmt a _ _ _ Ha Hsa Hpa H) | exact (Hfmt b _ _ _ Hb Hsb Hpb H)].
Qed.

Lemma ro_check_product_order (a b : PriceElement) (price_a price_b pa pb : Z)
    (report : list string) :
  In a items -> In b items -> read_price I a price_a -> read_price I b price_b ->
  raises_only I allowed (lift (check_product_order a b price_a price_b pa pb report)).
Proof.
  intros Ha Hb Hpa Hpb. apply ro_lift. intros e. unfold check_product_order.
  destruct (negb (pa =? pb)); [| discriminate]. cbv zeta.
  match goal with |- context [if ?c then report_line _ _ else _] => destruct c end;
    [| discriminate].
  destruct (pa <? pb).
  - now apply (ro_report_line _ a b price_a price_b report false).
  - now apply (ro_report_line _ a b price_a price_b report true).
Qed.

Lemma ro_check_cross_product_order (a b : PriceElement) (price_a price_b pa pb : Z)
    (report : list string) :
  In a items -> In b items -> read_price I a price_a -> read_price I b price_b ->
  raises_only I allowed
    (lift (check_cross_product_order a b price_a price_b pa pb report)).
Proof.
  intros Ha Hb Hpa Hpb. apply ro_lift. intros e. unfold check_cross_product_order.
  match goal with |- context [if ?c then _ else Ok report] => destruct c end;
    [| discriminate].
  cbv zeta.
  match goal with |- context [if ?c then report_line _ _ else _] => destruct c end;
    [| discriminate].
  destruct (pa <? pb).
  - now apply (ro_report_line _ a b price_a price_b report false).
  - now apply (ro_report_line _ a b price_a price_b report true).
Qed.

Lemma ro_check_variant_order (a b : PriceElement) (price_a price_b : Z)
    (report : list string) :
  In a items -> In b items -> read_price I a price_a -> read_price I b price_b ->
  raises_only I allowed (check_variant_order a b price_a price_b report).
Proof.
  intros Ha Hb Hpa Hpb. unfold check_variant_order.
  destruct (String.eqb (product a) (product b)); [| apply ro_ret].
  destruct (is_core_product (product a)) eqn:Hca; [apply ro_ret |].
  destruct (is_core_product (product b)) eqn:Hcb; [apply ro_ret |].
  cbn [negb andb].
  destruct (deductible_eqb (deductible a) (deductible b)); [| apply ro_ret].
  apply ro_bind; [now apply ro_variant_rank | intros va].
  apply ro_bind; [now apply ro_variant_rank | intros vb].
  destruct (negb (va =? vb)); [| apply ro_ret]. cbv zeta.
  match goal with |- context [if ?c then lift _ else _] => destruct c end;
    [| apply ro_ret].
  apply ro_lift. intros e. destruct (va <? vb).
  - now apply (ro_report_line _ a b price_a price_b report false).
  - now apply (ro_report_line _ a b price_a price_b report true).
Qed.

Lemma ro_check_deductible_order (a b : PriceElement) (price_a price_b : Z)
    (report : list string) :
  In a items -> In b items -> read_price I a price_a -> read_price I b price_b ->
  raises_only I allowed (check_deductible_order a b price_a price_b report).
Proof.
  intros Ha Hb Hpa Hpb. unfold check_deductible_order.
  destruct (String.eqb (product a) (product b)); [| apply ro_ret].
  destruct (is_core_product (product a)) eqn:Hca; [apply ro_ret |].
  destruct (is_core_product (product b)) eqn:Hcb; [apply ro_ret |].
  cbn [negb andb].
  destruct (variant_eqb (variant a) (variant b)); [| apply ro_ret].
  apply ro_bind; [now apply ro_deductible_rank | intros da].
  apply ro_bind; [now apply ro_deductible_rank | intros db].
  destruct (negb (da =? db)); [| apply ro_ret]. cbv zeta.
  match goal with |- context [if ?c then lift _ else _] => destruct c end;
    [| apply ro_ret].
  apply ro_lift. intros e. destruct (da <? db).
  - now apply (ro_report_line _ a b price_a price_b report true).
  - now apply (ro_report_line _ a b price_a price_b report false).
Qed.

Lemma ro_detect_pair (a b : PriceElement) (report : list string) :
  In a items -> In b items -> raises_only I allowed (detect_pair a b report).
Proof.
  intros Ha Hb. unfold detect_pair.
  apply ro_price_of_then; [exact Ha | intros price_a Hpa].
  apply ro_price_of_then; [exact Hb | intros price_b Hpb].
  apply ro_bind; [now apply ro_product_rank | intros pa].
  apply ro_bind; [now apply ro_product_rank | intros pb].
  apply ro_bind; [now apply ro_check_product_order | intros report1].
  apply ro_bind; [now apply ro_check_cross_product_order | intros report2].
  apply ro_bind; [now apply ro_check_variant_order | intros report3].
  now apply ro_check_deductible_order.
Qed.

Lemma ro_detect_inconsistencies : raises_only I allowed detect_inconsistencies.
Proof.
  unfold detect_inconsistencies, detect_lines.
  apply ro_bind; [| intros; apply ro_ret].
  apply ro_get_items. apply ro_for_pairs. intros x y acc Hx Hy. now apply ro_detect_pair.
Qed.

(** *** The repair of [modified_version.py] *)

Hypothesis Hover : allowed OverflowError.
Hypothesis Hval : allowed ValueError.

Lemma ro_int_mul (n : Z) (x : Float.float) :
  raises_only I allowed (lift (Float.int_mul n x)).
Proof. apply ro_lift. intros e He. apply int_mul_raises in He. now subst. Qed.

Lemma ro_round (x : Float.float) : raises_only I allowed (lift (Float.round x)).
Proof. apply ro_lift. intros e He. apply round_raises in He. destruct He; now subst. Qed.

Lemma ro_int_truediv (n d : Z) :
  d <> 0 -> raises_only I allowed (lift (Float.int_truediv n d)).
Proof.
  intros Hd. apply ro_lift. intros e He. apply int_truediv_raises in He; [| exact Hd].
  now subst.
Qed.

Lemma ro_write_if_new (it : PriceElement) (new_val : Z) (changed : bool) :
  In it items -> raises_only I allowed (Modified.write_if_new it new_val changed).
Proof.
  intros Hin. unfold Modified.write_if_new.
  apply ro_bind; [now apply ro_price_of | intros p].
  destruct (negb (new_val =? p)); [| apply ro_ret].
  apply ro_bind; [apply ro_set_price | intros; apply ro_ret].
Qed.

Lemma ro_scale_product (product' : string) (factor : Float.float) :
  raises_only I allowed (Modified.scale_product items product' factor).
Proof.
  unfold Modified.scale_product. apply ro_foreach. intros it changed Hin.
  destruct (String.eqb (product it) product'); [| apply ro_ret].
  apply ro_bind; [now apply ro_price_of | intros p].
  apply ro_bind; [apply ro_int_mul | intros x].
  apply ro_bind; [apply ro_round | intros v].
  now apply ro_write_if_new.
Qed.

Lemma ro_min_price_in_group (product' : string) :
  raises_only I allowed
    (Modified.min_price_in_group items (fun it => Ok (String.eqb (product it) product'))).
Proof.
  unfold Modified.min_price_in_group. apply ro_foreach. intros it mn Hin.
  apply ro_bind; [apply ro_lift; discriminate | intros sel].
  destruct sel; [| apply ro_ret].
  apply ro_bind; [now apply ro_price_of | intros; apply ro_ret].
Qed.

Lemma ro_fix_product_order (avg_prices : list (string * Float.float))
    (lower higher : PriceElement) (changed : bool) :
  In lower items -> In higher items ->
  raises_only I allowed (Modified.fix_product_order items avg_prices lower higher changed).
Proof.
  intros Hl Hh. unfold Modified.fix_product_order.
  apply ro_bind; [now apply ro_price_of | intros lower_price].
  apply ro_bind; [now apply ro_price_of | intros higher_price].
  cbv zeta.
  destruct (dict_get avg_prices (product lower)) as [avg_low |]; [| apply ro_ret].
  destruct (dict_get avg_prices (product higher)) as [avg_high |]; [| apply ro_ret].
  destruct (Float.is_zero avg_low) eqn:Hz; [apply ro_ret |].
  rewrite (truediv_nonzero _ _ Hz).
  apply ro_bind; [apply ro_lift; discriminate | intros ratio].
  destruct (lower_price >=? higher_price); [| apply ro_ret].
  apply ro_bind.
  - match goal with |- context [if ?c then _ else _] => destruct c end; [| apply ro_ret].
    apply ro_bind; [now apply ro_price_of | intros old_h].
    apply ro_bind; [apply ro_int_mul | intros x].
    apply ro_bind; [apply ro_round | intros new_h].
    destruct (Z.eqb_spec old_h 0) as [Hz0 | Hnz]; [apply ro_ret |].
    cbn [negb].
    apply ro_bind; [now apply ro_int_truediv | intros factor].
    apply ro_bind; [apply ro_set_price | intros _].
    apply ro_bind; [apply ro_scale_product | intros; apply ro_ret].
  - intros changed'.
    match goal with |- context [if ?c then _ else _] => destruct c end; [| apply ro_ret].
    apply ro_bind; [apply ro_min_price_in_group | intros old_min].
    destruct old_min as [old_min' |]; [| apply ro_ret].
    destruct (Z.eqb_spec old_min' 0) as [Hz0 | Hnz]; [apply ro_ret |].
    cbn [negb].
    apply ro_bind; [apply ro_int_mul | intros x].
    apply ro_bind; [apply ro_round | intros new_min].
    apply ro_bind; [now apply ro_int_truediv | intros factor].
    apply ro_bind; [apply ro_scale_product | intros; apply ro_ret].
Qed.

(** The elements of a group are elements of the list, and none is core. *)
Lemma in_group (sel : PriceElement -> bool) (it : PriceElement) (p : string) :
  In it (Modified.group_items items
           (fun it => String.eqb (product it) p && negb (is_core_product (product it))
                      && sel it)) ->
  In it items /\ is_core_product (product it) = false.
Proof.
  unfold Modified.group_items. intros H. apply filter_In in H. destruct H as [Hin H].
  split; [exact Hin |].
  apply andb_prop in H. destruct H as [H _]. apply andb_prop in H. destruct H as [_ H].
  now apply negb_true_iff.
Qed.

Lemma ro_fix_deductible_order (a b : PriceElement) (u v : Z) (changed : bool) :
  In a items -> In b items ->
  raises_only I allowed
    (Modified.fix_deductible_order items a b (Some u) (Some v) changed).
Proof.
  intros Ha Hb. unfold Modified.fix_deductible_order, Modified.rank_lt.
  apply ro_bind; [apply ro_ret | intros lt].
  cbv zeta.
  apply ro_bind; [destruct lt; now apply ro_price_of | intros lower_price].
  apply ro_bind; [destruct lt; now apply ro_price_of | intros higher_price].
  destruct (lower_price <=? higher_price); [| apply ro_ret].
  apply ro_bind.
  - unfold Modified.max_price_in_group. apply ro_foreach. intros it mx Hin.
    apply in_group in Hin. destruct Hin as [Hin Hc].
    apply ro_bind.
    + apply ro_lift. intros e He.
      destruct (get_deductible_rank (deductible it)) eqn:E; [discriminate |].
      simpl in He. injection He as <-. eapply Hded; eassumption.
    + intros sel. destruct sel; [| apply ro_ret].
      apply ro_bind; [now apply ro_price_of | intros; apply ro_ret].
  - intros base. destruct base as [base' |]; [| apply ro_ret].
    apply ro_bind; [| intros; apply ro_ret].
    unfold Modified.apply_deductible_schedule. apply ro_foreach. intros it c Hin.
    apply in_group in Hin. destruct Hin as [Hin Hc].
    apply ro_bind; [now apply ro_deductible_rank | intros r].
    apply ro_bind; [apply ro_int_mul | intros x].
    apply ro_bind; [apply ro_round | intros new_price].
    now apply ro_write_if_new.
Qed.

Lemma ro_fix_variant_order (a b : PriceElement) (u v : Z) (changed : bool) :
  In a items -> In b items ->
  raises_only I allowed
    (Modified.fix_variant_order items a b (Some u) (Some v) changed).
Proof.
  intros Ha Hb. unfold Modified.fix_variant_order, Modified.rank_lt.
  apply ro_bind; [apply ro_ret | intros lt].
  cbv zeta.
  apply ro_bind; [destruct lt; now apply ro_price_of | intros lower_price].
  apply ro_bind; [destruct lt; now apply ro_price_of | intros higher_price].
  destruct (lower_price >=? higher_price); [| apply ro_ret].
  apply ro_bind.
  - unfold Modified.max_price_in_group. apply ro_foreach. intros it mx Hin.
    apply in_group in Hin. destruct Hin as [Hin Hc].
    apply ro_bind.
    + apply ro_lift. intros e He.
      destruct (get_variant_rank (variant it)) eqn:E; [discriminate |].
      simpl in He. injection He as <-. eapply Hvar; eassumption.
    + intros sel. destruct sel; [| apply ro_ret].
      apply ro_bind; [now apply ro_price_of | intros; apply ro_ret].
  - intros base. destruct base as [base' |]; [| apply ro_ret].
    apply ro_bind; [| intros; apply ro_ret].
    unfold Modified.apply_variant_schedule. apply ro_foreach. intros it c Hin.
    apply in_group in Hin. destruct Hin as [Hin Hc].
    apply ro_bind; [now apply ro_variant_rank | intros r].
    apply ro_bind; [apply ro_int_mul | intros x].
    apply ro_bind; [apply ro_round | intros new_price].
    now apply ro_write_if_new.
Qed.

(** [None if core else rank], followed by what uses it. *)
Lemma ro_rank_unless_core {B : Type} (core : bool) (r : result Z) (k : option Z -> M B) :
  (core = false -> forall e, r = Raise e -> allowed e) ->
  (core = true -> raises_only I allowed (k None)) ->
  (core = false -> forall v, raises_only I allowed (k (Some v))) ->
  raises_only I allowed (bind (Modified.rank_unless_core core r) k).
Proof.
  intros Hr Hnone Hsome. unfold Modified.rank_unless_core.
  destruct core.
  - intros s Hs. unfold bind, ret. now apply Hnone.
  - intros s Hs. unfold bind, lift, ret. destruct r as [v | e].
    + now apply Hsome.
    + now apply Hr.
Qed.

Lemma ro_fix_pair (avg_prices : list (string * Float.float))
    (a b : PriceElement) (changed : bool) :
  In a items -> In b items ->
  raises_only I allowed (Modified.fix_pair items avg_prices a b changed).
Proof.
  intros Ha Hb. unfold Modified.fix_pair.
  apply ro_bind; [now apply ro_product_rank | intros pa].
  apply ro_bind; [now apply ro_product_rank | intros pb].
  cbv zeta.
  assert (Hprod_branch :
    forall c, raises_only I allowed
      (Modified.fix_product_order items avg_prices
         (if pa <? pb then a else b) (if pa <? pb then b else a) c)).
  { intros c. destruct (pa <? pb); now apply ro_fix_product_order. }
  apply ro_rank_unless_core; [intros Hc e; now apply Hvar | intros Hca | intros Hca va];
  (apply ro_rank_unless_core; [intros Hc e; now apply Hvar | intros Hcb | intros Hcb vb]);
  (apply ro_rank_unless_core; [intros Hc e; now apply Hded | intros Hca' | intros Hca' da];
   try congruence);
  (apply ro_rank_unless_core; [intros Hc e; now apply Hded | intros Hcb' | intros Hcb' db];
   try congruence);
  (apply ro_bind; [now apply ro_price_of | intros price_a]);
  (apply ro_bind; [now apply ro_price_of | intros price_b]);
  (destruct (negb (pa =? pb)); [apply Hprod_branch |]);
  rewrite ?Hca, ?Hcb; cbn [negb andb];
  try (apply ro_bind; [apply ro_ret | intros; apply ro_ret]).
  apply ro_bind.
  - match goal with |- context [if ?c then _ else _] => destruct c end;
      [now apply ro_fix_deductible_order | apply ro_ret].
  - intros changed'.
    match goal with |- context [if ?c then _ else _] => destruct c end;
      [now apply ro_fix_variant_order | apply ro_ret].
Qed.

Lemma ro_fix_pass (avg_prices : list (string * Float.float)) :
  raises_only I allowed (Modified.fix_pass avg_prices).
Proof.
  unfold Modified.fix_pass. apply ro_get_items. apply ro_for_pairs.
  intros x y acc Hx Hy. now apply ro_fix_pair.
Qed.

Lemma ro_fix_loop (avg_prices : list (string * Float.float)) (budget : nat) :
  raises_only I allowed (Modified.fix_loop avg_prices budget).
Proof.
  induction budget as [| budget' IH]; simpl; [apply ro_ret |].
  apply ro_bind; [apply ro_fix_pass | intros changed].
  destruct changed; [| apply ro_ret].
  apply ro_bind; [exact IH | intros; apply ro_ret].
Qed.

Lemma ro_fix_products_inplace (avg_prices : list (string * Float.float)) (max_iters : Z) :
  raises_only I allowed (Modified.fix_products_inplace avg_prices max_iters).
Proof.
  unfold Modified.fix_products_inplace.
  apply ro_bind; [apply ro_fix_loop | intros; apply ro_ret].
Qed.

End Raises.

(** X13. On the list that [build_price_items] made of a table, the
    detector never fails to find a price: it returns a report, or it
    raises the [KeyError] of a rank lookup that failed on an element of
    the list (an unknown product, or the unknown variant or deductible of
    a non-core element; the handler of [get_deductible_rank] can write the
    deductible, which [int] has read), or the [ValueError] of a report
    line that shows a price of more than [int_max_str_digits] digits. *)
Theorem detect_after_build (prices : list (string * Z)) (items : list PriceElement) :
  build_price_items prices = Ok items ->
  match snd (detect_inconsistencies (mkStore items prices)) with
  | Ok _ => True
  | Raise e =>
      (rank_error_of items e /\ e <> ValueError)
      \/ format_error_of (mkStore items prices) e
  end.
Proof.
  intros Hbuild.
  pose proof (build_price_items_keys _ _ Hbuild) as Hkeys.
  pose proof (ro_detect_inconsistencies items (eq (mkStore items prices))
                (fun e => rank_error_of items e
                          \/ format_error_of (mkStore items prices) e)) as H.
  cbv beta in H.
  specialize (H (fun s Hs => ltac:(now subst s))).
  assert (Hp : forall it s, In it items -> mkStore items prices = s ->
                 dict_get (st_prices s) (key it) = None ->
                 rank_error_of items (KeyError_price (key it))
                 \/ format_error_of (mkStore items prices) (KeyError_price (key it))).
  { intros it s Hin <- Hnone. simpl in Hnone.
    destruct (dict_get_of_key prices (key it)) as [v Hv]; [| congruence].
    rewrite <- Hkeys. now apply in_map. }
  specialize (H Hp). clear Hp.
  assert (Hr1 : forall it e, In it items ->
                  get_product_rank (product it) = Raise e ->
                  rank_error_of items e \/ format_error_of (mkStore items prices) e).
  { intros it e Hin He. left. exists it. auto. }
  assert (Hr2 : forall it e, In it items -> is_core_product (product it) = false ->
                  get_variant_rank (variant it) = Raise e ->
                  rank_error_of items e \/ format_error_of (mkStore items prices) e).
  { intros it e Hin Hc He. left. exists it. auto. }
  assert (Hr3 : forall it e, In it items -> is_core_product (product it) = false ->
                  get_deductible_rank (deductible it) = Raise e ->
                  rank_error_of items e \/ format_error_of (mkStore items prices) e).
  { intros it e Hin Hc He. left. exists it. auto. }
  assert (Hf : forall it p e s, In it items -> mkStore items prices = s ->
                 dict_get (st_prices s) (key it) = Some p -> py_format p = Raise e ->
                 rank_error_of items e \/ format_error_of (mkStore items prices) e).
  { intros it p e s Hin <- Hget He. right.
    pose proof (py_format_raises _ _ He) as ->.
    split; [reflexivity |]. exists it, p. auto. }
  specialize (H Hr1 Hr2 Hr3 Hf (mkStore items prices) eq_refl).
  destruct (detect_inconsistencies (mkStore items prices)) as [s' [r | e]]; simpl;
    [exact I |].
  destruct H as [Hrank | Hformat]; [left | now right].
  split; [exact Hrank | eapply built_rank_error; eassumption].
Qed.

(** A table with a product that the rank table does not know. *)
Lemma detect_after_build_witness :
  let prices := [("casco_basic_100", 100); ("van_basic_100", 90)] in
  let items := [mkPriceElement "casco_basic_100" "casco" (Some "basic") (Some 100);
                mkPriceElement "van_basic_100" "van" (Some "basic") (Some 100)] in
  build_price_items prices = Ok items
  /\ snd (detect_inconsistencies (mkStore items prices)) = Raise (KeyError_product "van")
  /\ match snd (detect_inconsistencies (mkStore items prices)) with
     | Ok _ => True
     | Raise e =>
         (rank_error_of items e /\ e <> ValueError)
         \/ format_error_of (mkStore items prices) e
     end.
Proof.
  split; [reflexivity |]. split; [vm_compute; reflexivity |].
  apply (detect_after_build [("casco_basic_100", 100); ("van_basic_100", 90)]).
  reflexivity.
Defined.

(** X14. When every element of the list resolves (its product is known,
    its variant and deductible are known unless it is core, and its key
    is in the table) and every price of an element can be shown (it has
    at most 4300 digits), the detector returns a report. *)
Theorem detect_inconsistencies_returns (s : store) :
  (forall x, In x (st_items s) -> resolves s x = true) ->
  prices_format s ->
  exists report, detect_inconsistencies s = (s, Ok report).
Proof.
  intros Hres Hformat.
  pose proof (ro_detect_inconsistencies (st_items s) (eq s) (fun _ => False)) as H.
  specialize (H (fun s0 Hs => ltac:(now subst s0))).
  assert (Hp : forall it s0, In it (st_items s) -> s = s0 ->
                 dict_get (st_prices s0) (key it) = None -> False).
  { intros it s0 Hin <- Hnone.
    destruct (resolves_inv _ _ (Hres it Hin)) as (_ & [p Hp] & _). congruence. }
  specialize (H Hp). clear Hp.
  assert (Hr1 : forall it e, In it (st_items s) ->
                  get_product_rank (product it) = Raise e -> False).
  { intros it e Hin He.
    destruct (resolves_inv _ _ (Hres it Hin)) as ([p Hp] & _). congruence. }
  assert (Hr2 : forall it e, In it (st_items s) -> is_core_product (product it) = false ->
                  get_variant_rank (variant it) = Raise e -> False).
  { intros it e Hin Hc He.
    destruct (resolves_inv _ _ (Hres it Hin)) as (_ & _ & Hranks).
    destruct (Hranks Hc) as [[v Hv] _]. congruence. }
  assert (Hr3 : forall it e, In it (st_items s) -> is_core_product (product it) = false ->
                  get_deductible_rank (deductible it) = Raise e -> False).
  { intros it e Hin Hc He.
    destruct (resolves_inv _ _ (Hres it Hin)) as (_ & _ & Hranks).
    destruct (Hranks Hc) as [_ [d Hd]]. congruence. }
  assert (Hf : forall it p e s0, In it (st_items s) -> s = s0 ->
                 dict_get (st_prices s0) (key it) = Some p -> py_format p = Raise e ->
                 False).
  { intros it p e s0 Hin <- Hget He.
    pose proof (Hformat it p Hin Hget) as F. rewrite He in F. discriminate. }
  specialize (H Hr1 Hr2 Hr3 Hf s eq_refl).
  destruct (detect_inconsistencies s) as [s' [r | e]]; [| contradiction].
  subst s'. now exists r.
Qed.

Lemma detect_inconsistencies_returns_witness :
  let s := Examples.store_of [("mtpl", 400); ("casco_basic_100", 300)] in
  exists report, detect_inconsistencies s = (s, Ok report).
Proof.
  apply (detect_inconsistencies_returns
           (Examples.store_of [("mtpl", 400); ("casco_basic_100", 300)])).
  - intros x Hx. simpl in Hx. destruct Hx as [<- | [<- | []]]; reflexivity.
  - intros it price Hin Hget. simpl in Hin.
    destruct Hin as [<- | [<- | []]]; vm_compute in Hget; injection Hget as <-;
      reflexivity.
Defined.

(** With a core price of more than [int_max_str_digits] digits every
    element resolves, and the line that would show the price raises. *)
Example detect_unformattable_price (p : Z) :
  10 ^ int_max_str_digits <= p ->
  let s := Examples.store_of [("mtpl", p); ("casco_basic_100", 5)] in
  forallb (resolves s) (st_items s) = true
  /\ snd (detect_inconsistencies s) = Raise ValueError.
Proof.
  intros Hp s. pose proof pow10_cap_large as Hk.
  split; [reflexivity |].
  assert (Hfmt : py_format p = Raise ValueError).
  { rewrite py_format_cap.
    replace (10 ^ int_max_str_digits <=? Z.abs p) with true
      by (symmetry; apply Z.leb_le; lia).
    reflexivity. }
  assert (Hge : (p >=? 5) = true) by (apply Z.geb_le; lia).
  subst s.
  change (Examples.store_of [("mtpl", p); ("casco_basic_100", 5)])
    with (mkStore [mkPriceElement "mtpl" "mtpl" None None;
                   mkPriceElement "casco_basic_100" "casco" (Some "basic") (Some 100)]
                  [("mtpl", p); ("casco_basic_100", 5)]).
  set (a := mkPriceElement "mtpl" "mtpl" None None).
  set (b := mkPriceElement "casco_basic_100" "casco" (Some "basic") (Some 100)).
  set (s := mkStore [a; b] [("mtpl", p); ("casco_basic_100", 5)]).
  assert (Hpair : detect_pair a b [] s = (s, Raise ValueError)).
  { unfold detect_pair, bind, price_of, lift.
    change (dict_get (st_prices s) (key a)) with (Some p).
    change (dict_get (st_prices s) (key b)) with (Some 5).
    change (get_product_rank (product a)) with (Ok 1).
    change (get_product_rank (product b)) with (Ok 3).
    cbv iota beta.
    assert (Hline : check_product_order a b p 5 1 3 [] = Raise ValueError).
    { unfold check_product_order.
      change (negb (1 =? 3)) with true. change (1 <? 3) with true. cbv iota zeta.
      change (is_core_product (product a)) with true. cbn [andb].
      rewrite Hge. unfold report_line, order_line. rewrite Hfmt. reflexivity. }
    rewrite Hline. reflexivity. }
  unfold detect_inconsistencies, detect_lines, bind, get_items.
  change (st_items s) with [a; b]. cbn [for_pairs foreach].
  unfold bind. rewrite Hpair. reflexivity.
Qed.

Lemma covered_set_price (items : list PriceElement) (k : string) (v : Z) (s : store) :
  (forall it, In it items -> In (key it) (keys s)) ->
  forall it, In it items ->
    In (key it) (keys (mkStore (st_items s) (dict_set (st_prices s) k v))).
Proof.
  intros H it Hin. unfold keys. simpl. apply dict_set_in_keys. now apply H.
Qed.

(** X15. The repair of [modified_version.py] never raises
    [ZeroDivisionError], [TypeError] or [UnboundLocalError], on any list,
    table, averages and budget: every division is guarded and every local
    is bound before it is read.  When every element of the list has its
    key in the table, as after [build_price_items], it never raises the
    [KeyError] of a price either. *)
Theorem modified_repair_exceptions
    (avg_prices : list (string * Float.float)) (max_iters : Z) (s s' : store) (e : exn) :
  Modified.fix_products_inplace avg_prices max_iters s = (s', Raise e) ->
  (e <> ZeroDivisionError /\ e <> TypeError /\ e <> UnboundLocalError)
  /\ (covered s -> forall k, e <> KeyError_price k).
Proof.
  intros H. split.
  - pose proof (ro_fix_products_inplace (st_items s)
                  (fun s0 => st_items s0 = st_items s)
                  (fun e => e <> ZeroDivisionError /\ e <> TypeError
                            /\ e <> UnboundLocalError)) as R.
    specialize (R (fun s0 Hs => Hs) (fun k v s0 Hs => Hs)).
    assert (H1 : forall (it : PriceElement) (s0 : store), In it (st_items s) ->
              st_items s0 = st_items s -> dict_get (st_prices s0) (key it) = None ->
              KeyError_price (key it) <> ZeroDivisionError
              /\ KeyError_price (key it) <> TypeError
              /\ KeyError_price (key it) <> UnboundLocalError)
      by (intros; repeat split; discriminate).
    assert (H2 : forall (it : PriceElement) (e0 : exn), In it (st_items s) ->
              get_product_rank (product it) = Raise e0 ->
              e0 <> ZeroDivisionError /\ e0 <> TypeError /\ e0 <> UnboundLocalError).
    { intros it e0 _ He. apply get_product_rank_raises in He. subst.
      repeat split; discriminate. }
    assert (H3 : forall (it : PriceElement) (e0 : exn), In it (st_items s) ->
              is_core_product (product it) = false ->
              get_variant_rank (variant it) = Raise e0 ->
              e0 <> ZeroDivisionError /\ e0 <> TypeError /\ e0 <> UnboundLocalError).
    { intros it e0 _ _ He. apply get_variant_rank_raises in He. subst.
      repeat split; discriminate. }
    assert (H4 : forall (it : PriceElement) (e0 : exn), In it (st_items s) ->
              is_core_product (product it) = false ->
              get_deductible_rank (deductible it) = Raise e0 ->
              e0 <> ZeroDivisionError /\ e0 <> TypeError /\ e0 <> UnboundLocalError).
    { intros it e0 _ _ He. apply get_deductible_rank_raises in He.
      destruct He; subst; repeat split; discriminate. }
    specialize (R H1 H2 H3 H4 ltac:(repeat split; discriminate)
                  ltac:(repeat split; discriminate) avg_prices max_iters s eq_refl).
    rewrite H in R. exact R.
  - intros Hcov.
    pose proof (ro_fix_products_inplace (st_items s)
                  (fun s0 => st_items s0 = st_items s
                             /\ forall it, In it (st_items s) -> In (key it) (keys s0))
                  (fun e => forall k, e <> KeyError_price k)) as R.
    specialize (R (fun s0 Hs => proj1 Hs)).
    assert (H0 : forall (k : string) (v : Z) (s0 : store),
              st_items s0 = st_items s
              /\ (forall it, In it (st_items s) -> In (key it) (keys s0)) ->
              st_items (mkStore (st_items s0) (dict_set (st_prices s0) k v)) = st_items s
              /\ (forall it, In it (st_items s) ->
                    In (key it) (keys (mkStore (st_items s0) (dict_set (st_prices s0) k v))))).
    { intros k v s0 [Hi Hk]. split; [exact Hi |]. now apply covered_set_price. }
    assert (H1 : forall (it : PriceElement) (s0 : store), In it (st_items s) ->
              st_items s0 = st_items s
              /\ (forall it, In it (st_items s) -> In (key it) (keys s0)) ->
              dict_get (st_prices s0) (key it) = None ->
              forall k, KeyError_price (key it) <> KeyError_price k).
    { intros it s0 Hin [_ Hk] Hnone.
      destruct (dict_get_of_key (st_prices s0) (key it) (Hk it Hin)) as [v Hv]. congruence. }
    assert (H2 : forall (it : PriceElement) (e0 : exn), In it (st_items s) ->
              get_product_rank (product it) = Raise e0 ->
              forall k, e0 <> KeyError_price k).
    { intros it e0 _ He. apply get_product_rank_raises in He. subst. discriminate. }
    assert (H3 : forall (it : PriceElement) (e0 : exn), In it (st_items s) ->
              is_core_product (product it) = false ->
              get_variant_rank (variant it) = Raise e0 ->
              forall k, e0 <> KeyError_price k).
    { intros it e0 _ _ He. apply get_variant_rank_raises in He. subst. discriminate. }
    assert (H4 : forall (it : PriceElement) (e0 : exn), In it (st_items s) ->
              is_core_product (product it) = false ->
              get_deductible_rank (deductible it) = Raise e0 ->
              forall k, e0 <> KeyError_price k).
    { intros it e0 _ _ He. apply get_deductible_rank_raises in He.
      destruct He; subst; discriminate. }
    specialize (R H0 H1 H2 H3 H4 ltac:(discriminate) ltac:(discriminate)
                  avg_prices max_iters s (conj eq_refl Hcov)).
    rewrite H in R. exact R.
Qed.

(** Two elements of a product that the rank table does not know. *)
Lemma modified_repair_exceptions_witness :
  let s := mkStore [mkPriceElement "van_basic_100" "van" (Some "basic") (Some 100);
                    mkPriceElement "van_basic_200" "van" (Some "basic") (Some 200)]
                   [("van_basic_100", 100); ("van_basic_200", 90)] in
  Modified.fix_products_inplace Examples.avg_prices 10 s = (s, Raise (KeyError_product "van"))
  /\ (KeyError_product "van" <> ZeroDivisionError /\ KeyError_product "van" <> TypeError
      /\ KeyError_product "van" <> UnboundLocalError)
  /\ (covered s -> forall k, KeyError_product "van" <> KeyError_price k).
Proof.
  split; [vm_compute; reflexivity |].
  apply (modified_repair_exceptions Examples.avg_prices 10
           (mkStore [mkPriceElement "van_basic_100" "van" (Some "basic") (Some 100);
                     mkPriceElement "van_basic_200" "van" (Some "basic") (Some 200)]
                    [("van_basic_100", 100); ("van_basic_200", 90)])
           (mkStore [mkPriceElement "van_basic_100" "van" (Some "basic") (Some 100);
                     mkPriceElement "van_basic_200" "van" (Some "basic") (Some 200)]
                    [("van_basic_100", 100); ("van_basic_200", 90)])).
  vm_compute. reflexivity.
Defined.

(** X16. When every element of the list resolves, the repair of
    [modified_version.py] returns, or it raises [OverflowError] or
    [ValueError]: the only operations left that can fail are the
    conversions between ints and floats, on a value out of range, an
    infinity or a NaN. *)
Theorem modified_repair_float_errors_only
    (avg_prices : list (string * Float.float)) (max_iters : Z) (s s' : store) (e : exn) :
  (forall x, In x (st_items s) -> resolves s x = true) ->
  Modified.fix_products_inplace avg_prices max_iters s = (s', Raise e) ->
  e = OverflowError \/ e = ValueError.
Proof.
  intros Hres H.
  pose proof (ro_fix_products_inplace (st_items s)
                (fun s0 => st_items s0 = st_items s
                           /\ forall it, In it (st_items s) -> In (key it) (keys s0))
                (fun e => e = OverflowError \/ e = ValueError)) as R.
  specialize (R (fun s0 Hs => proj1 Hs)).
  assert (H0 : forall (k : string) (v : Z) (s0 : store),
            st_items s0 = st_items s
            /\ (forall it, In it (st_items s) -> In (key it) (keys s0)) ->
            st_items (mkStore (st_items s0) (dict_set (st_prices s0) k v)) = st_items s
            /\ (forall it, In it (st_items s) ->
                  In (key it) (keys (mkStore (st_items s0) (dict_set (st_prices s0) k v))))).
  { intros k v s0 [Hi Hk]. split; [exact Hi |]. now apply covered_set_price. }
  assert (H1 : forall (it : PriceElement) (s0 : store), In it (st_items s) ->
            st_items s0 = st_items s
            /\ (forall it, In it (st_items s) -> In (key it) (keys s0)) ->
            dict_get (st_prices s0) (key it) = None ->
            KeyError_price (key it) = OverflowError \/ KeyError_price (key it) = ValueError).
  { intros it s0 Hin [_ Hk] Hnone.
    destruct (dict_get_of_key (st_prices s0) (key it) (Hk it Hin)) as [v Hv]. congruence. }
  assert (H2 : forall (it : PriceElement) (e0 : exn), In it (st_items s) ->
            get_product_rank (product it) = Raise e0 ->
            e0 = OverflowError \/ e0 = ValueError).
  { intros it e0 Hin He.
    destruct (resolves_inv _ _ (Hres it Hin)) as ([p Hp] & _). congruence. }
  assert (H3 : forall (it : PriceElement) (e0 : exn), In it (st_items s) ->
            is_core_product (product it) = false ->
            get_variant_rank (variant it) = Raise e0 ->
            e0 = OverflowError \/ e0 = ValueError).
  { intros it e0 Hin Hc He.
    destruct (resolves_inv _ _ (Hres it Hin)) as (_ & _ & Hranks).
    destruct (Hranks Hc) as [[v Hv] _]. congruence. }
  assert (H4 : forall (it : PriceElement) (e0 : exn), In it (st_items s) ->
            is_core_product (product it) = false ->
            get_deductible_rank (deductible it) = Raise e0 ->
            e0 = OverflowError \/ e0 = ValueError).
  { intros it e0 Hin Hc He.
    destruct (resolves_inv _ _ (Hres it Hin)) as (_ & _ & Hranks).
    destruct (Hranks Hc) as [_ [d Hd]]. congruence. }
  assert (Hcov : forall it, In it (st_items s) -> In (key it) (keys s)).
  { intros it Hin. destruct (resolves_inv _ _ (Hres it Hin)) as (_ & [p Hp] & _).
    eapply dict_get_in_keys; eassumption. }
  specialize (R H0 H1 H2 H3 H4 (or_introl eq_refl) (or_intror eq_refl)
                avg_prices max_iters s (conj eq_refl Hcov)).
  rewrite H in R. exact R.
Qed.

(** An infinite average: the scaled price is an infinity, which [round]
    refuses. *)
Lemma modified_repair_float_errors_only_witness :
  let s := Examples.store_of [("limited_casco_basic_100", 100); ("casco_basic_100", 50)] in
  let avg := [("limited_casco", Float.one); ("casco", S754_infinity false)] in
  Modified.fix_products_inplace avg 10 s = (s, Raise OverflowError)
  /\ (OverflowError = OverflowError \/ OverflowError = ValueError).
Proof.
  split; [vm_compute; reflexivity |].
  apply (modified_repair_float_errors_only
           [("limited_casco", Float.one); ("casco", S754_infinity false)] 10
           (Examples.store_of [("limited_casco_basic_100", 100); ("casco_basic_100", 50)])
           (Examples.store_of [("limited_casco_basic_100", 100); ("casco_basic_100", 50)])).
  - intros x Hx. simpl in Hx. destruct Hx as [<- | [<- | []]]; reflexivity.
  - vm_compute. reflexivity.
Defined.

(** ** The locals of [main.py] *)

Lemma main_rank_unless_core_ok (s : store) (core : bool) (r : result Z) :
  core || is_ok r = true ->
  exists v, Main.rank_unless_core core r s = (s, Ok v).
Proof.
  unfold Main.rank_unless_core. destruct core; simpl.
  - intros _. now exists None.
  - destruct r as [v | e]; simpl; [| discriminate]. intros _. now exists (Some v).
Qed.

(** X17. In [main.py] the branch of equal product ranks reads
    [lower_is_core] before any pair of different ranks has bound it: when
    the first two elements of the list have the same product rank and
    their rank lookups return, the repair raises [UnboundLocalError] on
    its first pair, with the table untouched, for every positive budget
    and whatever the prices and the averages are. *)
Theorem main_unbound_local_on_first_pair
    (avg_prices : list (string * Float.float)) (max_iters : Z) (s : store)
    (a b : PriceElement) (rest : list PriceElement) (r : Z) :
  st_items s = a :: b :: rest ->
  0 < max_iters ->
  get_product_rank (product a) = Ok r ->
  get_product_rank (product b) = Ok r ->
  is_core_product (product a)
  || (is_ok (get_variant_rank (variant a)) && is_ok (get_deductible_rank (deductible a)))
  = true ->
  is_core_product (product b)
  || (is_ok (get_variant_rank (variant b)) && is_ok (get_deductible_rank (deductible b)))
  = true ->
  Main.fix_products_inplace avg_prices max_iters s = (s, Raise UnboundLocalError).
Proof.
  intros Hitems Hpos Hra Hrb Ha Hb.
  assert (Hva : is_core_product (product a) || is_ok (get_variant_rank (variant a)) = true).
  { destruct (is_core_product (product a)); [reflexivity |]. simpl in *.
    now apply andb_prop in Ha. }
  assert (Hda : is_core_product (product a)
                || is_ok (get_deductible_rank (deductible a)) = true).
  { destruct (is_core_product (product a)); [reflexivity |]. simpl in *.
    now apply andb_prop in Ha. }
  assert (Hvb : is_core_product (product b) || is_ok (get_variant_rank (variant b)) = true).
  { destruct (is_core_product (product b)); [reflexivity |]. simpl in *.
    now apply andb_prop in Hb. }
  assert (Hdb : is_core_product (product b)
                || is_ok (get_deductible_rank (deductible b)) = true).
  { destruct (is_core_product (product b)); [reflexivity |]. simpl in *.
    now apply andb_prop in Hb. }
  destruct (main_rank_unless_core_ok s _ _ Hva) as [va Eva].
  destruct (main_rank_unless_core_ok s _ _ Hvb) as [vb Evb].
  destruct (main_rank_unless_core_ok s _ _ Hda) as [da Eda].
  destruct (main_rank_unless_core_ok s _ _ Hdb) as [db Edb].
  unfold Main.fix_products_inplace.
  destruct (Z.to_nat max_iters) as [| n] eqn:En; [lia |].
  cbn [Main.fix_loop].
  assert (Hpair : forall l, Main.lower_is_core l = None ->
            Main.fix_pair (st_items s) avg_prices a b l s = (s, Raise UnboundLocalError)).
  { intros l Hl. unfold Main.fix_pair, bind, lift.
    rewrite Hra, Hrb, Eva, Evb, Eda, Edb, Z.eqb_refl. cbn [negb].
    unfold Main.neither_is_core, Main.read_local, bind. rewrite Hl. reflexivity. }
  assert (Hpass : forall l, Main.lower_is_core l = None ->
            Main.fix_pass avg_prices l s = (s, Raise UnboundLocalError)).
  { intros l Hl. unfold Main.fix_pass, get_items. unfold bind at 1.
    pattern (st_items s) at 1. rewrite Hitems. cbn [for_pairs foreach].
    unfold bind. rewrite Hpair by exact Hl. reflexivity. }
  unfold bind. rewrite Hpass by reflexivity. reflexivity.
Qed.

(** The first two entries of the table are two [casco] elements. *)
Lemma main_unbound_local_on_first_pair_witness :
  let s := Examples.store_of
             [("casco_basic_100", 900); ("casco_basic_200", 800); ("mtpl", 400)] in
  Main.fix_products_inplace Examples.avg_prices 10 s = (s, Raise UnboundLocalError).
Proof.
  apply (main_unbound_local_on_first_pair Examples.avg_prices 10
           (Examples.store_of
              [("casco_basic_100", 900); ("casco_basic_200", 800); ("mtpl", 400)])
           (mkPriceElement "casco_basic_100" "casco" (Some "basic") (Some 100))
           (mkPriceElement "casco_basic_200" "casco" (Some "basic") (Some 200))
           [mkPriceElement "mtpl" "mtpl" None None] 3);
    try reflexivity.
Defined.

(** X18. In [main.py] the branch of different product ranks returns with
    [changed] as it found it, whatever it wrote into the table: the
    rewrites of CASE 1 and CASE 2 are never flagged.  It leaves the two
    core flags bound, to those of the pair. *)
Theorem main_product_order_never_flags
    (items : list PriceElement) (avg_prices : list (string * Float.float))
    (lower higher : PriceElement) (l l' : Main.locals) (s s' : store) :
  Main.fix_product_order items avg_prices lower higher l s = (s', Ok l') ->
  Main.changed l' = Main.changed l
  /\ Main.lower_is_core l' = Some (is_core_product (product lower))
  /\ Main.higher_is_core l' = Some (is_core_product (product higher)).
Proof.
  unfold Main.fix_product_order. cbv zeta. intros H.
  apply bind_ok in H. destruct H as (s1 & lower_price & _ & H).
  apply bind_ok in H. destruct H as (s2 & higher_price & _ & H).
  apply bind_ok in H. destruct H as (s3 & ratio & _ & H).
  destruct (lower_price >=? higher_price).
  - apply bind_ok in H. destruct H as (s4 & u1 & _ & H).
    apply bind_ok in H. destruct H as (s5 & u2 & _ & H).
    apply ret_ok in H. destruct H as [_ ->]. repeat split.
  - apply ret_ok in H. destruct H as [_ ->]. repeat split.
Qed.

(** A pair that CASE 2 rewrites: the price 300 becomes 900 and the flag
    stays down. *)
Lemma main_product_order_never_flags_witness :
  let s := Examples.store_of [("mtpl", 400); ("casco_compact_100", 300)] in
  let m := mkPriceElement "mtpl" "mtpl" None None in
  let c := mkPriceElement "casco_compact_100" "casco" (Some "compact") (Some 100) in
  let l' := Main.mkLocals (Some true) (Some false) false in
  Main.fix_product_order (st_items s) Examples.avg_prices m c Examples.initial_locals s
  = (mkStore (st_items s) [("mtpl", 400); ("casco_compact_100", 900)], Ok l')
  /\ Main.changed l' = Main.changed Examples.initial_locals
  /\ Main.lower_is_core l' = Some (is_core_product (product m))
  /\ Main.higher_is_core l' = Some (is_core_product (product c)).
Proof.
  split; [vm_compute; reflexivity |].
  apply (main_product_order_never_flags
           (st_items (Examples.store_of [("mtpl", 400); ("casco_compact_100", 300)]))
           Examples.avg_prices
           (mkPriceElement "mtpl" "mtpl" None None)
           (mkPriceElement "casco_compact_100" "casco" (Some "compact") (Some 100))
           Examples.initial_locals (Main.mkLocals (Some true) (Some false) false)
           (Examples.store_of [("mtpl", 400); ("casco_compact_100", 300)])
           (mkStore (st_items (Examples.store_of [("mtpl", 400); ("casco_compact_100", 300)]))
                    [("mtpl", 400); ("casco_compact_100", 900)])).
  vm_compute. reflexivity.
Defined.

(** ** The extreme price of a group *)

Section Extreme.

Variable pick : Z -> Z -> Z.
Variable within : Z -> Z -> Prop.

Hypothesis pick_one : forall m p, pick m p = m \/ pick m p = p.
Hypothesis within_refl : forall m, within m m.
Hypothesis within_trans : forall a b c, within a b -> within b c -> within a c.
Hypothesis pick_l : forall m p, within m (pick m p).
Hypothesis pick_r : forall m p, within p (pick m p).

Variable predicate : PriceElement -> result bool.
Variable s : store.

Lemma extreme_price_loop (l : list PriceElement) :
  forall (acc mx : option Z) (s' : store),
    foreach l (fun it mx =>
      bind (lift (predicate it)) (fun sel =>
        if sel : bool then
          bind (price_of (key it)) (fun p =>
            ret (Some (match mx with None => p | Some m => pick m p end)))
        else ret mx)) acc s = (s', Ok mx) ->
    s' = s
    /\ match mx with
       | None => acc = None /\ forall it, In it l -> predicate it = Ok false
       | Some m =>
           (acc = Some m
            \/ exists it, In it l /\ predicate it = Ok true
                          /\ dict_get (st_prices s) (key it) = Some m)
           /\ (forall a, acc = Some a -> within a m)
           /\ (forall it p, In it l -> predicate it = Ok true ->
                 dict_get (st_prices s) (key it) = Some p -> within p m)
       end.
Proof.
  induction l as [| it0 rest IH]; intros acc mx s' H; simpl in H.
  - apply ret_ok in H. destruct H as [-> ->]. split; [reflexivity |].
    destruct acc as [m |].
    + split; [now left |]. split.
      * intros a Ha. injection Ha as <-. apply within_refl.
      * intros it p [].
    + split; [reflexivity |]. intros it [].
  - apply bind_ok in H. destruct H as (s1 & acc1 & Hstep & Hrest).
    apply bind_ok in Hstep. destruct Hstep as (s2 & sel & Hsel & Hstep).
    apply lift_ok in Hsel. destruct Hsel as [-> Hsel].
    destruct sel.
    + apply bind_ok in Hstep. destruct Hstep as (s2 & p & Hp & Hstep).
      apply price_of_ok in Hp. destruct Hp as [-> Hp].
      apply ret_ok in Hstep. destruct Hstep as [-> ->].
      apply IH in Hrest. destruct Hrest as (-> & Hmx). split; [reflexivity |].
      destruct mx as [m |]; [| destruct Hmx as [Hmx _]; discriminate].
      destruct Hmx as (Hatt & Hacc & Hall).
      assert (Hpm : within p m).
      { destruct acc as [a |]; [| now apply Hacc].
        eapply within_trans; [apply pick_r | now apply Hacc]. }
      split; [| split].
      * destruct Hatt as [Hatt | (it & Hin & Hsel' & Hprice)].
        -- injection Hatt as Hatt. destruct acc as [a |].
           ++ destruct (pick_one a p) as [E | E]; rewrite E in Hatt.
              ** left. now subst.
              ** right. exists it0. subst. repeat split; auto. now left.
           ++ right. exists it0. subst. repeat split; auto. now left.
        -- right. exists it. repeat split; auto. now right.
      * intros a Ha. subst acc.
        eapply within_trans; [apply pick_l | now apply Hacc].
      * intros it q [<- | Hin] Hq Hprice.
        -- rewrite Hp in Hprice. injection Hprice as <-. exact Hpm.
        -- eapply Hall; eassumption.
    + apply ret_ok in Hstep. destruct Hstep as [-> ->].
      apply IH in Hrest. destruct Hrest as (-> & Hmx). split; [reflexivity |].
      destruct mx as [m |].
      * destruct Hmx as (Hatt & Hacc & Hall). split; [| split].
        -- destruct Hatt as [Hatt | (it & Hin & Hsel' & Hprice)]; [now left |].
           right. exists it. repeat split; auto. now right.
        -- exact Hacc.
        -- intros it q [<- | Hin] Hq Hprice; [congruence |].
           eapply Hall; eassumption.
      * destruct Hmx as [-> Hall]. split; [reflexivity |].
        intros it [<- | Hin]; [exact Hsel | now apply Hall].
Qed.

End Extreme.

(** X19. When [max_price_in_group] returns, the table is as it was; the
    result is [None] exactly when the predicate selects no element, and
    otherwise it is the price of a selected element that no selected
    element exceeds. *)
Theorem max_price_in_group_spec (items : list PriceElement)
    (predicate : PriceElement -> result bool) (s s' : store) (mx : option Z) :
  Modified.max_price_in_group items predicate s = (s', Ok mx) ->
  s' = s
  /\ match mx with
     | None => forall it, In it items -> predicate it = Ok false
     | Some m =>
         (exists it, In it items /\ predicate it = Ok true
                     /\ dict_get (st_prices s) (key it) = Some m)
         /\ (forall it p, In it items -> predicate it = Ok true ->
               dict_get (st_prices s) (key it) = Some p -> p <= m)
     end.
Proof.
  unfold Modified.max_price_in_group. intros H.
  apply (extreme_price_loop Z.max Z.le) in H;
    try (intros; lia).
  destruct H as [-> H]. split; [reflexivity |].
  destruct mx as [m |].
  - destruct H as ([H | H] & _ & Hall); [discriminate |]. now split.
  - now destruct H.
Qed.

Lemma max_price_in_group_spec_witness :
  let s := Examples.store_of
             [("casco_basic_100", 100); ("casco_basic_200", 95); ("casco_compact_100", 120)] in
  let rank_1 := fun it => rbind (get_deductible_rank (deductible it))
                                (fun r => Ok (r =? 1)) in
  Modified.max_price_in_group (st_items s) rank_1 s = (s, Ok (Some 120))
  /\ s = s
  /\ (exists it, In it (st_items s) /\ rank_1 it = Ok true
                 /\ dict_get (st_prices s) (key it) = Some 120)
  /\ (forall it p, In it (st_items s) -> rank_1 it = Ok true ->
        dict_get (st_prices s) (key it) = Some p -> p <= 120).
Proof.
  split; [vm_compute; reflexivity |].
  apply (max_price_in_group_spec
           (st_items (Examples.store_of
              [("casco_basic_100", 100); ("casco_basic_200", 95); ("casco_compact_100", 120)]))
           (fun it => rbind (get_deductible_rank (deductible it)) (fun r => Ok (r =? 1)))
           (Examples.store_of
              [("casco_basic_100", 100); ("casco_basic_200", 95); ("casco_compact_100", 120)])
           (Examples.store_of
              [("casco_basic_100", 100); ("casco_basic_200", 95); ("casco_compact_100", 120)])
           (Some 120)).
  vm_compute. reflexivity.
Defined.

(** X20. When [min_price_in_group] returns, the table is as it was; the
    result is [None] exactly when the predicate selects no element, and
    otherwise it is the price of a selected element below which no
    selected element lies. *)
Theorem min_price_in_group_spec (items : list PriceElement)
    (predicate : PriceElement -> result bool) (s s' : store) (mn : option Z) :
  Modified.min_price_in_group items predicate s = (s', Ok mn) ->
  s' = s
  /\ match mn with
     | None => forall it, In it items -> predicate it = Ok false
     | Some m =>
         (exists it, In it items /\ predicate it = Ok true
                     /\ dict_get (st_prices s) (key it) = Some m)
         /\ (forall it p, In it items -> predicate it = Ok true ->
               dict_get (st_prices s) (key it) = Some p -> m <= p)
     end.
Proof.
  unfold Modified.min_price_in_group. intros H.
  apply (extreme_price_loop Z.min Z.ge) in H;
    try (intros; lia).
  destruct H as [-> H]. split; [reflexivity |].
  destruct mn as [m |].
  - destruct H as ([H | H] & _ & Hall); [discriminate |]. split; [exact H |].
    intros it p Hin Hsel Hp. specialize (Hall it p Hin Hsel Hp). lia.
  - now destruct H.
Qed.

Lemma min_price_in_group_spec_witness :
  let s := Examples.store_of
             [("mtpl", 400); ("casco_basic_100", 100); ("casco_basic_200", 95)] in
  let is_casco := fun it => Ok (String.eqb (product it) "casco") in
  Modified.min_price_in_group (st_items s) is_casco s = (s, Ok (Some 95))
  /\ s = s
  /\ (exists it, In it (st_items s) /\ is_casco it = Ok true
                 /\ dict_get (st_prices s) (key it) = Some 95)
  /\ (forall it p, In it (st_items s) -> is_casco it = Ok true ->
        dict_get (st_prices s) (key it) = Some p -> 95 <= p).
Proof.
  split; [vm_compute; reflexivity |].
  apply (min_price_in_group_spec
           (st_items (Examples.store_of
              [("mtpl", 400); ("casco_basic_100", 100); ("casco_basic_200", 95)]))
           (fun it => Ok (String.eqb (product it) "casco"))
           (Examples.store_of
              [("mtpl", 400); ("casco_basic_100", 100); ("casco_basic_200", 95)])
           (Examples.store_of
              [("mtpl", 400); ("casco_basic_100", 100); ("casco_basic_200", 95)])
           (Some 95)).
  vm_compute. reflexivity.
Defined.

(** ** What the rewriting loops leave in the table *)

Lemma dict_get_set_same {V : Type} (d : list (string * V)) (k : string) (v : V) :
  dict_get (dict_set d k v) k = Some v.
Proof.
  induction d as [| [k0 v0] rest IH]; simpl.
  - now rewrite String.eqb_refl.
  - destruct (String.eqb k0 k) eqn:E; simpl; rewrite E; [reflexivity | exact IH].
Qed.

Lemma dict_get_set_other {V : Type} (d : list (string * V)) (k k' : string) (v : V) :
  k <> k' -> dict_get (dict_set d k v) k' = dict_get d k'.
Proof.
  intros Hne. induction d as [| [k0 v0] rest IH]; simpl.
  - replace (String.eqb k k') with false; [reflexivity |].
    symmetry. now apply String.eqb_neq.
  - destruct (String.eqb k0 k) eqn:E; simpl.
    + apply String.eqb_eq in E. subst k0.
      replace (String.eqb k k') with false; [reflexivity |].
      symmetry. now apply String.eqb_neq.
    + now rewrite IH.
Qed.

Lemma dict_set_same_value {V : Type} (d : list (string * V)) (k : string) (v : V) :
  dict_get d k = Some v -> dict_set d k v = d.
Proof.
  induction d as [| [k0 v0] rest IH]; simpl; [discriminate |].
  destruct (String.eqb k0 k) eqn:E.
  - intros H. injection H as ->. reflexivity.
  - intros H. now rewrite IH.
Qed.

(** A guarded write, when it returns, leaves the new price in the table
    and raises the flag when that price differs from the old one. *)
Lemma write_if_new_ok (it : PriceElement) (new_val : Z) (c c' : bool) (s s' : store) :
  Modified.write_if_new it new_val c s = (s', Ok c') ->
  exists p,
    dict_get (st_prices s) (key it) = Some p
    /\ s' = mkStore (st_items s) (dict_set (st_prices s) (key it) new_val)
    /\ c' = c || negb (new_val =? p).
Proof.
  unfold Modified.write_if_new. intros H.
  apply bind_ok in H. destruct H as (s1 & p & Hp & H).
  apply price_of_ok in Hp. destruct Hp as [-> Hp].
  exists p. split; [exact Hp |].
  destruct (Z.eqb_spec new_val p) as [-> | Hne]; cbn [negb] in *.
  - apply ret_ok in H. destruct H as [-> ->].
    rewrite (dict_set_same_value _ _ _ Hp), orb_false_r. destruct s; now split.
  - apply bind_ok in H. destruct H as (s2 & u & Hset & H).
    apply ret_ok in H. destruct H as [-> ->].
    unfold set_price in Hset. injection Hset as <- _.
    rewrite orb_true_r. now split.
Qed.

Section Rewriting.

Variable sel : PriceElement -> bool.
Variable target : PriceElement -> Z -> result Z.
Variable body : PriceElement -> bool -> M bool.

Hypothesis body_ok :
  forall it c s s1 c1,
    body it c s = (s1, Ok c1) ->
    if sel it then
      exists p v,
        dict_get (st_prices s) (key it) = Some p
        /\ target it p = Ok v
        /\ s1 = mkStore (st_items s) (dict_set (st_prices s) (key it) v)
        /\ c1 = c || negb (v =? p)
    else s1 = s /\ c1 = c.

Lemma rewriting_loop (l : list PriceElement) :
  NoDup (map key l) ->
  forall (c c' : bool) (s s' : store),
    foreach l body c s = (s', Ok c') ->
    st_items s' = st_items s
    /\ (forall it, In it l -> sel it = true ->
          exists p v,
            dict_get (st_prices s) (key it) = Some p
            /\ target it p = Ok v
            /\ dict_get (st_prices s') (key it) = Some v)
    /\ (forall k, (forall it, In it l -> sel it = true -> key it <> k) ->
          dict_get (st_prices s') k = dict_get (st_prices s) k)
    /\ (c' = false -> s' = s /\ c = false)
    /\ (c' = true ->
        c = true
        \/ exists it p v,
             In it l /\ dict_get (st_prices s) (key it) = Some p
             /\ dict_get (st_prices s') (key it) = Some v /\ v <> p).
Proof.
  induction l as [| it0 rest IH]; intros Hnd c c' s s' H; simpl in H.
  - apply ret_ok in H. destruct H as [-> ->].
    split; [reflexivity |]. split; [intros it [] |]. split; [reflexivity |].
    split; [now split | now left].
  - apply bind_ok in H. destruct H as (s1 & c1 & Hstep & Hrest).
    inversion Hnd as [| ? ? Hnotin Hnd']; subst.
    specialize (IH Hnd' c1 c' s1 s' Hrest).
    destruct IH as (Hitems & Hsel & Hframe & Hdown & Hup).
    apply body_ok in Hstep.
    destruct (sel it0) eqn:Hs0.
    + destruct Hstep as (p0 & v0 & Hp0 & Ht0 & -> & ->). simpl in *.
      assert (Hrest_keys : forall it, In it rest -> key it <> key it0).
      { intros it Hin E. apply Hnotin. rewrite <- E. now apply in_map. }
      assert (H0' : dict_get (st_prices s') (key it0) = Some v0).
      { rewrite Hframe; [apply dict_get_set_same |].
        intros it Hin _. now apply Hrest_keys. }
      split; [exact Hitems |]. split; [| split; [| split]].
      * intros it [<- | Hin] Hs.
        -- exists p0, v0. now repeat split.
        -- destruct (Hsel it Hin Hs) as (p & v & Hp & Ht & Hv).
           exists p, v. repeat split; auto.
           rewrite dict_get_set_other in Hp; [exact Hp |].
           intros E. now apply (Hrest_keys it Hin).
      * intros k Hk. rewrite Hframe.
        -- apply dict_get_set_other. apply Hk; [now left | exact Hs0].
        -- intros it Hin Hs. apply Hk; [now right | exact Hs].
      * intros Hc'. destruct (Hdown Hc') as [-> Hc1].
        apply orb_false_iff in Hc1. destruct Hc1 as [-> Hv].
        apply negb_false_iff, Z.eqb_eq in Hv. subst v0.
        rewrite (dict_set_same_value _ _ _ Hp0). destruct s; now split.
      * intros Hc'. destruct (Hup Hc') as [Hc1 | (it & p & v & Hin & Hp & Hv & Hne)].
        -- apply orb_true_iff in Hc1. destruct Hc1 as [Hc | Hv]; [now left |].
           right. exists it0, p0, v0. split; [now left |]. repeat split; auto.
           apply negb_true_iff, Z.eqb_neq in Hv. exact Hv.
        -- right. exists it, p, v. split; [now right |]. repeat split; auto.
           rewrite dict_get_set_other in Hp; [exact Hp |].
           intros E. now apply (Hrest_keys it Hin).
    + destruct Hstep as [-> ->].
      split; [exact Hitems |]. split; [| split; [| split]].
      * intros it [<- | Hin] Hs; [congruence | now apply Hsel].
      * intros k Hk. apply Hframe. intros it Hin Hs. apply Hk; [now right | exact Hs].
      * exact Hdown.
      * intros Hc'. destruct (Hup Hc') as [Hc1 | (it & p & v & Hin & Hp & Hv & Hne)];
          [now left |].
        right. exists it, p, v. split; [now right |]. repeat split; auto.
Qed.

End Rewriting.

(** X21. What [scale_product] leaves when it returns, on a list whose
    keys are all different: every element of the product has the price
    [int(round(old * factor))], every other entry of the table is as it
    was, and the result is false exactly when no price has changed. *)
Theorem scale_product_spec (items : list PriceElement) (product' : string)
    (factor : Float.float) (s s' : store) (changed : bool) :
  NoDup (map key items) ->
  Modified.scale_product items product' factor s = (s', Ok changed) ->
  st_items s' = st_items s
  /\ (forall it, In it items -> product it = product' ->
        exists p x v,
          dict_get (st_prices s) (key it) = Some p
          /\ Float.int_mul p factor = Ok x /\ Float.round x = Ok v
          /\ dict_get (st_prices s') (key it) = Some v)
  /\ (forall k, (forall it, In it items -> product it = product' -> key it <> k) ->
        dict_get (st_prices s') k = dict_get (st_prices s) k)
  /\ (changed = false <-> s' = s).
Proof.
  intros Hnd H. unfold Modified.scale_product in H.
  apply (rewriting_loop (fun it => String.eqb (product it) product')
           (fun it p => rbind (Float.int_mul p factor) Float.round)) in H; [| | exact Hnd].
  - destruct H as (Hitems & Hsel & Hframe & Hdown & Hup).
    split; [exact Hitems |]. split; [| split; [| split]].
    + intros it Hin Hp. apply String.eqb_eq in Hp.
      destruct (Hsel it Hin Hp) as (p & v & Hget & Ht & Hv).
      apply rbind_ok in Ht. destruct Ht as (x & Hx & Hr).
      now exists p, x, v.
    + intros k Hk. apply Hframe. intros it Hin Hp. apply Hk; [exact Hin |].
      now apply String.eqb_eq.
    + intros Hc. now apply Hdown.
    + intros ->. destruct changed; [| reflexivity].
      destruct (Hup eq_refl) as [Hc | (it & p & v & _ & Hp & Hv & Hne)]; [discriminate |].
      congruence.
  - intros it c s0 s1 c1 Hb.
    destruct (String.eqb (product it) product').
    + apply bind_ok in Hb. destruct Hb as (s2 & p & Hp & Hb).
      apply price_of_ok in Hp. destruct Hp as [-> Hp].
      apply bind_ok in Hb. destruct Hb as (s2 & x & Hx & Hb).
      apply lift_ok in Hx. destruct Hx as [-> Hx].
      apply bind_ok in Hb. destruct Hb as (s2 & v & Hv & Hb).
      apply lift_ok in Hv. destruct Hv as [-> Hv].
      apply write_if_new_ok in Hb. destruct Hb as (p' & Hp' & -> & ->).
      rewrite Hp in Hp'. injection Hp' as <-.
      exists p, v. repeat split; auto. now rewrite Hx.
    + apply ret_ok in Hb. destruct Hb as [-> ->]. now split.
Qed.

(** Doubling the prices of [casco] in a table of three entries. *)
Lemma scale_product_spec_witness :
  let s := Examples.store_of
             [("mtpl", 400); ("casco_basic_100", 100); ("casco_basic_200", 95)] in
  let two := S754_finite false 4503599627370496 (-51) in
  let s' := mkStore (st_items s)
              [("mtpl", 400); ("casco_basic_100", 200); ("casco_basic_200", 190)] in
  Modified.scale_product (st_items s) "casco" two s = (s', Ok true)
  /\ dict_get (st_prices s') "mtpl" = dict_get (st_prices s) "mtpl"
  /\ (true = false <-> s' = s).
Proof.
  split; [vm_compute; reflexivity |].
  pose proof (scale_product_spec
    (st_items (Examples.store_of
       [("mtpl", 400); ("casco_basic_100", 100); ("casco_basic_200", 95)]))
    "casco" (S754_finite false 4503599627370496 (-51))
    (Examples.store_of [("mtpl", 400); ("casco_basic_100", 100); ("casco_basic_200", 95)])
    (mkStore (st_items (Examples.store_of
                [("mtpl", 400); ("casco_basic_100", 100); ("casco_basic_200", 95)]))
       [("mtpl", 400); ("casco_basic_100", 200); ("casco_basic_200", 190)])
    true) as H.
  assert (Hnd : NoDup (map key (st_items (Examples.store_of
                  [("mtpl", 400); ("casco_basic_100", 100); ("casco_basic_200", 95)])))).
  { simpl. repeat constructor; simpl; intuition discriminate. }
  specialize (H Hnd ltac:(vm_compute; reflexivity)).
  destruct H as (_ & _ & Hframe & Hflag).
  split; [| exact Hflag].
  apply Hframe. intros it Hin Hp E. simpl in Hin.
  destruct Hin as [<- | [<- | [<- | []]]]; discriminate.
Defined.

(** What a schedule leaves when it returns, on a group whose keys are all
    different. *)
Lemma schedule_spec (rank : PriceElement -> result Z) (factor : Float.float) (base : Z)
    (group : list PriceElement) (c c' : bool) (s s' : store) :
  NoDup (map key group) ->
  foreach group (fun it changed =>
    bind (lift (rank it)) (fun r =>
    bind (lift (Float.int_mul base (Float.pow factor (r - 1)))) (fun x =>
    bind (lift (Float.round x)) (fun new_price =>
    Modified.write_if_new it new_price changed)))) c s = (s', Ok c') ->
  st_items s' = st_items s
  /\ (forall it, In it group ->
        exists r v, rank it = Ok r /\ schedule_price factor base r = Ok v
                    /\ dict_get (st_prices s') (key it) = Some v)
  /\ (forall k, ~ In k (map key group) ->
        dict_get (st_prices s') k = dict_get (st_prices s) k)
  /\ (c = false -> (c' = false <-> s' = s)).
Proof.
  intros Hnd H.
  apply (rewriting_loop (fun _ => true)
           (fun it _ => rbind (rank it) (schedule_price factor base))) in H; [| | exact Hnd].
  - destruct H as (Hitems & Hsel & Hframe & Hdown & Hup).
    split; [exact Hitems |]. split; [| split].
    + intros it Hin. destruct (Hsel it Hin eq_refl) as (p & v & _ & Ht & Hv).
      apply rbind_ok in Ht. destruct Ht as (r & Hr & Hp). now exists r, v.
    + intros k Hk. apply Hframe. intros it Hin _ E. apply Hk. rewrite <- E. now apply in_map.
    + intros Hc. split.
      * intros Hc'. now apply Hdown.
      * intros ->. destruct c'; [| reflexivity].
        destruct (Hup eq_refl) as [Hc1 | (it & p & v & _ & Hp & Hv & Hne)]; congruence.
  - intros it c0 s0 s1 c1 Hb.
    apply bind_ok in Hb. destruct Hb as (s2 & r & Hr & Hb).
    apply lift_ok in Hr. destruct Hr as [-> Hr].
    apply bind_ok in Hb. destruct Hb as (s2 & x & Hx & Hb).
    apply lift_ok in Hx. destruct Hx as [-> Hx].
    apply bind_ok in Hb. destruct Hb as (s2 & v & Hv & Hb).
    apply lift_ok in Hv. destruct Hv as [-> Hv].
    apply write_if_new_ok in Hb. destruct Hb as (p & Hp & -> & ->).
    exists p, v. repeat split; auto.
    rewrite Hr. simpl. unfold schedule_price. now rewrite Hx.
Qed.

(** X22. What [apply_deductible_schedule] leaves when it returns, on a
    group whose keys are all different: every element of the group has
    the price [int(round(base * 0.9 ** (rank - 1)))] of its deductible
    rank, every other entry of the table is as it was, and the result is
    false exactly when no price has changed. *)
Theorem apply_deductible_schedule_spec (group : list PriceElement) (base : Z)
    (s s' : store) (changed : bool) :
  NoDup (map key group) ->
  Modified.apply_deductible_schedule group base s = (s', Ok changed) ->
  st_items s' = st_items s
  /\ (forall it, In it group ->
        exists r v, get_deductible_rank (deductible it) = Ok r
                    /\ decay_price base r = Ok v
                    /\ dict_get (st_prices s') (key it) = Some v)
  /\ (forall k, ~ In k (map key group) ->
        dict_get (st_prices s') k = dict_get (st_prices s) k)
  /\ (changed = false <-> s' = s).
Proof.
  intros Hnd H.
  apply (schedule_spec (fun it => get_deductible_rank (deductible it))) in H; [| exact Hnd].
  destruct H as (H1 & H2 & H3 & H4). repeat split; auto; now apply H4.
Qed.

(** X23. The same of [apply_variant_schedule], with the price
    [int(round(base * 1.07 ** (rank - 1)))] of the variant rank. *)
Theorem apply_variant_schedule_spec (group : list PriceElement) (base : Z)
    (s s' : store) (changed : bool) :
  NoDup (map key group) ->
  Modified.apply_variant_schedule group base s = (s', Ok changed) ->
  st_items s' = st_items s
  /\ (forall it, In it group ->
        exists r v, get_variant_rank (variant it) = Ok r
                    /\ markup_price base r = Ok v
                    /\ dict_get (st_prices s') (key it) = Some v)
  /\ (forall k, ~ In k (map key group) ->
        dict_get (st_prices s') k = dict_get (st_prices s) k)
  /\ (changed = false <-> s' = s).
Proof.
  intros Hnd H.
  apply (schedule_spec (fun it => get_variant_rank (variant it))) in H; [| exact Hnd].
  destruct H as (H1 & H2 & H3 & H4). repeat split; auto; now apply H4.
Qed.

(** The deductible schedule from the base 100 on a group of three. *)
Lemma apply_deductible_schedule_spec_witness :
  let s := Examples.store_of
             [("casco_basic_100", 100); ("casco_basic_200", 95); ("casco_basic_500", 99)] in
  let s' := mkStore (st_items s)
              [("casco_basic_100", 100); ("casco_basic_200", 90); ("casco_basic_500", 81)] in
  Modified.apply_deductible_schedule (st_items s) 100 s = (s', Ok true)
  /\ st_items s' = st_items s
  /\ (forall it, In it (st_items s) ->
        exists r v, get_deductible_rank (deductible it) = Ok r
                    /\ decay_price 100 r = Ok v
                    /\ dict_get (st_prices s') (key it) = Some v)
  /\ (forall k, ~ In k (map key (st_items s)) ->
        dict_get (st_prices s') k = dict_get (st_prices s) k)
  /\ (true = false <-> s' = s).
Proof.
  split; [vm_compute; reflexivity |].
  apply (apply_deductible_schedule_spec
    (st_items (Examples.store_of
       [("casco_basic_100", 100); ("casco_basic_200", 95); ("casco_basic_500", 99)]))
    100
    (Examples.store_of
       [("casco_basic_100", 100); ("casco_basic_200", 95); ("casco_basic_500", 99)])).
  - simpl. repeat constructor; simpl; intuition discriminate.
  - vm_compute. reflexivity.
Defined.

(** The variant schedule from the base 100 on a group of three. *)
Lemma apply_variant_schedule_spec_witness :
  let s := Examples.store_of
             [("casco_basic_100", 100); ("casco_comfort_100", 95); ("casco_premium_100", 99)] in
  let s' := mkStore (st_items s)
              [("casco_basic_100", 100); ("casco_comfort_100", 107);
               ("casco_premium_100", 114)] in
  Modified.apply_variant_schedule (st_items s) 100 s = (s', Ok true)
  /\ st_items s' = st_items s
  /\ (forall it, In it (st_items s) ->
        exists r v, get_variant_rank (variant it) = Ok r
                    /\ markup_price 100 r = Ok v
                    /\ dict_get (st_prices s') (key it) = Some v)
  /\ (forall k, ~ In k (map key (st_items s)) ->
        dict_get (st_prices s') k = dict_get (st_prices s) k)
  /\ (true = false <-> s' = s).
Proof.
  split; [vm_compute; reflexivity |].
  apply (apply_variant_schedule_spec
    (st_items (Examples.store_of
       [("casco_basic_100", 100); ("casco_comfort_100", 95); ("casco_premium_100", 99)]))
    100
    (Examples.store_of
       [("casco_basic_100", 100); ("casco_comfort_100", 95); ("casco_premium_100", 99)])).
  - simpl. repeat constructor; simpl; intuition discriminate.
  - vm_compute. reflexivity.
Defined.

(** ** The schedules on bases that are large enough *)

Lemma Qval_pos (m : positive) (e : Z) : (0 < Qval (Zpos m) e)%Q.
Proof.
  unfold Qval. apply Qmult_lt_0_compat; [| apply Qpow2_pos].
  change 0%Q with (inject_Z 0). rewrite <- Zlt_Qlt. lia.
Qed.

(** Scaling an int by two positive floats and rounding separates the
    results, once the int is so large that the two products are more than
    one apart. *)
Lemma scaled_round_strict (mc1 mc2 : positive) (ec1 ec2 : Z) (bound base p1 p2 : Z) :
  -970 <= ec1 -> -970 <= ec2 ->
  0 < bound ->
  (1 + inject_Z bound * (Qval (Zpos mc1) ec1 * (1 + eps) * (1 + eps))
   < inject_Z bound * (Qval (Zpos mc2) ec2 * (1 - eps) * (1 - eps)))%Q ->
  bound <= base ->
  rbind (Float.int_mul base (S754_finite false mc1 ec1)) Float.round = Ok p1 ->
  rbind (Float.int_mul base (S754_finite false mc2 ec2)) Float.round = Ok p2 ->
  p1 < p2.
Proof.
  intros He1 He2 Hbound Hgap Hbase H1 H2.
  destruct base as [| b | b]; [lia | | lia].
  unfold Float.int_mul in H1, H2.
  destruct (Float.of_int (Zpos b)) as [x | e] eqn:Hx; [| discriminate].
  apply of_int_error in Hx. destruct Hx as (mx & ex & -> & Hex & Hvx).
  cbn [rbind] in H1, H2.
  pose proof (mul_error mx mc1 ex ec1) as M1.
  pose proof (mul_error mx mc2 ex ec2) as M2.
  assert (Hd1 : 1 <= Zpos (digits2_pos (mx * mc1))) by lia.
  assert (Hd2 : 1 <= Zpos (digits2_pos (mx * mc2))) by lia.
  specialize (M1 ltac:(lia)). specialize (M2 ltac:(lia)).
  destruct (Float.mul (S754_finite false mx ex) (S754_finite false mc1 ec1))
    as [| | | s1 my1 ey1]; try contradiction; try discriminate.
  destruct (Float.mul (S754_finite false mx ex) (S754_finite false mc2 ec2))
    as [| | | s2 my2 ey2]; try contradiction; try discriminate.
  destruct M1 as (-> & Hy1). destruct M2 as (-> & Hy2).
  destruct (round_error my1 ey1) as (q1 & Hq1 & Hr1).
  destruct (round_error my2 ey2) as (q2 & Hq2 & Hr2).
  rewrite Hq1 in H1. rewrite Hq2 in H2. injection H1 as <-. injection H2 as <-.
  pose proof (Qval_pos mc1 ec1) as Hc1. pose proof (Qval_pos mc2 ec2) as Hc2.
  set (vx := Qval (Zpos mx) ex) in *.
  set (vc1 := Qval (Zpos mc1) ec1) in *. set (vc2 := Qval (Zpos mc2) ec2) in *.
  set (vy1 := Qval (Zpos my1) ey1) in *. set (vy2 := Qval (Zpos my2) ey2) in *.
  assert (Hcq : (inject_Z bound <= inject_Z (Zpos b))%Q) by (rewrite <- Zle_Qle; exact Hbase).
  set (bq := inject_Z (Zpos b)) in *. set (cq := inject_Z bound) in *.
  assert (Hcq0 : (0 < cq)%Q).
  { unfold cq. change 0%Q with (inject_Z 0). rewrite <- Zlt_Qlt. exact Hbound. }
  assert (Heps : (0 < eps)%Q /\ (eps < 1)%Q) by (unfold eps; split; reflexivity).
  assert (Hup : (vx * (vc1 * (1 + eps)) <= (bq * (1 + eps)) * (vc1 * (1 + eps)))%Q).
  { apply Qmult_le_compat_r; [lra |].
    apply Qlt_le_weak, Qmult_lt_0_compat; lra. }
  assert (Hlo : ((bq * (1 - eps)) * (vc2 * (1 - eps)) <= vx * (vc2 * (1 - eps)))%Q).
  { apply Qmult_le_compat_r; [lra |].
    apply Qlt_le_weak, Qmult_lt_0_compat; lra. }
  set (A := (vc1 * (1 + eps) * (1 + eps))%Q) in *.
  set (B := (vc2 * (1 - eps) * (1 - eps))%Q) in *.
  assert (HAB : (0 < B - A)%Q).
  { assert (Hx : (cq * A < cq * B)%Q) by lra.
    rewrite Qmult_lt_l in Hx by exact Hcq0. lra. }
  assert (Hscale : (cq * (B - A) <= bq * (B - A))%Q).
  { apply Qmult_le_compat_r; [exact Hcq | lra]. }
  assert (HupA : (vy1 <= bq * A)%Q).
  { apply Qle_trans with (vx * vc1 * (1 + eps))%Q; [lra |].
    unfold A. setoid_replace (vx * vc1 * (1 + eps))%Q with (vx * (vc1 * (1 + eps)))%Q by ring.
    setoid_replace (bq * (vc1 * (1 + eps) * (1 + eps)))%Q
      with ((bq * (1 + eps)) * (vc1 * (1 + eps)))%Q by ring.
    exact Hup. }
  assert (HloB : (bq * B <= vy2)%Q).
  { apply Qle_trans with (vx * vc2 * (1 - eps))%Q; [| lra].
    unfold B. setoid_replace (vx * vc2 * (1 - eps))%Q with (vx * (vc2 * (1 - eps)))%Q by ring.
    setoid_replace (bq * (vc2 * (1 - eps) * (1 - eps)))%Q
      with ((bq * (1 - eps)) * (vc2 * (1 - eps)))%Q by ring.
    exact Hlo. }
  assert (Hsc : (cq * B - cq * A <= bq * B - bq * A)%Q).
  { setoid_replace (cq * B - cq * A)%Q with (cq * (B - A))%Q by ring.
    setoid_replace (bq * B - bq * A)%Q with (bq * (B - A))%Q by ring.
    exact Hscale. }
  set (bA := (bq * A)%Q) in *. set (bB := (bq * B)%Q) in *.
  set (cA := (cq * A)%Q) in *. set (cB := (cq * B)%Q) in *.
  assert (Hlt : (inject_Z q1 < inject_Z q2)%Q) by lra.
  rewrite <- Zlt_Qlt in Hlt. exact Hlt.
Qed.

(** From a base of 8 or more the decay schedule gives a higher rank a
    strictly lower price (from 6 and 7 the ranks 2 and 3 get the same
    price). *)
Lemma decay_price_strict (base r1 r2 p1 p2 : Z) :
  8 <= base ->
  (r1 = 1 \/ r1 = 2 \/ r1 = 3) -> (r2 = 1 \/ r2 = 2 \/ r2 = 3) -> r1 < r2 ->
  decay_price base r1 = Ok p1 -> decay_price base r2 = Ok p2 ->
  p2 < p1.
Proof.
  intros Hbase Hr1 Hr2 Hlt H1 H2.
  unfold decay_price, schedule_price in H1, H2.
  destruct decay_factors as (F1 & F2 & F3).
  assert (Hsmall : base = 8 \/ base = 9 \/ base = 10 \/ base = 11 \/ 12 <= base) by lia.
  destruct Hr1 as [-> | [-> | ->]]; destruct Hr2 as [-> | [-> | ->]]; try lia;
    (destruct Hsmall as [-> | [-> | [-> | [-> | Hbig]]]];
     [vm_compute in H1, H2; injection H1 as <-; injection H2 as <-; lia ..
     | rewrite ?F1, ?F2, ?F3 in H1; rewrite ?F1, ?F2, ?F3 in H2;
       eapply (scaled_round_strict _ _ _ _ 12); [| | | | exact Hbig | exact H2 | exact H1];
       [lia | lia | lia | vm_compute; reflexivity]]).
Qed.

(** From a base of 11 or more the markup schedule gives a higher rank a
    strictly higher price (from 8, 9 and 10 the ranks 2 and 3 get the
    same price). *)
Lemma markup_price_strict (base r1 r2 p1 p2 : Z) :
  11 <= base ->
  (r1 = 1 \/ r1 = 2 \/ r1 = 3) -> (r2 = 1 \/ r2 = 2 \/ r2 = 3) -> r1 < r2 ->
  markup_price base r1 = Ok p1 -> markup_price base r2 = Ok p2 ->
  p1 < p2.
Proof.
  intros Hbase Hr1 Hr2 Hlt H1 H2.
  unfold markup_price, schedule_price in H1, H2.
  destruct markup_factors as (F1 & F2 & F3).
  assert (Hsmall : base = 11 \/ base = 12 \/ base = 13 \/ base = 14 \/ 15 <= base) by lia.
  destruct Hr1 as [-> | [-> | ->]]; destruct Hr2 as [-> | [-> | ->]]; try lia;
    (destruct Hsmall as [-> | [-> | [-> | [-> | Hbig]]]];
     [vm_compute in H1, H2; injection H1 as <-; injection H2 as <-; lia ..
     | rewrite ?F1, ?F2, ?F3 in H1; rewrite ?F1, ?F2, ?F3 in H2;
       eapply (scaled_round_strict _ _ _ _ 15); [| | | | exact Hbig | exact H1 | exact H2];
       [lia | lia | lia | vm_compute; reflexivity]]).
Qed.

(** The bounds are the least ones: below them two ranks get the same
    price. *)
Example schedule_ties_below :
  (decay_price 6 2 = Ok 5 /\ decay_price 6 3 = Ok 5)
  /\ (decay_price 7 2 = Ok 6 /\ decay_price 7 3 = Ok 6)
  /\ (markup_price 8 2 = Ok 9 /\ markup_price 8 3 = Ok 9)
  /\ (markup_price 9 2 = Ok 10 /\ markup_price 9 3 = Ok 10)
  /\ (markup_price 10 2 = Ok 11 /\ markup_price 10 3 = Ok 11).
Proof. repeat split; vm_compute; reflexivity. Qed.

(** X24. After [apply_deductible_schedule] from a base that is not
    negative, on a group whose keys are all different, no element of the
    group is dearer than one of a lower deductible rank; from a base of 8
    or more a higher rank is strictly cheaper, which is what the detector
    asks for. *)
Theorem apply_deductible_schedule_orders (group : list PriceElement) (base : Z)
    (s s' : store) (changed : bool) (x y : PriceElement) (dx dy px py : Z) :
  NoDup (map key group) ->
  0 <= base ->
  Modified.apply_deductible_schedule group base s = (s', Ok changed) ->
  In x group -> In y group ->
  get_deductible_rank (deductible x) = Ok dx ->
  get_deductible_rank (deductible y) = Ok dy ->
  dict_get (st_prices s') (key x) = Some px ->
  dict_get (st_prices s') (key y) = Some py ->
  (dx <= dy -> py <= px) /\ (8 <= base -> dx < dy -> py < px).
Proof.
  intros Hnd Hbase H Hx Hy Hdx Hdy Hpx Hpy.
  apply (schedule_spec (fun it => get_deductible_rank (deductible it))) in H; [| exact Hnd].
  destruct H as (_ & Hall & _).
  destruct (Hall x Hx) as (rx & vx & Hrx & Hvx & Hgx).
  destruct (Hall y Hy) as (ry & vy & Hry & Hvy & Hgy).
  assert (rx = dx) by congruence. assert (ry = dy) by congruence.
  assert (vx = px) by congruence. assert (vy = py) by congruence. subst.
  pose proof (get_deductible_rank_range _ _ Hdx) as Rx.
  pose proof (get_deductible_rank_range _ _ Hdy) as Ry.
  split.
  - intros Hle. now apply (decay_price_mono base dx dy).
  - intros Hbig Hlt. now apply (decay_price_strict base dx dy).
Qed.

Lemma apply_deductible_schedule_orders_witness :
  let s := Examples.store_of
             [("casco_basic_100", 100); ("casco_basic_200", 95); ("casco_basic_500", 99)] in
  let s' := mkStore (st_items s)
              [("casco_basic_100", 100); ("casco_basic_200", 90); ("casco_basic_500", 81)] in
  Modified.apply_deductible_schedule (st_items s) 100 s = (s', Ok true)
  /\ (2 <= 3 -> 81 <= 90) /\ (8 <= 100 -> 2 < 3 -> 81 < 90).
Proof.
  split; [vm_compute; reflexivity |].
  apply (apply_deductible_schedule_orders
    (st_items (Examples.store_of
       [("casco_basic_100", 100); ("casco_basic_200", 95); ("casco_basic_500", 99)]))
    100
    (Examples.store_of
       [("casco_basic_100", 100); ("casco_basic_200", 95); ("casco_basic_500", 99)])
    (mkStore (st_items (Examples.store_of
       [("casco_basic_100", 100); ("casco_basic_200", 95); ("casco_basic_500", 99)]))
       [("casco_basic_100", 100); ("casco_basic_200", 90); ("casco_basic_500", 81)])
    true
    (mkPriceElement "casco_basic_200" "casco" (Some "basic") (Some 200))
    (mkPriceElement "casco_basic_500" "casco" (Some "basic") (Some 500)));
    try (vm_compute; reflexivity).
  - simpl. repeat constructor; simpl; intuition discriminate.
  - lia.
  - right. left. reflexivity.
  - right. right. left. reflexivity.
Defined.

(** X25. After [apply_variant_schedule] from a base that is not
    negative, on a group whose keys are all different, no element of the
    group is cheaper than one of a lower variant rank; from a base of 11
    or more a higher rank is strictly dearer. *)
Theorem apply_variant_schedule_orders (group : list PriceElement) (base : Z)
    (s s' : store) (changed : bool) (x y : PriceElement) (vx vy px py : Z) :
  NoDup (map key group) ->
  0 <= base ->
  Modified.apply_variant_schedule group base s = (s', Ok changed) ->
  In x group -> In y group ->
  get_variant_rank (variant x) = Ok vx ->
  get_variant_rank (variant y) = Ok vy ->
  dict_get (st_prices s') (key x) = Some px ->
  dict_get (st_prices s') (key y) = Some py ->
  (vx <= vy -> px <= py) /\ (11 <= base -> vx < vy -> px < py).
Proof.
  intros Hnd Hbase H Hx Hy Hvx Hvy Hpx Hpy.
  apply (schedule_spec (fun it => get_variant_rank (variant it))) in H; [| exact Hnd].
  destruct H as (_ & Hall & _).
  destruct (Hall x Hx) as (rx & qx & Hrx & Hqx & Hgx).
  destruct (Hall y Hy) as (ry & qy & Hry & Hqy & Hgy).
  assert (rx = vx) by congruence. assert (ry = vy) by congruence.
  assert (qx = px) by congruence. assert (qy = py) by congruence. subst.
  pose proof (get_variant_rank_range _ _ Hvx) as Rx.
  pose proof (get_variant_rank_range _ _ Hvy) as Ry.
  split.
  - intros Hle. now apply (markup_price_mono base vx vy).
  - intros Hbig Hlt. now apply (markup_price_strict base vx vy).
Qed.

Lemma apply_variant_schedule_orders_witness :
  let s := Examples.store_of
             [("casco_basic_100", 100); ("casco_comfort_100", 95); ("casco_premium_100", 99)] in
  let s' := mkStore (st_items s)
              [("casco_basic_100", 100); ("casco_comfort_100", 107);
               ("casco_premium_100", 114)] in
  Modified.apply_variant_schedule (st_items s) 100 s = (s', Ok true)
  /\ (2 <= 3 -> 107 <= 114) /\ (11 <= 100 -> 2 < 3 -> 107 < 114).
Proof.
  split; [vm_compute; reflexivity |].
  apply (apply_variant_schedule_orders
    (st_items (Examples.store_of
       [("casco_basic_100", 100); ("casco_comfort_100", 95); ("casco_premium_100", 99)]))
    100
    (Examples.store_of
       [("casco_basic_100", 100); ("casco_comfort_100", 95); ("casco_premium_100", 99)])
    (mkStore (st_items (Examples.store_of
       [("casco_basic_100", 100); ("casco_comfort_100", 95); ("casco_premium_100", 99)]))
       [("casco_basic_100", 100); ("casco_comfort_100", 107); ("casco_premium_100", 114)])
    true
    (mkPriceElement "casco_comfort_100" "casco" (Some "comfort") (Some 100))
    (mkPriceElement "casco_premium_100" "casco" (Some "premium") (Some 100)));
    try (vm_compute; reflexivity).
  - simpl. repeat constructor; simpl; intuition discriminate.
  - lia.
  - right. left. reflexivity.
  - right. right. left. reflexivity.
Defined.

(** X26. Both schedules leave the base price to the elements of rank 1:
    for a base from 0 and below [2^50], [int(round(base * factor ** 0))],
    when it returns, is the base itself. *)
Theorem schedule_price_rank_1 (factor : Float.float) (base p : Z) :
  0 <= base < 2 ^ 50 ->
  schedule_price factor base 1 = Ok p ->
  p = base.
Proof.
  intros Hbase H. unfold schedule_price in H.
  change (Float.pow factor (1 - 1)) with Float.one in H.
  destruct base as [| b | b]; [| | lia].
  - vm_compute in H. congruence.
  - unfold Float.int_mul, Float.one in H.
    destruct (Float.of_int (Zpos b)) as [x | e] eqn:Hx; [| discriminate].
    apply of_int_error in Hx. destruct Hx as (mx & ex & -> & Hex & Hvx).
    cbn [rbind] in H.
    pose proof (mul_error mx 4503599627370496 ex (-52)) as M.
    assert (Hd : 1 <= Zpos (digits2_pos (mx * 4503599627370496))) by lia.
    specialize (M ltac:(lia)).
    destruct (Float.mul (S754_finite false mx ex) (S754_finite false 4503599627370496 (-52)))
      as [| | | s1 my ey]; try contradiction; try discriminate.
    destruct M as (-> & Hy).
    destruct (round_error my ey) as (q & Hq & Hr).
    rewrite Hq in H. injection H as <-.
    assert (Hone : (Qval (Zpos 4503599627370496) (-52) == 1)%Q) by reflexivity.
    rewrite Hone in Hy.
    assert (Hb1 : (1 <= inject_Z (Zpos b))%Q).
    { change 1%Q with (inject_Z 1). rewrite <- Zle_Qle. lia. }
    assert (Hb2 : (inject_Z (Zpos b) <= inject_Z (2 ^ 50 - 1))%Q).
    { rewrite <- Zle_Qle. lia. }
    change (inject_Z (2 ^ 50 - 1)) with (1125899906842623 # 1)%Q in Hb2.
    set (bq := inject_Z (Zpos b)) in *.
    set (vx := Qval (Zpos mx) ex) in *. set (vy := Qval (Zpos my) ey) in *.
    assert (Hup : (vx * 1 * (1 + eps) <= bq * (1 + eps) * (1 + eps))%Q).
    { setoid_replace (vx * 1 * (1 + eps))%Q with (vx * (1 + eps))%Q by ring.
      apply Qmult_le_compat_r; [lra | unfold eps; lra]. }
    assert (Hlo : (bq * (1 - eps) * (1 - eps) <= vx * 1 * (1 - eps))%Q).
    { setoid_replace (vx * 1 * (1 - eps))%Q with (vx * (1 - eps))%Q by ring.
      apply Qmult_le_compat_r; [lra | unfold eps; lra]. }
    assert (Hup' : (bq * (1 + eps) * (1 + eps) < bq + (1 # 2))%Q).
    { setoid_replace (bq * (1 + eps) * (1 + eps))%Q
        with (bq + bq * (2 * eps + eps * eps))%Q by ring.
      assert ((bq * (2 * eps + eps * eps) <= (1125899906842623 # 1) * (2 * eps + eps * eps))%Q).
      { apply Qmult_le_compat_r; [exact Hb2 | unfold eps; lra]. }
      assert (((1125899906842623 # 1) * (2 * eps + eps * eps) < 1 # 2)%Q) by reflexivity.
      lra. }
    assert (Hlo' : (bq - (1 # 2) < bq * (1 - eps) * (1 - eps))%Q).
    { setoid_replace (bq * (1 - eps) * (1 - eps))%Q
        with (bq - bq * (2 * eps - eps * eps))%Q by ring.
      assert ((bq * (2 * eps - eps * eps) <= (1125899906842623 # 1) * (2 * eps - eps * eps))%Q).
      { apply Qmult_le_compat_r; [exact Hb2 | unfold eps; lra]. }
      assert (((1125899906842623 # 1) * (2 * eps - eps * eps) < 1 # 2)%Q) by reflexivity.
      lra. }
    assert (H1 : (inject_Z q < bq + 1)%Q) by lra.
    assert (H2 : (bq - 1 < inject_Z q)%Q) by lra.
    unfold bq in H1, H2.
    change 1%Q with (inject_Z 1) in H1, H2.
    rewrite <- inject_Z_plus in H1. unfold Qminus in H2.
    rewrite <- inject_Z_opp, <- inject_Z_plus in H2.
    rewrite <- Zlt_Qlt in H1, H2. lia.
Qed.

Lemma schedule_price_rank_1_witness :
  0 <= 830 < 2 ^ 50 /\ schedule_price Float.lit_0_9 830 1 = Ok 830 /\ 830 = 830.
Proof.
  split; [lia |]. split; [vm_compute; reflexivity |].
  apply (schedule_price_rank_1 Float.lit_0_9 830 830); [lia | vm_compute; reflexivity].
Defined.

(** ** Pairs without a ratio, in the two files *)

(** The scan of [modified_version.py] over a pair whose averages are
    missing. *)
Lemma modified_scan_continues_witness :
  let s := Examples.store_of [("mtpl", 400); ("casco_compact_100", 300)] in
  let m := mkPriceElement "mtpl" "mtpl" None None in
  let c := mkPriceElement "casco_compact_100" "casco" (Some "compact") (Some 100) in
  foreach [c] (Modified.fix_pair (st_items s) [] m) false s
  = foreach [] (Modified.fix_pair (st_items s) [] m) false s.
Proof.
  apply (modified_scan_continues
           (st_items (Examples.store_of [("mtpl", 400); ("casco_compact_100", 300)]))
           [] []
           (mkPriceElement "mtpl" "mtpl" None None)
           (mkPriceElement "casco_compact_100" "casco" (Some "compact") (Some 100))
           false
           (Examples.store_of [("mtpl", 400); ("casco_compact_100", 300)]) 1 3);
    try reflexivity.
  - lia.
  - left. reflexivity.
Defined.

(** X29. In [main.py] the ratio of the averages is computed without a
    guard: when the first two elements of the list resolve and have
    different product ranks, the repair raises on its first pair, with
    the table untouched, [TypeError] when an average of the two products
    is missing and [ZeroDivisionError] when both are there and the one of
    the lower product is zero. *)
Theorem main_raises_on_first_pair
    (avg_prices : list (string * Float.float)) (max_iters : Z) (s : store)
    (a b : PriceElement) (rest : list PriceElement) (pa pb : Z) :
  st_items s = a :: b :: rest ->
  0 < max_iters ->
  resolves s a = true -> resolves s b = true ->
  get_product_rank (product a) = Ok pa ->
  get_product_rank (product b) = Ok pb ->
  pa <> pb ->
  let lower := if pa <? pb then a else b in
  let higher := if pa <? pb then b else a in
  (dict_get avg_prices (product lower) = None
   \/ dict_get avg_prices (product higher) = None ->
   Main.fix_products_inplace avg_prices max_iters s = (s, Raise TypeError))
  /\ (forall z h,
        dict_get avg_prices (product lower) = Some z -> Float.is_zero z = true ->
        dict_get avg_prices (product higher) = Some h ->
        Main.fix_products_inplace avg_prices max_iters s = (s, Raise ZeroDivisionError)).
Proof.
  intros Hitems Hpos Ha Hb Hpa Hpb Hne lower higher.
  assert (Hl : resolves s lower = true) by (unfold lower; destruct (pa <? pb); assumption).
  assert (Hh : resolves s higher = true) by (unfold higher; destruct (pa <? pb); assumption).
  destruct (resolves_price _ _ Hl) as [pl Hpl].
  destruct (resolves_price _ _ Hh) as [ph Hph].
  assert (Hra := Ha). assert (Hrb := Hb).
  unfold resolves in Hra, Hrb.
  apply andb_prop in Hra. destruct Hra as [Hra _]. apply andb_prop in Hra. destruct Hra as [_ Hra].
  apply andb_prop in Hrb. destruct Hrb as [Hrb _]. apply andb_prop in Hrb. destruct Hrb as [_ Hrb].
  assert (Hva : is_core_product (product a) || is_ok (get_variant_rank (variant a)) = true).
  { destruct (is_core_product (product a)); [reflexivity |].
    simpl in *. now apply andb_prop in Hra. }
  assert (Hda : is_core_product (product a) || is_ok (get_deductible_rank (deductible a)) = true).
  { destruct (is_core_product (product a)); [reflexivity |].
    simpl in *. now apply andb_prop in Hra. }
  assert (Hvb : is_core_product (product b) || is_ok (get_variant_rank (variant b)) = true).
  { destruct (is_core_product (product b)); [reflexivity |].
    simpl in *. now apply andb_prop in Hrb. }
  assert (Hdb : is_core_product (product b) || is_ok (get_deductible_rank (deductible b)) = true).
  { destruct (is_core_product (product b)); [reflexivity |].
    simpl in *. now apply andb_prop in Hrb. }
  destruct (main_rank_unless_core_ok s _ _ Hva) as [va Eva].
  destruct (main_rank_unless_core_ok s _ _ Hvb) as [vb Evb].
  destruct (main_rank_unless_core_ok s _ _ Hda) as [da Eda].
  destruct (main_rank_unless_core_ok s _ _ Hdb) as [db Edb].
  assert (Hneq : negb (pa =? pb) = true).
  { apply negb_true_iff. now apply Z.eqb_neq. }
  assert (Hrun : forall e,
            Main.avg_ratio (dict_get avg_prices (product higher))
                           (dict_get avg_prices (product lower)) = Raise e ->
            Main.fix_products_inplace avg_prices max_iters s = (s, Raise e)).
  { intros e He.
    assert (Hpair : forall l, Main.fix_pair (st_items s) avg_prices a b l s = (s, Raise e)).
    { intros l. unfold Main.fix_pair, bind, lift.
      rewrite Hpa, Hpb, Eva, Evb, Eda, Edb, Hneq.
      fold lower higher. unfold Main.fix_product_order, bind, lift.
      rewrite (price_of_some _ _ _ Hpl), (price_of_some _ _ _ Hph). cbv zeta.
      rewrite He. reflexivity. }
    unfold Main.fix_products_inplace.
    destruct (Z.to_nat max_iters) as [| n] eqn:En; [lia |].
    cbn [Main.fix_loop].
    assert (Hpass : forall l, Main.fix_pass avg_prices l s = (s, Raise e)).
    { intros l. unfold Main.fix_pass, get_items. unfold bind at 1.
      pattern (st_items s) at 1. rewrite Hitems. cbn [for_pairs foreach].
      unfold bind. rewrite Hpair. reflexivity. }
    unfold bind. rewrite Hpass. reflexivity. }
  split.
  - intros Hnone. apply Hrun. unfold Main.avg_ratio.
    destruct Hnone as [-> | ->]; [| reflexivity].
    destruct (dict_get avg_prices (product higher)); reflexivity.
  - intros z h Hz Hzero Hhigh. apply Hrun. unfold Main.avg_ratio, Float.truediv.
    rewrite Hz, Hhigh, Hzero. reflexivity.
Qed.

(** The table of [run_example] begins with ["mtpl"]: without averages
    the first pair already raises. *)
Lemma main_raises_on_first_pair_witness :
  let s := Examples.store_of
             [("mtpl", 400); ("limited_casco_compact_100", 820); ("casco_compact_100", 750)] in
  Main.fix_products_inplace [] 10 s = (s, Raise TypeError).
Proof.
  apply (main_raises_on_first_pair [] 10
           (Examples.store_of
              [("mtpl", 400); ("limited_casco_compact_100", 820);
               ("casco_compact_100", 750)])
           (mkPriceElement "mtpl" "mtpl" None None)
           (mkPriceElement "limited_casco_compact_100" "limited_casco"
              (Some "compact") (Some 100))
           [mkPriceElement "casco_compact_100" "casco" (Some "compact") (Some 100)]
           1 2);
    try reflexivity.
  - lia.
  - left. reflexivity.
Defined.
